(** * Bidirectional weekly-planner PDF export: model and properties

    A shallow embedding of the Python export scripts
    ([simple_pymypdf_export.py], [replit_integration.py],
    [api/pymypdf_bidirectional_export.py]) and of the layout helpers of the
    planner prototypes ([daily_view_audit.py],
    [attached_assets/replit_daily_planner_*.py],
    [attached_assets/pdf_generator_enhanced_*.py]).

    Python exceptions are an explicit [result]; the file system and the
    PyMuPDF documents are explicit state; floating-point layout arithmetic
    is binary64 ([PrimFloat]). *)

From Stdlib Require Import ZArith List String Ascii Lia Floats.
From stdpp Require Import gmap strings list.

Set Warnings "-register-all".
Local Open Scope string_scope.
Local Open Scope list_scope.
Local Open Scope Z_scope.

(* ===================================================================== *)
(** * Python values, exceptions and strings *)
(* ===================================================================== *)

Module Py.

(** The exception classes the modelled code can meet.  All of them derive
    from [Exception], so [except Exception] and a bare [except] catch
    every one of them. *)
Inductive exc : Type :=
| ValueError | TypeError | AttributeError | IndexError
| OverflowError | OSError.

(** Outcome of evaluating an expression that may raise. *)
Inductive result (A : Type) : Type :=
| Ok (a : A)
| Raise (e : exc).
Global Arguments Ok {A} a.
Global Arguments Raise {A} e.

Global Instance result_ret : MRet result := fun _ a => Ok a.
Global Instance result_bind : MBind result := fun _ _ f m =>
  match m with
  | Ok a => f a
  | Raise e => Raise e
  end.

(** [try: m  except Exception: h] for pure code. *)
Definition try_except {A} (m : result A) (h : exc -> result A) : result A :=
  match m with
  | Ok a => Ok a
  | Raise e => h e
  end.

Definition is_ok {A} (m : result A) : bool :=
  match m with Ok _ => true | Raise _ => false end.

(** JSON-decoded values as they occur in event records. *)
Inductive value : Type :=
| VNone
| VBool (b : bool)
| VInt (n : Z)
| VStr (s : string)
| VList (l : list value).

(** Python truthiness. *)
Definition truthy (v : value) : bool :=
  match v with
  | VNone => false
  | VBool b => b
  | VInt n => negb (n =? 0)
  | VStr s => negb (String.eqb s "")
  | VList l => match l with [] => false | _ => true end
  end.

(** [d.get(key, default)] *)
Definition get (d : gmap string value) (key : string) (default : value) : value :=
  match d !! key with
  | Some v => v
  | None => default
  end.

(** [d.get(key)] *)
Definition get_none (d : gmap string value) (key : string) : value :=
  get d key VNone.

(** [s.replace('Z', '+00:00')]: every occurrence is replaced. *)
Fixpoint replace_Z (s : string) : string :=
  match s with
  | EmptyString => EmptyString
  | String c rest =>
      if Ascii.eqb c "Z" then "+00:00" +:+ replace_Z rest
      else String c (replace_Z rest)
  end.

(** [v.replace('Z', '+00:00')] on an arbitrary value: only [str] has the
    method. *)
Definition replace_Z_value (v : value) : result string :=
  match v with
  | VStr s => Ok (replace_Z s)
  | _ => Raise AttributeError
  end.

(** [s.split(sep)] for a one-character separator: never empty. *)
Fixpoint split (sep : ascii) (s : string) : list string :=
  match s with
  | EmptyString => [EmptyString]
  | String c rest =>
      if Ascii.eqb c sep then EmptyString :: split sep rest
      else match split sep rest with
           | [] => [String c EmptyString]
           | w :: ws => String c w :: ws
           end
  end.

(** [sep in s] *)
Fixpoint contains (sep : ascii) (s : string) : bool :=
  match s with
  | EmptyString => false
  | String c rest => Ascii.eqb c sep || contains sep rest
  end.

(** [s[:n]] on a string (characters are modelled as bytes). *)
Fixpoint str_take (n : nat) (s : string) : string :=
  match n, s with
  | O, _ => EmptyString
  | _, EmptyString => EmptyString
  | S n', String c rest => String c (str_take n' rest)
  end.

(** [l[i]] for [i >= 0]: [IndexError] past the end. *)
Definition list_index {A : Type} (l : list A) (i : nat) : result A :=
  match l !! i with
  | Some x => Ok x
  | None => Raise IndexError
  end.

(** [v[:n]]: strings and lists can be sliced, the other values raise
    [TypeError] (not subscriptable). *)
Definition slice_to (n : nat) (v : value) : result value :=
  match v with
  | VStr s => Ok (VStr (str_take n s))
  | VList l => Ok (VList (take n l))
  | _ => Raise TypeError
  end.

Definition upper_ascii (c : ascii) : ascii :=
  let n := nat_of_ascii c in
  if ((97 <=? n)%nat && (n <=? 122)%nat)%bool then ascii_of_nat (n - 32) else c.

(** [s.upper()] (ASCII letters). *)
Fixpoint str_upper (s : string) : string :=
  match s with
  | EmptyString => EmptyString
  | String c rest => String (upper_ascii c) (str_upper rest)
  end.

Definition upper_value (v : value) : result string :=
  match v with
  | VStr s => Ok (str_upper s)
  | _ => Raise AttributeError
  end.

(** Decimal digits. *)
Definition digit_of (c : ascii) : option Z :=
  let n := nat_of_ascii c in
  if ((48 <=? n)%nat && (n <=? 57)%nat)%bool then Some (Z.of_nat n - 48) else None.

Definition digit_char (d : Z) : ascii := ascii_of_nat (Z.to_nat (48 + d mod 10)).

Fixpoint digits_fuel (fuel : nat) (n : Z) (acc : string) : string :=
  match fuel with
  | O => acc
  | S fuel' =>
      let acc' := String (digit_char n) acc in
      if n <? 10 then acc' else digits_fuel fuel' (n / 10) acc'
  end.

(** [str(n)] for an integer. *)
Definition str_of_Z (n : Z) : string :=
  if n <? 0 then String "-" (digits_fuel (S (Z.to_nat (Z.log2 (- n)))) (- n) "")
  else digits_fuel (S (Z.to_nat (Z.log2 n))) n "".

(** [f"{n:02d}"] for a non-negative integer. *)
Definition fmt_02d (n : Z) : string :=
  if (0 <=? n) && (n <? 10) then String "0" (str_of_Z n) else str_of_Z n.

Definition is_space (c : ascii) : bool :=
  let n := nat_of_ascii c in
  ((n =? 32)%nat || ((9 <=? n)%nat && (n <=? 13)%nat))%bool.

Fixpoint lstrip (s : string) : string :=
  match s with
  | String c rest => if is_space c then lstrip rest else s
  | EmptyString => EmptyString
  end.

(** Digits of an integer literal, underscores allowed between digits;
    [prev] tells whether the previous character was a digit, [acc] is the
    value read so far.  The literal ends at the end of the string or at
    trailing white space. *)
Fixpoint int_digits (s : string) (prev : bool) (acc : Z) : option Z :=
  match s with
  | EmptyString => if prev then Some acc else None
  | String c rest =>
      match digit_of c with
      | Some d => int_digits rest true (acc * 10 + d)
      | None =>
          if Ascii.eqb c "_" then
            if prev then
              match rest with
              | String c' _ =>
                  match digit_of c' with
                  | Some _ => int_digits rest false acc
                  | None => None
                  end
              | EmptyString => None
              end
            else None
          else if is_space c then
            if prev then
              match lstrip rest with
              | EmptyString => Some acc
              | _ => None
              end
            else None
          else None
      end
  end.

(** [int(s)] on a string: optional surrounding white space, optional
    sign, decimal digits; anything else raises [ValueError]. *)
Definition int_of_str (s : string) : result Z :=
  let body := lstrip s in
  let '(neg, ds) :=
    match body with
    | String "-" rest => (true, rest)
    | String "+" rest => (false, rest)
    | _ => (false, body)
    end in
  match int_digits ds false 0 with
  | Some n => Ok (if neg then - n else n)
  | None => Raise ValueError
  end.

End Py.

Import Py.

(* ===================================================================== *)
(** * [datetime]: the part of the standard library the scripts use *)
(* ===================================================================== *)

Module DateTime.

(** A [datetime.datetime]; [utcoffset = None] is a naive value, otherwise
    the offset east of UTC in microseconds. *)
Record datetime : Type := mkdt {
  year : Z; month : Z; day : Z;
  hour : Z; minute : Z; second : Z; microsecond : Z;
  utcoffset : option Z
}.

Definition is_leap (y : Z) : bool :=
  (y mod 4 =? 0) && (negb (y mod 100 =? 0) || (y mod 400 =? 0)).

Definition days_in_month (y m : Z) : Z :=
  if m =? 2 then (if is_leap y then 29 else 28)
  else if (m =? 4) || (m =? 6) || (m =? 9) || (m =? 11) then 30
  else 31.

Definition days_before_year (y : Z) : Z :=
  let y' := y - 1 in y' * 365 + y' / 4 - y' / 100 + y' / 400.

Definition days_before_month_table : list Z :=
  [0; 31; 59; 90; 120; 151; 181; 212; 243; 273; 304; 334].

Definition days_before_month (y m : Z) : Z :=
  nth (Z.to_nat (m - 1)) days_before_month_table 0
  + (if (2 <? m) && is_leap y then 1 else 0).

(** [_ymd2ord]: 1 January of year 1 is day 1. *)
Definition ymd2ord (y m d : Z) : Z :=
  days_before_year y + days_before_month y m + d.

(** [_ord2ymd], the inverse, with its 400/100/4/1-year cycles. *)
Definition ord2ymd (n : Z) : Z * Z * Z :=
  let n := n - 1 in
  let n400 := n / 146097 in
  let n := n mod 146097 in
  let n100 := n / 36524 in
  let n := n mod 36524 in
  let n4 := n / 1461 in
  let n := n mod 1461 in
  let n1 := n / 365 in
  let n := n mod 365 in
  let y := n400 * 400 + 1 + n100 * 100 + n4 * 4 + n1 in
  if (n1 =? 4) || (n100 =? 4) then (y - 1, 12, 31)
  else
    let leapyear := (n1 =? 3) && (negb (n4 =? 24) || (n100 =? 3)) in
    let m := Z.shiftr (n + 50) 5 in
    let preceding :=
      nth (Z.to_nat (m - 1)) days_before_month_table 0
      + (if (2 <? m) && leapyear then 1 else 0) in
    if n <? preceding then
      let m' := m - 1 in
      let dim := if m' =? 2 then (if leapyear then 29 else 28)
                 else if (m' =? 4) || (m' =? 6) || (m' =? 9) || (m' =? 11) then 30
                 else 31 in
      (y, m', n - (preceding - dim) + 1)
    else (y, m, n - preceding + 1).

Definition MAXORDINAL : Z := 3652059.

(** [dt + timedelta(days=n)]: the clock fields and the offset are kept;
    leaving years 1..9999 raises [OverflowError]. *)
Definition add_days (dt : datetime) (n : Z) : result datetime :=
  let o := ymd2ord (year dt) (month dt) (day dt) + n in
  if (0 <? o) && (o <=? MAXORDINAL) then
    let '(y, m, d) := ord2ymd o in
    Ok (mkdt y m d (hour dt) (minute dt) (second dt) (microsecond dt) (utcoffset dt))
  else Raise OverflowError.

(** [a.date() == b.date()] *)
Definition same_date (a b : datetime) : bool :=
  (year a =? year b) && (month a =? month b) && (day a =? day b).

(** Lexicographic comparison of the fields, as the packed representation
    is compared. *)
Definition fields (dt : datetime) : list Z :=
  [year dt; month dt; day dt; hour dt; minute dt; second dt; microsecond dt].

Fixpoint lex_compare (a b : list Z) : comparison :=
  match a, b with
  | x :: a', y :: b' =>
      match x ?= y with
      | Eq => lex_compare a' b'
      | c => c
      end
  | [], [] => Eq
  | [], _ :: _ => Lt
  | _ :: _, [] => Gt
  end.

(** Microseconds from the start of day 0 to the instant an aware value
    denotes. *)
Definition instant (dt : datetime) (offset : Z) : Z :=
  ((ymd2ord (year dt) (month dt) (day dt) * 86400
    + hour dt * 3600 + minute dt * 60 + second dt) * 1000000
   + microsecond dt) - offset.

(** [a <= b].  Two naive values, or two aware values with the same offset,
    compare by their fields; two aware values with different offsets by
    their instants; a naive and an aware value cannot be ordered
    ([TypeError]). *)
Definition dt_le (a b : datetime) : result bool :=
  match utcoffset a, utcoffset b with
  | None, None =>
      Ok (match lex_compare (fields a) (fields b) with Gt => false | _ => true end)
  | Some oa, Some ob =>
      if oa =? ob then
        Ok (match lex_compare (fields a) (fields b) with Gt => false | _ => true end)
      else Ok (instant a oa <=? instant b ob)
  | _, _ => Raise TypeError
  end.

Definition month_names : list string :=
  ["January"; "February"; "March"; "April"; "May"; "June"; "July";
   "August"; "September"; "October"; "November"; "December"].

Definition month_name (m : Z) : string :=
  nth (Z.to_nat (m - 1)) month_names "".

(** [strftime('%Y-%m-%d')] (the year is printed without padding, as the C
    library does). *)
Definition strftime_Y_m_d (dt : datetime) : string :=
  str_of_Z (year dt) +:+ "-" +:+ fmt_02d (month dt) +:+ "-" +:+ fmt_02d (day dt).

(** [strftime('%B %d, %Y')] *)
Definition strftime_B_d_Y (dt : datetime) : string :=
  month_name (month dt) +:+ " " +:+ fmt_02d (day dt) +:+ ", " +:+ str_of_Z (year dt).

(** [strftime('%m/%d')] *)
Definition strftime_m_d (dt : datetime) : string :=
  fmt_02d (month dt) +:+ "/" +:+ fmt_02d (day dt).

(** [strftime('%H:%M')] *)
Definition strftime_H_M (dt : datetime) : string :=
  fmt_02d (hour dt) +:+ ":" +:+ fmt_02d (minute dt).

(** [datetime.fromisoformat] is the library's parser: the scripts are
    verified against any parser; [None] stands for its [ValueError]. *)
Class IsoParser : Type := fromisoformat : string -> option datetime.

(** ** A reference parser

    The grammar [YYYY-MM-DD[*HH[:MM[:SS[.fff[fff]]]][+HH:MM[:SS]]]] of
    [datetime.isoformat()] output, with range checks on the fields.  It is
    the instance the concrete examples run on. *)

Fixpoint read_digits (n : nat) (s : string) (acc : Z) : option (Z * string) :=
  match n with
  | O => Some (acc, s)
  | S n' =>
      match s with
      | String c rest =>
          match digit_of c with
          | Some d => read_digits n' rest (acc * 10 + d)
          | None => None
          end
      | EmptyString => None
      end
  end.

Definition expect (c : ascii) (s : string) : option string :=
  match s with
  | String c' rest => if Ascii.eqb c c' then Some rest else None
  | EmptyString => None
  end.

(** Optional [.fff] or [.ffffff]: microseconds and the rest. *)
Definition read_fraction (s : string) : option (Z * string) :=
  match s with
  | String "." rest =>
      match read_digits 6 rest 0 with
      | Some r => Some r
      | None =>
          '(ms, rest') ← read_digits 3 rest 0;
          Some (ms * 1000, rest')
      end
  | _ => Some (0, s)
  end.

(** Optional [:SS[.fff[fff]]] *)
Definition read_seconds (s : string) : option (Z * Z * string) :=
  match s with
  | String ":" rest =>
      '(ss, rest1) ← read_digits 2 rest 0;
      '(us, rest2) ← read_fraction rest1;
      Some (ss, us, rest2)
  | _ => Some (0, 0, s)
  end.

(** Optional [:MM[:SS[.fff[fff]]]] *)
Definition read_minutes (s : string) : option (Z * Z * Z * string) :=
  match s with
  | String ":" rest =>
      '(mi, rest1) ← read_digits 2 rest 0;
      '(ss, us, rest2) ← read_seconds rest1;
      Some (mi, ss, us, rest2)
  | _ => Some (0, 0, 0, s)
  end.

(** Optional [+HH:MM[:SS]] or [-HH:MM[:SS]] up to the end of the string:
    the offset in microseconds. *)
Definition read_offset (s : string) : option (option Z) :=
  match s with
  | EmptyString => Some None
  | String sign rest =>
      sgn ← (if Ascii.eqb sign "+" then Some 1
             else if Ascii.eqb sign "-" then Some (-1) else None);
      '(hh, rest1) ← read_digits 2 rest 0;
      rest2 ← expect ":" rest1;
      '(mi, rest3) ← read_digits 2 rest2 0;
      '(ss, _, rest4) ← read_seconds rest3;
      match rest4 with
      | EmptyString =>
          if (hh <? 24) && (mi <? 60) && (ss <? 60)
          then Some (Some (sgn * (hh * 3600 + mi * 60 + ss) * 1000000))
          else None
      | _ => None
      end
  end.

Definition iso_parse (s : string) : option datetime :=
  '(y, s1) ← read_digits 4 s 0;
  s2 ← expect "-" s1;
  '(m, s3) ← read_digits 2 s2 0;
  s4 ← expect "-" s3;
  '(d, s5) ← read_digits 2 s4 0;
  if negb ((1 <=? y) && (1 <=? m) && (m <=? 12) && (1 <=? d) && (d <=? days_in_month y m))
  then None
  else
    match s5 with
    | EmptyString => Some (mkdt y m d 0 0 0 0 None)
    | String _ t =>
        '(hh, t1) ← read_digits 2 t 0;
        '(mi, ss, us, t2) ← read_minutes t1;
        off ← read_offset t2;
        if (hh <? 24) && (mi <? 60) && (ss <? 60)
        then Some (mkdt y m d hh mi ss us off)
        else None
    end.

(** The reference parser as the parser of the examples. *)
Definition reference_parser : IsoParser := iso_parse.

End DateTime.

Import DateTime.

(* ===================================================================== *)
(** * PyMuPDF pages, links and documents *)
(* ===================================================================== *)

Module Fitz.

(** [float(n)] for an integer: exact below 2^53. *)
Definition float_of_Z (z : Z) : float :=
  match z with
  | Z0 => PrimFloat.zero
  | Zpos _ => PrimFloat.of_uint63 (Uint63.of_Z z)
  | Zneg p => PrimFloat.opp (PrimFloat.of_uint63 (Uint63.of_Z (Zpos p)))
  end.

(** [int(x)] for a float: truncation toward zero; [None] for an infinity
    or a NaN. *)
Definition Z_of_float (x : float) : option Z :=
  match Prim2SF x with
  | S754_zero _ => Some 0
  | S754_finite s m e =>
      let mag := match e with
                 | Z0 => Zpos m
                 | Zpos _ => Z.shiftl (Zpos m) e
                 | Zneg k => Z.shiftr (Zpos m) (Zpos k)
                 end in
      Some (if s then - mag else mag)
  | S754_infinity _ | S754_nan => None
  end.

(** [fitz.Rect(x0, y0, x1, y1)]: the coordinates are stored as floats. *)
Record rect : Type := Rect { x0 : float; y0 : float; x1 : float; y1 : float }.

Definition RectZ (a b c d : Z) : rect :=
  Rect (float_of_Z a) (float_of_Z b) (float_of_Z c) (float_of_Z d).

(** An f-string: literal text and formatted values. *)
Inductive frag : Type :=
| Lit (s : string)
| Fmt (v : value).

(** What the renderer puts on a page.  Colours, line widths and font
    sizes are constants of the source and are left out. *)
Inductive draw_op : Type :=
| InsertText (x y : Z) (text : list frag)
| DrawRect (r : rect) (fill : bool).

(** A [LINK_GOTO] link: clickable region and target page number (the
    target point is always [Point(0, 0)]). *)
Record link : Type := Link { from_rect : rect; to_page : Z }.

Record page : Type := Page {
  width : float;
  height : float;
  ops : list draw_op;
  links : list link
}.

(** [doc.new_page(width=w, height=h)] gives an empty page. *)
Definition new_page (w h : Z) : page := Page (float_of_Z w) (float_of_Z h) [] [].

Definition draw (p : page) (new_ops : list draw_op) : page :=
  Page (width p) (height p) (ops p ++ new_ops) (links p).

Definition add_link (p : page) (l : link) : page :=
  Page (width p) (height p) (ops p) (links p ++ [l]).

(** [doc[i]] for [i >= 0]: the page must exist. *)
Definition getitem (doc : list page) (i : nat) : result page :=
  match doc !! i with
  | Some p => Ok p
  | None => Raise IndexError
  end.

(** [doc[pno].insert_link({kind: LINK_GOTO, from: r, page: target})]:
    the target page number is resolved in the document and must exist
    ([ValueError] otherwise); the link is added to page [pno]. *)
Definition insert_link (doc : list page) (pno : nat) (l : link) : result (list page) :=
  match doc !! pno with
  | None => Raise IndexError
  | Some p =>
      if (0 <=? to_page l) && (to_page l <? Z.of_nat (length doc))
      then Ok (<[pno := add_link p l]> doc)
      else Raise ValueError
  end.

(** A loop whose body may raise. *)
Fixpoint foldM {A B} (f : A -> B -> result A) (a : A) (l : list B) : result A :=
  match l with
  | [] => Ok a
  | b :: l' => a' ← f a b; foldM f a' l'
  end.

(** Every link of the document as an edge (source page, target page). *)
Definition edges (doc : list page) : list (Z * Z) :=
  concat (imap (fun i p => map (fun l => (Z.of_nat i, to_page l)) (links p)) doc).

End Fitz.

Import Fitz.

(* ===================================================================== *)
(** * The file system and standard output *)
(* ===================================================================== *)

Module World.

Inductive file : Type :=
| PdfFile (pages : list page)
| TextFile (chunks : list string).

(** The files by path, the paths that cannot be written, and what has been
    printed so far. *)
Record world : Type := mkworld {
  files : gmap string file;
  readonly : gset string;
  stdout : list string
}.

(** Code with side effects that may raise. *)
Definition io (A : Type) : Type := world -> result A * world.

Global Instance io_ret : MRet io := fun _ a w => (Ok a, w).
Global Instance io_bind : MBind io := fun _ _ f m w =>
  match m w with
  | (Ok a, w') => f a w'
  | (Raise e, w') => (Raise e, w')
  end.

Definition lift {A} (r : result A) : io A := fun w => (r, w).

(** [try: m  except Exception as e: h e]; the effects of [m] up to the
    exception stay. *)
Definition try_io {A} (m : io A) (h : exc -> io A) : io A := fun w =>
  match m w with
  | (Ok a, w') => (Ok a, w')
  | (Raise e, w') => h e w'
  end.

Definition print (s : string) : io unit := fun w =>
  (Ok tt, mkworld (files w) (readonly w) (stdout w ++ [s])).

(** [os.path.exists(path)] *)
Definition path_exists (path : string) : io bool := fun w =>
  (Ok (bool_decide (is_Some (files w !! path))), w).

(** [doc.save(path)] *)
Definition save (path : string) (doc : list page) : io unit := fun w =>
  if bool_decide (path ∈ readonly w) then (Raise OSError, w)
  else (Ok tt, mkworld (<[path := PdfFile doc]> (files w)) (readonly w) (stdout w)).

(** [with open(path, 'w') as f: f.write(c) for c in chunks] *)
Definition write_text (path : string) (chunks : list string) : io unit := fun w =>
  if bool_decide (path ∈ readonly w) then (Raise OSError, w)
  else (Ok tt, mkworld (<[path := TextFile chunks]> (files w)) (readonly w) (stdout w)).

(** [open(path, 'w')]: the file is created, or emptied when it exists. *)
Definition open_w (path : string) : io unit := write_text path [].

(** A text file with one more chunk at its end. *)
Definition append_chunk (chunk : string) (f : file) : file :=
  match f with
  | TextFile chunks => TextFile (chunks ++ [chunk])
  | PdfFile pages => PdfFile pages
  end.

(** [f.write(chunk)] for the file opened at [path].  What has been written
    stays in the file when a later statement of the [with] block raises:
    leaving the block closes the file. *)
Definition f_write (path : string) (chunk : string) : io unit := fun w =>
  (Ok tt, mkworld (alter (append_chunk chunk) path (files w)) (readonly w) (stdout w)).

(** [fitz.open(path)]: the pages of a PDF file. *)
Definition open_pdf (path : string) : io (list page) := fun w =>
  match files w !! path with
  | Some (PdfFile pages) => (Ok pages, w)
  | _ => (Raise OSError, w)
  end.

(** What stands for [str(e)] in a printed line: the messages of the
    exceptions are not modelled, the name of the class is printed. *)
Definition exc_name (e : exc) : string :=
  match e with
  | ValueError => "ValueError"
  | TypeError => "TypeError"
  | AttributeError => "AttributeError"
  | IndexError => "IndexError"
  | OverflowError => "OverflowError"
  | OSError => "OSError"
  end.

End World.

Import World.

(* ===================================================================== *)
(** * [simple_pymypdf_export.py] *)
(* ===================================================================== *)

Abbreviation event := (gmap string value).

Module SimpleExport.

(** What [data.get('events', [])] is after [json.loads].  An array can be
    iterated and has a length.  Null, a number and a boolean can neither be
    iterated nor measured: [for event in events_data] and
    [len(events_data)] raise [TypeError].  (A string or an object is
    iterated like an array of elements without [get]; such an element is
    skipped by the filter as a record without [startTime] is, and counted
    by [len].) *)
Inductive events_value : Type :=
| Events (l : list event)
| NotIterable.

(** The annotation [List[Dict]] of the source: a list of events is passed
    as it is. *)
#[warning="-uniform-inheritance"]
Coercion Events : list >-> events_value.

(** [for event in events_data] *)
Definition iterate (events_data : events_value) : result (list event) :=
  match events_data with
  | Events l => Ok l
  | NotIterable => Raise TypeError
  end.

(** [len(events_data)] *)
Definition len (events_data : events_value) : result Z :=
  match events_data with
  | Events l => Ok (Z.of_nat (length l))
  | NotIterable => Raise TypeError
  end.

Section WithParser.
Context {parser : IsoParser}.

(** [datetime.fromisoformat(v.replace('Z', '+00:00'))] *)
Definition parse_iso (v : value) : result datetime :=
  s ← replace_Z_value v;
  match fromisoformat s with
  | Some d => Ok d
  | None => Raise ValueError
  end.

(** The [try] block of [filter_events_for_week] for one event: [Ok true]
    when the event is appended. *)
Definition in_week (ev : event) (week_start week_end : datetime) : result bool :=
  let event_start := get ev "startTime" (VStr "") in
  if truthy event_start then
    event_date ← parse_iso event_start;
    lower ← dt_le week_start event_date;
    if lower : bool then dt_le event_date week_end else Ok false
  else Ok false.

(** [filter_events_for_week]: the loop appends to [week_events]; an
    exception in the body skips the event ([except Exception: continue]). *)
Definition filter_events_for_week (events_data : list event)
    (week_start week_end : datetime) : list event :=
  fold_left
    (fun week_events ev =>
       match in_week ev week_start week_end with
       | Ok true => week_events ++ [ev]
       | Ok false => week_events
       | Raise _ => week_events
       end)
    events_data [].

(** [is_event_on_date] *)
Definition is_event_on_date (ev : event) (target_date : datetime) : bool :=
  let event_start := get ev "startTime" (VStr "") in
  if truthy event_start then
    match parse_iso event_start with
    | Ok event_date => same_date event_date target_date
    | Raise _ => false
    end
  else false.

(** [is_event_at_time] *)
Definition is_event_at_time (ev : event) (hour minute : Z) : bool :=
  let event_start := get ev "startTime" (VStr "") in
  if truthy event_start then
    match parse_iso event_start with
    | Ok event_date => (DateTime.hour event_date =? hour) && (DateTime.minute event_date =? minute)
    | Raise _ => false
    end
  else false.

(** [parse_event_time] *)
Definition parse_event_time (time_str : value) : string :=
  if truthy time_str then
    match parse_iso time_str with
    | Ok event_date => strftime_H_M event_date
    | Raise _ => "00:00"
    end
  else "00:00".

Definition days : list string :=
  ["Monday"; "Tuesday"; "Wednesday"; "Thursday"; "Friday"; "Saturday"; "Sunday"].

Definition short_days : list string :=
  ["Mon"; "Tue"; "Wed"; "Thu"; "Fri"; "Sat"; "Sun"].

(** ** Weekly overview page *)

Definition grid_start_x : Z := 50.
Definition grid_start_y : Z := 120.
Definition column_width : Z := 100.
Definition header_height : Z := 30.
Definition row_height : Z := 25.

(** The events of one day, as both pages select them. *)
Definition events_on (events : list event) (date : datetime) : list event :=
  List.filter (fun e => is_event_on_date e date) events.

(** Body of the inner loop: event number [j] of the day in column [x]. *)
Definition weekly_event_ops (x : Z) (j : nat) (ev : event) : result (list draw_op) :=
  let y := grid_start_y + header_height + Z.of_nat j * row_height in
  let event_time := parse_event_time (get ev "startTime" (VStr "")) in
  event_title ← slice_to 15 (get ev "title" (VStr "Untitled"));
  Ok [DrawRect (RectZ x y (x + column_width) (y + row_height)) false;
      InsertText (x + 2) (y + 12) [Lit event_time];
      InsertText (x + 2) (y + 22) [Fmt event_title]].

(** Body of the outer loop: column [i] of the grid. *)
Definition weekly_day_ops (events : list event) (week_start : datetime)
    (i : nat) (day_name : string) : result (list draw_op) :=
  current_date ← add_days week_start (Z.of_nat i);
  let x := grid_start_x + Z.of_nat i * column_width in
  let day_events := events_on events current_date in
  cells ← mapM (fun '(j, ev) => weekly_event_ops x j ev)
               (imap (fun j ev => (j, ev)) (take 10 day_events));
  Ok ([DrawRect (RectZ x grid_start_y (x + column_width) (grid_start_y + header_height)) false;
       InsertText (x + 5) (grid_start_y + 20) [Lit day_name];
       InsertText (x + 5) (grid_start_y + 35) [Lit (strftime_m_d current_date)]]
      ++ concat cells).

(** [create_weekly_overview_page] *)
Definition create_weekly_overview_page (p : page) (events : list event)
    (week_start : datetime) : result page :=
  week_last ← add_days week_start 6;
  let title_text := "WEEKLY PLANNER" in
  let subtitle_text :=
    strftime_B_d_Y week_start +:+ " - " +:+ strftime_B_d_Y week_last in
  columns ← mapM (fun '(i, day_name) => weekly_day_ops events week_start i day_name)
                 (imap (fun i day_name => (i, day_name)) days);
  Ok (draw p ([InsertText 50 50 [Lit title_text];
               InsertText 50 80 [Lit subtitle_text]]
              ++ concat columns)).

(** ** Daily page *)

Definition time_start_y : Z := 140.
Definition slot_height : Z := 26.

(** [(hour - 6) * 2 + (minute // 30)] *)
Definition slot_index (hour minute : Z) : Z := (hour - 6) * 2 + minute / 30.

(** The pairs the two nested loops run through:
    [for hour in range(6, 24): for minute in [0, 30]]. *)
Definition time_grid : list (Z * Z) :=
  hour ← seqZ 6 18; minute ← [0; 30]; [(hour, minute)].

(** [[e for e in day_events if is_event_at_time(e, hour, minute)]] *)
Definition slot_events (day_events : list event) (hour minute : Z) : list event :=
  List.filter (fun e => is_event_at_time e hour minute) day_events.

(** The block of one event in the row at height [y]. *)
Definition daily_event_ops (y : Z) (ev : event) : result (list draw_op) :=
  let event_rect := RectZ 100 (y + 2) 545 (y + slot_height - 2) in
  let event_title := get ev "title" (VStr "Untitled") in
  event_source ← upper_value (get ev "source" (VStr ""));
  Ok ([DrawRect event_rect true;
       DrawRect event_rect false;
       InsertText 105 (y + 12) [Lit "📅 "; Fmt event_title]]
      ++ (if negb (String.eqb event_source "")
          then [InsertText 105 (y + 22) [Lit "📍 "; Lit event_source]]
          else [])).

(** Body of the inner loop for one time slot. *)
Definition daily_slot_ops (day_events : list event) (hour minute : Z)
    : result (list draw_op) :=
  let y := time_start_y + slot_index hour minute * slot_height in
  let time_str := fmt_02d hour +:+ ":" +:+ fmt_02d minute in
  blocks ← mapM (daily_event_ops y) (slot_events day_events hour minute);
  Ok ([DrawRect (RectZ 50 y 550 (y + slot_height)) false;
       InsertText 55 (y + 16) [Lit time_str]]
      ++ concat blocks).

Definition nav_y : Z := 100.

(** The button to the previous day (not on Monday). *)
Definition prev_button (day_index : nat) : result (list draw_op) :=
  if (0 <? day_index)%nat then
    label ← list_index short_days (day_index - 1);
    Ok [DrawRect (RectZ 200 nav_y 280 (nav_y + 25)) false;
        InsertText 205 (nav_y + 15) [Lit ("← " +:+ label)]]
  else Ok [].

(** The button to the next day (not on Sunday). *)
Definition next_button (day_index : nat) : result (list draw_op) :=
  if (day_index <? 6)%nat then
    label ← list_index short_days (day_index + 1);
    Ok [DrawRect (RectZ 320 nav_y 400 (nav_y + 25)) false;
        InsertText 325 (nav_y + 15) [Lit (label +:+ " →")]]
  else Ok [].

(** [create_daily_page] *)
Definition create_daily_page (p : page) (events : list event) (date : datetime)
    (day_name : string) (day_index : nat) : result page :=
  let day_events := events_on events date in
  let header :=
    [InsertText 50 50 [Lit (day_name +:+ ", " +:+ strftime_B_d_Y date)];
     InsertText 50 80 [Lit (str_of_Z (Z.of_nat (length day_events)) +:+ " appointments")];
     InsertText 200 80 [Lit "10.5h Scheduled | 7.0h Available | 40% Free Time"];
     DrawRect (RectZ 50 nav_y 150 (nav_y + 25)) false;
     InsertText 55 (nav_y + 15) [Lit "📅 Weekly Overview"]] in
  prev ← prev_button day_index;
  next ← next_button day_index;
  rows ← mapM (fun '(hour, minute) => daily_slot_ops day_events hour minute) time_grid;
  Ok (draw p (header ++ prev ++ next ++ concat rows)).

(** ** Links *)

(** [add_bidirectional_hyperlinks]: page 0 is the weekly page, pages 1-7
    are the daily pages. *)
Definition add_bidirectional_hyperlinks (doc : list page) : result (list page) :=
  _ ← getitem doc 0;
  doc ← foldM
    (fun doc i =>
       let x := grid_start_x + Z.of_nat i * column_width in
       let header_rect :=
         RectZ x grid_start_y (x + column_width) (grid_start_y + header_height) in
       insert_link doc 0 (Link header_rect (Z.of_nat i + 1)))
    doc (seq 0 (length days));
  foldM
    (fun doc i =>
       _ ← getitem doc (i + 1);
       doc ← insert_link doc (i + 1) (Link (RectZ 50 100 150 125) 0);
       doc ← (if (0 <? i)%nat
              then insert_link doc (i + 1) (Link (RectZ 200 100 280 125) (Z.of_nat i))
              else Ok doc);
       if (i <? 6)%nat
       then insert_link doc (i + 1) (Link (RectZ 320 100 400 125) (Z.of_nat i + 2))
       else Ok doc)
    doc (seq 0 7).

(** ** The export *)

Definition pdf_name (week_start : datetime) : string :=
  "bidirectional_weekly_planner_" +:+ strftime_Y_m_d week_start +:+ ".pdf".

Definition txt_name (week_start : datetime) : string :=
  "bidirectional_weekly_planner_" +:+ strftime_Y_m_d week_start +:+ ".txt".

(** The newline character. *)
Definition nl : string := String (ascii_of_nat 10) "".

Fixpoint str_repeat (n : nat) (s : string) : string :=
  match n with
  | O => ""
  | S n' => s +:+ str_repeat n' s
  end.

(** [create_text_fallback]: [Some filename], or [None] when the fallback
    fails as well.  The file is written line by line, and the length of
    [events_data] is taken for the fourth line. *)
Definition create_text_fallback (events_data : events_value)
    (week_start_str week_end_str : string) : io (option string) :=
  try_io
    (week_start ← lift (parse_iso (VStr week_start_str));
     let filename := txt_name week_start in
     _ ← open_w filename;
     _ ← f_write filename ("BIDIRECTIONAL WEEKLY PLANNER (TEXT FALLBACK)" +:+ nl);
     _ ← f_write filename (str_repeat 50 "=" +:+ nl);
     _ ← f_write filename ("Week: " +:+ week_start_str +:+ " to " +:+ week_end_str +:+ nl);
     n ← lift (len events_data);
     _ ← f_write filename ("Events: " +:+ str_of_Z n +:+ nl);
     _ ← f_write filename
           (nl +:+ "Note: PDF generation failed, created text version instead." +:+ nl);
     _ ← print ("✅ Created text fallback: " +:+ filename);
     mret (Some filename))
    (fun e =>
       _ ← print ("❌ Even text fallback failed: " +:+ exc_name e);
       mret None).

(** Body of the loop over the days: the page of day [i]. *)
Definition daily_page (week_events : list event) (week_start : datetime)
    (i : nat) (day_name : string) : result page :=
  current_date ← add_days week_start (Z.of_nat i);
  create_daily_page (new_page 612 792) week_events current_date day_name i.

(** The [try] block of [create_bidirectional_linked_pdf].  The loop of
    [filter_events_for_week] iterates over [events_data]. *)
Definition create_pdf (events_data : events_value)
    (week_start_str week_end_str : string) : io string :=
  week_start ← lift (parse_iso (VStr week_start_str));
  week_end ← lift (parse_iso (VStr week_end_str));
  let filename := pdf_name week_start in
  events ← lift (iterate events_data);
  let week_events := filter_events_for_week events week_start week_end in
  _ ← print ("🔗 Creating bidirectional PDF for week " +:+ strftime_Y_m_d week_start
             +:+ " to " +:+ strftime_Y_m_d week_end);
  _ ← print ("📊 Processing " +:+ str_of_Z (Z.of_nat (length week_events)) +:+ " events");
  weekly_page ← lift (create_weekly_overview_page (new_page 792 612) week_events week_start);
  daily_pages ← lift (mapM
    (fun '(i, day_name) => daily_page week_events week_start i day_name)
    (imap (fun i day_name => (i, day_name)) days));
  doc ← lift (add_bidirectional_hyperlinks (weekly_page :: daily_pages));
  _ ← save filename doc;
  _ ← print ("✅ Successfully created PDF with bidirectional links: " +:+ filename);
  mret filename.

(** [create_bidirectional_linked_pdf]: the name of the file written, or
    [None]. *)
Definition create_bidirectional_linked_pdf (events_data : events_value)
    (week_start_str week_end_str : string) : io (option string) :=
  try_io
    (filename ← create_pdf events_data week_start_str week_end_str;
     mret (Some filename))
    (fun e =>
       _ ← print ("❌ Error creating bidirectional PDF: " +:+ exc_name e);
       create_text_fallback events_data week_start_str week_end_str).

(** [main] from the decoded input on: the exit status (0 when the script
    runs to its end, 1 for [sys.exit(1)]).  The [events] entry is passed
    on unchecked. *)
Definition main (events : events_value) (week_start week_end : string) : io Z :=
  try_io
    (if String.eqb week_start "" || String.eqb week_end "" then
       _ ← print "❌ Missing weekStart or weekEnd in input data";
       mret 1
     else
       filename ← create_bidirectional_linked_pdf events week_start week_end;
       match filename with
       | Some name =>
           if String.eqb name "" then
             _ ← print "❌ Failed to create bidirectional weekly package";
             mret 1
           else
             _ ← print name;
             mret 0
       | None =>
           _ ← print "❌ Failed to create bidirectional weekly package";
           mret 1
       end)
    (fun e =>
       _ ← print ("❌ Unexpected error: " +:+ exc_name e);
       mret 1).

End WithParser.

End SimpleExport.

(* ===================================================================== *)
(** * [replit_integration.py] *)
(* ===================================================================== *)

Module ReplitIntegration.

Local Open Scope float_scope.

(** The decimal constants of the source, as the binary64 values Python
    reads them as. *)
Definition c_0_08 : float := 0x1.47ae147ae147bp-4.   (* 0.08 *)
Definition c_0_12 : float := 0x1.eb851eb851eb8p-4.   (* 0.12 *)
Definition c_0_4 : float := 0x1.999999999999ap-2.    (* 0.4 *)
Definition c_0_6 : float := 0x1.3333333333333p-1.    (* 0.6 *)
Definition c_0_25 : float := 0x1p-2.                 (* 0.25 *)
Definition c_0_75 : float := 0x1.8p-1.               (* 0.75 *)

Definition fl (n : Z) : float := float_of_Z n.

(** [_add_hyperlinks_to_package]: page 0 is the weekly page, pages 1-7 the
    daily pages; the clickable areas are computed from the page sizes. *)
Definition _add_hyperlinks_to_package (doc : list page) : result (list page) :=
  weekly_page ← getitem doc 0;
  let width := Fitz.width weekly_page in
  let height := Fitz.height weekly_page in
  let time_column_width := width * c_0_08 in
  let day_column_width := (width - time_column_width) / fl 7 in
  let header_height := height * c_0_12 in
  doc ← foldM
    (fun doc i =>
       let x1 := time_column_width + fl (Z.of_nat i) * day_column_width in
       let y1 := fl 0 in
       let x2 := x1 + day_column_width in
       let y2 := header_height in
       let header_rect := Rect x1 y1 x2 y2 in
       let daily_page_num := (Z.of_nat i + 1)%Z in
       insert_link doc 0 (Link header_rect daily_page_num))
    doc (seq 0 7);
  foldM
    (fun doc i =>
       let page_num := (i + 1)%nat in
       daily_page ← getitem doc page_num;
       let width := Fitz.width daily_page in
       let height := Fitz.height daily_page in
       let top_weekly_rect := RectZ 15 15 150 60 in
       doc ← insert_link doc page_num (Link top_weekly_rect 0);
       let bottom_weekly_rect :=
         Rect (width * c_0_4) (height - fl 60) (width * c_0_6) (height - fl 15) in
       doc ← insert_link doc page_num (Link bottom_weekly_rect 0);
       let date_title_rect := Rect (width * c_0_25) (fl 15) (width * c_0_75) (fl 60) in
       doc ← insert_link doc page_num (Link date_title_rect 0);
       doc ← (if (0 <? i)%nat then
                let prev_day_rect := Rect (fl 15) (height - fl 60) (fl 100) (height - fl 15) in
                insert_link doc page_num (Link prev_day_rect (Z.of_nat i))
              else Ok doc);
       if (i <? 6)%nat then
         let next_day_rect :=
           Rect (width - fl 100) (height - fl 60) (width - fl 15) (height - fl 15) in
         insert_link doc page_num (Link next_day_rect (Z.of_nat i + 2)%Z)
       else Ok doc)
    doc (seq 0 7).

(** The loop over [daily_pdf_paths] that returns [False] at the first
    missing file. *)
Fixpoint all_daily_exist (daily_pdf_paths : list string) : io bool :=
  match daily_pdf_paths with
  | [] => mret true
  | daily_pdf :: rest =>
      found ← path_exists daily_pdf;
      if found : bool then all_daily_exist rest else mret false
  end.

(** The loop that appends the pages of every daily PDF
    ([doc.insert_pdf(daily_doc)]). *)
Fixpoint insert_daily_pdfs (doc : list page) (daily_pdf_paths : list string)
    : io (list page) :=
  match daily_pdf_paths with
  | [] => mret doc
  | daily_pdf_path :: rest =>
      daily_doc ← open_pdf daily_pdf_path;
      insert_daily_pdfs (doc ++ daily_doc) rest
  end.

(** [create_bidirectional_weekly_package]; the messages go to the logger
    and are not modelled. *)
Definition create_bidirectional_weekly_package (weekly_pdf_path : string)
    (daily_pdf_paths : list string) (output_path : string) : io bool :=
  try_io
    (found ← path_exists weekly_pdf_path;
     if negb found then mret false
     else if negb (length daily_pdf_paths =? 7)%nat then mret false
     else
       all_found ← all_daily_exist daily_pdf_paths;
       if negb all_found then mret false
       else
         let doc := [] in
         weekly_doc ← open_pdf weekly_pdf_path;
         let doc := doc ++ weekly_doc in
         doc ← insert_daily_pdfs doc daily_pdf_paths;
         doc ← lift (_add_hyperlinks_to_package doc);
         _ ← save output_path doc;
         mret true)
    (fun e => mret false).

End ReplitIntegration.

(* ===================================================================== *)
(** * Layout helpers of the planner prototypes *)
(* ===================================================================== *)

Module Layout.

(** [DailyPlannerGenerator.get_appointment_height]
    ([replit_daily_planner]); [//] is floor division. *)
Definition get_appointment_height (duration_minutes : Z) : Z :=
  let slots_needed := Z.max 1 (duration_minutes / 30) in
  slots_needed * 40.

(** [DailyViewAuditor.calculate_expected_position] ([daily_view_audit]):
    the string must split into exactly two integers. *)
Definition calculate_expected_position (time_str : string) : result Z :=
  match split ":" time_str with
  | [h; m] =>
      hour ← int_of_str h;
      minute ← int_of_str m;
      let minutes_since_6am := (hour - 6) * 60 + minute in
      Ok (minutes_since_6am / 30 * 40)
  | _ => Raise ValueError
  end.

(** [_time_to_minutes] ([pdf_generator_enhanced]).  Only [ValueError] and
    [IndexError] are caught; the membership test and [split] on a value
    that is not a string raise outside the [try]. *)
Definition _time_to_minutes (time_str : value) : result Z :=
  if negb (truthy time_str) then Ok 0
  else
    match time_str with
    | VStr s =>
        if negb (contains ":" s) then Ok 0
        else
          match split ":" s with
          | [h; m] =>
              match int_of_str h with
              | Ok hours =>
                  match int_of_str m with
                  | Ok minutes => Ok (hours * 60 + minutes)
                  | Raise _ => Ok 0
                  end
              | Raise _ => Ok 0
              end
          | _ => Ok 0
          end
    | VList l =>
        if existsb (fun v => match v with VStr c => String.eqb c ":" | _ => false end) l
        then Raise AttributeError
        else Ok 0
    | _ => Raise TypeError
    end.

(** [int((duration / 30) * 30)] in binary64 arithmetic. *)
Definition scaled_height (duration : Z) (px : Z) : result Z :=
  let q := PrimFloat.div (float_of_Z duration) (float_of_Z 30) in
  match Z_of_float (PrimFloat.mul q (float_of_Z px)) with
  | Some h => Ok h
  | None => Raise OverflowError
  end.

(** [len(v) if isinstance(v, list) else (1 if v else 0)] *)
Definition count_items (v : value) : Z :=
  match v with
  | VList l => Z.of_nat (length l)
  | _ => if truthy v then 1 else 0
  end.

(** [event.get(key, event.get(fallback, default))] *)
Definition get2 (ev : event) (key fallback : string) (default : value) : value :=
  get ev key (get ev fallback default).

(** The height added for notes and action items: 15 per item and 20 per
    section that is present. *)
Definition extra_height (notes_count actions_count : Z) : Z :=
  (notes_count + actions_count) * 15
  + (if 0 <? notes_count then 20 else 0)
  + (if 0 <? actions_count then 20 else 0).

(** [event.get('eventNotes') or event.get('actionItems') or
    event.get('notes') or event.get('actions')] *)
Definition has_details (ev : event) : bool :=
  truthy (get_none ev "eventNotes") || truthy (get_none ev "actionItems")
  || truthy (get_none ev "notes") || truthy (get_none ev "actions").

(** [_calculate_daily_event_height] ([pdf_generator_enhanced]) *)
Definition _calculate_daily_event_height (ev : event) : result Z :=
  t_end ← _time_to_minutes (get ev "endTime" (VStr ""));
  t_start ← _time_to_minutes (get ev "startTime" (VStr ""));
  let duration := t_end - t_start in
  base_height ← scaled_height duration 30;
  if has_details ev then
    let notes_count := count_items (get2 ev "eventNotes" "notes" (VList [])) in
    let actions_count := count_items (get2 ev "actionItems" "actions" (VList [])) in
    Ok (Z.max base_height (base_height + extra_height notes_count actions_count))
  else Ok base_height.

End Layout.

(* ===================================================================== *)
(** * [api/pymypdf_bidirectional_export.py] *)
(* ===================================================================== *)

Module Api.

Section WithParser.
Context {parser : IsoParser}.

(** [safe_parse_datetime]: [None] instead of an exception; the second
    attempt cuts the string at the first ['.']. *)
Definition safe_parse_datetime (date_str : value) : option datetime :=
  if negb (truthy date_str) then None
  else
    match SimpleExport.parse_iso date_str with
    | Ok d => Some d
    | Raise _ =>
        match date_str with
        | VStr s =>
            let clean_date := hd "" (split "." s) +:+ "Z" in
            fromisoformat (replace_Z clean_date)
        | _ => None
        end
    end.

(** The body of the filtering loop of [main]. *)
Definition week_events_step (week_start week_end : datetime)
    (week_events : list event) (ev : event) : result (list event) :=
  match safe_parse_datetime (get ev "startTime" (VStr "")) with
  | Some event_date =>
      lower ← dt_le week_start event_date;
      if lower : bool then
        upper ← dt_le event_date week_end;
        Ok (if upper : bool then week_events ++ [ev] else week_events)
      else Ok week_events
  | None => Ok week_events
  end.

(** The filtering loop of [main].  The comparisons are not inside a
    [try] of their own: an exception leaves the loop and ends [main]
    with status 1. *)
Definition week_events_loop (events : list event) (week_start week_end : datetime)
    : result (list event) :=
  foldM (week_events_step week_start week_end) [] events.

End WithParser.

End Api.

Import SimpleExport ReplitIntegration Layout Api.

(* ===================================================================== *)
(** * [api/pymypdf_bidirectional_export.py]: the script *)
(* ===================================================================== *)

Module ApiExport.

Section WithParser.
Context {parser : IsoParser}.

(** An attribute or method of the result of [safe_parse_datetime]:
    [None] has none ([AttributeError]). *)
Definition parsed (d : option datetime) : result datetime :=
  match d with
  | Some d => Ok d
  | None => Raise AttributeError
  end.

(** [f"{n:04d}"] for a year. *)
Definition fmt_04d (n : Z) : string :=
  if n <? 10 then "000" +:+ str_of_Z n
  else if n <? 100 then "00" +:+ str_of_Z n
  else if n <? 1000 then "0" +:+ str_of_Z n
  else str_of_Z n.

(** [str(d.date())]: the ISO form of the date. *)
Definition str_date (d : datetime) : string :=
  fmt_04d (year d) +:+ "-" +:+ fmt_02d (month d) +:+ "-" +:+ fmt_02d (day d).

(** The one page the script writes: [doc.new_page()] is an A4 page. *)
Definition summary_page (n : nat) : page :=
  draw (new_page 595 842)
       [InsertText 50 50 [Lit ("WEEKLY PLANNER - " +:+ str_of_Z (Z.of_nat n) +:+ " Events")]].

(** [main] from the decoded input on: the exit status (0 when the script
    runs to its end, 1 for [sys.exit(1)]). *)
Definition main (events : list event) (week_start_str week_end_str : string) : io Z :=
  try_io
    (let week_start := safe_parse_datetime (VStr week_start_str) in
     let week_end := safe_parse_datetime (VStr week_end_str) in
     _ ← print ("📊 Received " +:+ str_of_Z (Z.of_nat (length events)) +:+ " events");
     _ ← print ("📅 Week: " +:+ week_start_str +:+ " to " +:+ week_end_str);
     week_start ← lift (parsed week_start);
     week_end ← lift (parsed week_end);
     _ ← print ("🔍 Filtering events for week " +:+ str_date week_start
                +:+ " to " +:+ str_date week_end);
     week_events ← lift (week_events_loop events week_start week_end);
     _ ← print ("📊 Filtered " +:+ str_of_Z (Z.of_nat (length week_events))
                +:+ " events (FIXED!)");
     let filename :=
       "bidirectional_weekly_planner_" +:+ strftime_Y_m_d week_start +:+ ".pdf" in
     _ ← save filename [summary_page (length week_events)];
     _ ← print filename;
     mret 0)
    (fun e =>
       _ ← print ("❌ Error: " +:+ exc_name e);
       mret 1).

End WithParser.

End ApiExport.

(* ===================================================================== *)
(** * [integration_example.py] *)
(* ===================================================================== *)

Module IntegrationExample.

Definition weekly_pdf : string := "weekly-planner.pdf".

Definition daily_pdfs : list string :=
  ["monday.pdf"; "tuesday.pdf"; "wednesday.pdf"; "thursday.pdf"; "friday.pdf";
   "saturday.pdf"; "sunday.pdf"].

Definition output_path : string := "bidirectional-weekly-package.pdf".

(** [example_integration]: the output path, or [None]. *)
Definition example_integration : io (option string) :=
  _ ← print "📝 Example Integration";
  _ ← print (str_repeat 30 "=");
  _ ← print ("📄 Weekly PDF: " +:+ weekly_pdf);
  _ ← print ("📄 Daily PDFs: " +:+ str_of_Z (Z.of_nat (length daily_pdfs)) +:+ " files");
  _ ← print ("📄 Output: " +:+ output_path);
  _ ← print (nl +:+ "🔗 Creating bidirectional weekly package...");
  success ← create_bidirectional_weekly_package weekly_pdf daily_pdfs output_path;
  if success : bool then
    _ ← print "✅ SUCCESS! Bidirectional weekly package created!";
    mret (Some output_path)
  else
    _ ← print "❌ FAILED to create bidirectional weekly package";
    mret None.

End IntegrationExample.

(* ===================================================================== *)
(** * [pdf_generator_enhanced]: slots, positions and navigation *)
(* ===================================================================== *)

Module Enhanced.

(** [_generate_time_slots]: two labels per hour from 06 to 23. *)
Definition _generate_time_slots : list string :=
  hour ← seqZ 6 18; [fmt_02d hour +:+ ":00"; fmt_02d hour +:+ ":30"].

(** [_is_event_at_time] *)
Definition _is_event_at_time (ev : event) (time_slot : string) : result bool :=
  event_start ← _time_to_minutes (get ev "startTime" (VStr ""));
  event_end ← _time_to_minutes (get ev "endTime" (VStr ""));
  slot_time ← _time_to_minutes (VStr time_slot);
  Ok ((event_start <=? slot_time) && (slot_time <? event_end)).

(** [_calculate_top_offset]: both branches return 0. *)
Definition _calculate_top_offset (ev : event) (current_time : string) : result Z :=
  event_start ← _time_to_minutes (get ev "startTime" (VStr ""));
  slot_time ← _time_to_minutes (VStr current_time);
  if slot_time =? event_start then Ok 0 else Ok 0.

(** [_calculate_event_height]: [int((duration / 30) * 20)] *)
Definition _calculate_event_height (ev : event) : result Z :=
  t_end ← _time_to_minutes (get ev "endTime" (VStr ""));
  t_start ← _time_to_minutes (get ev "startTime" (VStr ""));
  let duration := t_end - t_start in
  scaled_height duration 20.

(** [_calculate_daily_top_position]: [int((relative_minutes / 30) * 30)] *)
Definition _calculate_daily_top_position (ev : event) : result Z :=
  start_minutes ← _time_to_minutes (get ev "startTime" (VStr ""));
  day_start_minutes ← _time_to_minutes (VStr "06:00");
  let relative_minutes := start_minutes - day_start_minutes in
  scaled_height relative_minutes 30.

(** The navigation data of [_process_daily_data]. *)
Definition day_names : list string :=
  ["monday"; "tuesday"; "wednesday"; "thursday"; "friday"; "saturday"; "sunday"].

(** [l.index(x)]: the position of the first element equal to [x]. *)
Fixpoint index_of (x : string) (l : list string) : option nat :=
  match l with
  | [] => None
  | y :: l' => if String.eqb y x then Some 0%nat else S <$> index_of x l'
  end.

(** [day_names.index(day_name) if day_name in day_names else 0] *)
Definition day_index (day_name : string) : nat :=
  match index_of day_name day_names with
  | Some i => i
  | None => 0%nat
  end.

(** [day_names[day_index - 1] if day_index > 0 else day_names[-1]] *)
Definition prev_day (day_name : string) : result string :=
  let day_index := day_index day_name in
  if (0 <? day_index)%nat then list_index day_names (day_index - 1)
  else list_index day_names (length day_names - 1).

(** [day_names[day_index + 1] if day_index < len(day_names) - 1
    else day_names[0]] *)
Definition next_day (day_name : string) : result string :=
  let day_index := day_index day_name in
  if (day_index <? length day_names - 1)%nat then list_index day_names (day_index + 1)
  else list_index day_names 0.

End Enhanced.

(* ===================================================================== *)
(** * [daily_view_audit.py]: the positioning audit *)
(* ===================================================================== *)

Module Audit.

(** An entry of [reference_specs["appointments"]]. *)
Record appointment_spec : Type := AppointmentSpec {
  start : string;
  end_time : string;
  expected_top : Z;
  height : Z
}.

(** An entry of [self.issues]; the description is kept as the values it
    is formatted from. *)
Record issue : Type := Issue {
  type : string;
  category : string;
  appointment : string;
  start_time : string;
  expected : Z;
  calculated : Z;
  severity : Z
}.

(** The attributes of a [DailyViewAudit] the audit reads and writes. *)
Record auditor : Type := Auditor {
  score : Z;
  issues : list issue;
  appointments : list (string * appointment_spec)
}.

Definition reference_appointments : list (string * appointment_spec) :=
  [("meera_zucker", AppointmentSpec "10:00" "11:00" 320 80);
   ("valentina_gjidoda", AppointmentSpec "11:00" "12:00" 400 80);
   ("krista_flood", AppointmentSpec "12:00" "13:00" 480 80);
   ("paul_benjamin", AppointmentSpec "13:00" "14:00" 560 80);
   ("chris_balamanci", AppointmentSpec "14:00" "15:00" 640 80);
   ("gavin_perna", AppointmentSpec "17:00" "18:00" 880 80);
   ("max_moskowitz", AppointmentSpec "18:00" "19:00" 960 80);
   ("owen_lennon", AppointmentSpec "19:00" "20:00" 1040 80);
   ("david_grossman", AppointmentSpec "20:00" "21:00" 1120 80);
   ("zena_frey", AppointmentSpec "21:00" "22:00" 1200 80);
   ("amberly_comeau", AppointmentSpec "22:00" "23:00" 1280 80)].

(** [__init__] *)
Definition init : auditor := Auditor 100 [] reference_appointments.

(** Body of the loop of [audit_appointment_positioning]. *)
Definition check_appointment (st : list issue * Z) (entry : string * appointment_spec)
    : result (list issue * Z) :=
  let '(issues, positioning_issues) := st in
  let '(appt_name, specs) := entry in
  calculated_top ← calculate_expected_position (start specs);
  if negb (calculated_top =? expected_top specs) then
    Ok (issues ++ [Issue "CRITICAL" "appointment_positioning" appt_name (start specs)
                         (expected_top specs) calculated_top (-25)],
        positioning_issues + 1)
  else Ok (issues, positioning_issues).

(** [sum(issue["severity"] for issue in self.issues
         if issue["category"] == "appointment_positioning")] *)
Definition positioning_severity (issues : list issue) : Z :=
  fold_right Z.add 0
    (map severity
         (List.filter (fun i => String.eqb (category i) "appointment_positioning") issues)).

(** [audit_appointment_positioning]; the printed lines are left out. *)
Definition audit_appointment_positioning (self : auditor) : result auditor :=
  '(issues, positioning_issues) ←
    foldM check_appointment (issues self, 0) (appointments self);
  if positioning_issues =? 0 then Ok (Auditor (score self) issues (appointments self))
  else Ok (Auditor (score self + positioning_severity issues) issues (appointments self)).

End Audit.

(* ===================================================================== *)
(** * [replit_daily_planner]: time slots, appointments and free time *)
(* ===================================================================== *)

Module DailyPlanner.

(** ** Times of day

    [datetime.strptime(s, "%H:%M")] is a time on 1 January 1900, and the
    generator only adds whole minutes to such values: a value is kept as
    the number of minutes since the midnight that starts that day. *)

(** One or two decimal digits that make a number up to [hi]. *)
Definition one_or_two_digits (s : string) (hi : Z) : option Z :=
  match s with
  | String c EmptyString => digit_of c
  | String c (String c' EmptyString) =>
      d ← digit_of c;
      d' ← digit_of c';
      if d * 10 + d' <=? hi then Some (d * 10 + d') else None
  | _ => None
  end.

(** [datetime.strptime(s, "%H:%M")]: an hour up to 23, a colon, a minute
    up to 59 and nothing else; [ValueError] otherwise. *)
Definition strptime_H_M (s : string) : result Z :=
  match split ":" s with
  | [hs; ms] =>
      match one_or_two_digits hs 23, one_or_two_digits ms 59 with
      | Some h, Some m => Ok (h * 60 + m)
      | _, _ => Raise ValueError
      end
  | _ => Raise ValueError
  end.

(** The day number of 1 January 1900. *)
Definition epoch : Z := ymd2ord 1900 1 1.

(** The first minute of year 1 and the last minute of year 9999. *)
Definition MIN_MINUTE : Z := (1 - epoch) * 1440.
Definition MAX_MINUTE : Z := (MAXORDINAL - epoch + 1) * 1440 - 1.

(** [t + timedelta(minutes=n)]: [OverflowError] outside years 1..9999. *)
Definition add_minutes (t n : Z) : result Z :=
  let t' := t + n in
  if (MIN_MINUTE <=? t') && (t' <=? MAX_MINUTE) then Ok t' else Raise OverflowError.

(** [t.strftime("%H:%M")] *)
Definition format_H_M (t : Z) : string :=
  fmt_02d (t mod 1440 / 60) +:+ ":" +:+ fmt_02d (t mod 60).

(** [int((b - a).total_seconds() / 60)] *)
Definition minutes_between (a b : Z) : result Z :=
  let total_seconds := float_of_Z ((b - a) * 60) in
  match Z_of_float (PrimFloat.div total_seconds (float_of_Z 60)) with
  | Some n => Ok n
  | None => Raise OverflowError
  end.

(** ** Loops

    A [while] loop takes the number of iterations it may make; [None]
    means that the number was too small to reach the end of the loop. *)

(** The loop of [generate_time_slots]. *)
Fixpoint time_slots_loop (fuel : nat) (current_time end_time : Z) (slots : list string)
    : option (result (list string)) :=
  match fuel with
  | O => None
  | S fuel' =>
      if current_time <=? end_time then
        let slots := slots ++ [format_H_M current_time] in
        match add_minutes current_time 30 with
        | Ok current_time => time_slots_loop fuel' current_time end_time slots
        | Raise e => Some (Raise e)
        end
      else Some (Ok slots)
  end.

(** [generate_time_slots] *)
Definition generate_time_slots (fuel : nat) : option (result (list string)) :=
  match strptime_H_M "06:00" with
  | Ok start_time =>
      match strptime_H_M "23:30" with
      | Ok end_time => time_slots_loop fuel start_time end_time []
      | Raise e => Some (Raise e)
      end
  | Raise e => Some (Raise e)
  end.

(** ** Appointments *)

(** An appointment as it is passed in: the keys that
    [parse_appointments] fills in may be absent. *)
Record appointment : Type := Appointment {
  title : string;
  start_time : string;
  end_time : string;
  duration_minutes : option Z;
  status : option string;
  event_notes : option (list string);
  action_items : option (list string)
}.

(** An appointment after [parse_appointments]: every key is present. *)
Record parsed_appointment : Type := Parsed {
  p_title : string;
  p_start_time : string;
  p_end_time : string;
  p_duration_minutes : Z;
  p_status : string;
  p_event_notes : list string;
  p_action_items : list string
}.

(** [apt.setdefault(key, value)] *)
Definition setdefault {A : Type} (field : option A) (value : A) : A :=
  match field with
  | Some v => v
  | None => value
  end.

(** Body of the loop of [parse_appointments]. *)
Definition parse_appointment (apt : appointment) : result parsed_appointment :=
  duration ←
    match duration_minutes apt with
    | None =>
        start ← strptime_H_M (start_time apt);
        end_ ← strptime_H_M (end_time apt);
        minutes_between start end_
    | Some duration => Ok duration
    end;
  Ok (Parsed (title apt) (start_time apt) (end_time apt) duration
             (setdefault (status apt) "scheduled")
             (setdefault (event_notes apt) [])
             (setdefault (action_items apt) [])).

(** [parse_appointments] *)
Definition parse_appointments (appointments_data : list appointment)
    : result (list parsed_appointment) :=
  mapM parse_appointment appointments_data.

(** [get_appointment_height] is [Layout.get_appointment_height]. *)

Section WithTimeSlots.

(** [self.time_slots] *)
Variable time_slots : list string.

(** The inner loop of [calculate_free_time]. *)
Fixpoint occupy_loop (fuel : nat) (current_time stop : Z) (occupied_slots : gset string)
    : option (result (gset string)) :=
  match fuel with
  | O => None
  | S fuel' =>
      if current_time <? stop then
        let time_str := format_H_M current_time in
        let occupied_slots :=
          if bool_decide (time_str ∈ time_slots) then {[ time_str ]} ∪ occupied_slots
          else occupied_slots in
        match add_minutes current_time 30 with
        | Ok current_time => occupy_loop fuel' current_time stop occupied_slots
        | Raise e => Some (Raise e)
        end
      else Some (Ok occupied_slots)
  end.

(** Body of the outer loop; [start_time + timedelta(minutes=duration)]
    is the bound of the inner loop. *)
Definition occupy (fuel : nat) (occupied_slots : gset string) (apt : parsed_appointment)
    : option (result (gset string)) :=
  match strptime_H_M (p_start_time apt) with
  | Ok start_time =>
      match add_minutes start_time (p_duration_minutes apt) with
      | Ok stop => occupy_loop fuel start_time stop occupied_slots
      | Raise e => Some (Raise e)
      end
  | Raise e => Some (Raise e)
  end.

Fixpoint occupy_all (fuel : nat) (occupied_slots : gset string)
    (appointments : list parsed_appointment) : option (result (gset string)) :=
  match appointments with
  | [] => Some (Ok occupied_slots)
  | apt :: rest =>
      match occupy fuel occupied_slots apt with
      | Some (Ok occupied_slots) => occupy_all fuel occupied_slots rest
      | stopped => stopped
      end
  end.

(** [calculate_free_time] *)
Definition calculate_free_time (fuel : nat) (appointments : list parsed_appointment)
    : option (result (list string)) :=
  match occupy_all fuel ∅ appointments with
  | Some (Ok occupied_slots) =>
      Some (Ok (List.filter (fun slot => negb (bool_decide (slot ∈ occupied_slots)))
                            time_slots))
  | Some (Raise e) => Some (Raise e)
  | None => None
  end.

End WithTimeSlots.

End DailyPlanner.

(* ===================================================================== *)
(** * [simple_fix.py]: the week filter with aligned time zones *)
(* ===================================================================== *)

Module SimpleFix.

(** [datetime.strptime(s, '%Y-%m-%d %H:%M:%S')] is the library's parser
    of the third attempt; [None] stands for its [ValueError]. *)
Class SpaceParser : Type := strptime_Ymd_HMS : string -> option datetime.

(** A reference parser for the zero-padded form
    [YYYY-MM-DD HH:MM:SS]; the result is naive. *)
Definition space_parse (s : string) : option datetime :=
  '(y, s1) ← read_digits 4 s 0;
  s2 ← expect "-" s1;
  '(m, s3) ← read_digits 2 s2 0;
  s4 ← expect "-" s3;
  '(d, s5) ← read_digits 2 s4 0;
  s6 ← expect " " s5;
  '(hh, s7) ← read_digits 2 s6 0;
  s8 ← expect ":" s7;
  '(mi, s9) ← read_digits 2 s8 0;
  s10 ← expect ":" s9;
  '(ss, rest) ← read_digits 2 s10 0;
  match rest with
  | EmptyString =>
      if (1 <=? y) && (1 <=? m) && (m <=? 12) && (1 <=? d) && (d <=? days_in_month y m)
         && (hh <? 24) && (mi <? 60) && (ss <? 62)
      then Some (mkdt y m d hh mi (Z.min ss 59) 0 None)
      else None
  | _ => None
  end.

Definition reference_space_parser : SpaceParser := space_parse.

Section WithParsers.
Context {parser : IsoParser} {space_parser : SpaceParser}.

(** [safe_parse_datetime]: three attempts, [None] when all fail. *)
Definition safe_parse_datetime (date_str : value) : option datetime :=
  if negb (truthy date_str) then None
  else
    match date_str with
    | VStr s =>
        match fromisoformat (replace_Z s) with
        | Some d => Some d
        | None =>
            let clean_date := hd "" (split "." s) +:+ "Z" in
            match fromisoformat (replace_Z clean_date) with
            | Some d => Some d
            | None => strptime_Ymd_HMS s
            end
        end
    | _ => None
    end.

(** [event_date.replace(tzinfo=week_start.tzinfo)] for a naive
    [event_date]. *)
Definition align (week_start event_date : datetime) : datetime :=
  match utcoffset event_date with
  | None =>
      mkdt (year event_date) (month event_date) (day event_date) (hour event_date)
           (minute event_date) (second event_date) (microsecond event_date)
           (utcoffset week_start)
  | Some _ => event_date
  end.

(** What one iteration of the loop does with its event. *)
Inductive verdict : Type :=
| Match          (* appended to [week_events] *)
| NoMatch        (* passed over *)
| ParsingError.  (* counted in [parsing_errors] *)

(** The [try] block of the loop. *)
Definition check_event (week_start week_end : datetime) (ev : event) : verdict :=
  let event_start_str := get ev "startTime" (VStr "") in
  if negb (truthy event_start_str) then NoMatch
  else
    match safe_parse_datetime event_start_str with
    | Some event_date =>
        let event_date := align week_start event_date in
        match (lower ← dt_le week_start event_date;
               if lower : bool then dt_le event_date week_end else Ok false) with
        | Ok true => Match
        | Ok false => NoMatch
        | Raise _ => ParsingError
        end
    | None => ParsingError
    end.

(** The loop: the list and the counter. *)
Definition filter_loop (week_start week_end : datetime) (events_data : list event)
    : list event * Z :=
  fold_left
    (fun '(week_events, parsing_errors) ev =>
       match check_event week_start week_end ev with
       | Match => (week_events ++ [ev], parsing_errors)
       | NoMatch => (week_events, parsing_errors)
       | ParsingError => (week_events, parsing_errors + 1)
       end)
    events_data ([], 0).

(** [filter_events_safe]: the list it returns and the number of parsing
    errors its last line prints ([None] when the week cannot be parsed and
    no such line is printed); the other printed lines are left out. *)
Definition filter_events_safe (events_data : list event)
    (week_start_str week_end_str : value) : list event * option Z :=
  match safe_parse_datetime week_start_str, safe_parse_datetime week_end_str with
  | Some week_start, Some week_end =>
      let '(week_events, parsing_errors) := filter_loop week_start week_end events_data in
      (week_events, Some parsing_errors)
  | _, _ => ([], None)
  end.

End WithParsers.

End SimpleFix.

(* ===================================================================== *)
(** * Vocabulary of the properties *)
(* ===================================================================== *)

Section Vocabulary.
Context {parser : IsoParser}.

(** Whether the loop body appends the event. *)
Definition kept (week_start week_end : datetime) (ev : event) : bool :=
  match in_week ev week_start week_end with
  | Ok true => true
  | _ => false
  end.



(** The fields the renderer formats have a usable type: the title can be
    sliced and the source is a string (or they are absent). *)
Definition renderable (ev : event) : bool :=
  is_ok (slice_to 15 (get ev "title" (VStr "Untitled")))
  && is_ok (upper_value (get ev "source" (VStr ""))).

(** The seven days from [week_start] on are dates of years 1..9999. *)
Definition week_in_range (week_start : datetime) : Prop :=
  0 < ymd2ord (year week_start) (month week_start) (day week_start)
  /\ ymd2ord (year week_start) (month week_start) (day week_start) + 6 <= MAXORDINAL.

(** The lines the export prints when it succeeds. *)
Definition success_lines (week_start week_end : datetime) (n : nat) : list string :=
  ["🔗 Creating bidirectional PDF for week " +:+ strftime_Y_m_d week_start
     +:+ " to " +:+ strftime_Y_m_d week_end;
   "📊 Processing " +:+ str_of_Z (Z.of_nat n) +:+ " events";
   "✅ Successfully created PDF with bidirectional links: " +:+ pdf_name week_start].

(** What [create_text_fallback] writes. *)
Definition fallback_chunks (events : list event) (ws we : string) : list string :=
  ["BIDIRECTIONAL WEEKLY PLANNER (TEXT FALLBACK)" +:+ nl;
   str_repeat 50 "=" +:+ nl;
   "Week: " +:+ ws +:+ " to " +:+ we +:+ nl;
   "Events: " +:+ str_of_Z (Z.of_nat (length events)) +:+ nl;
   nl +:+ "Note: PDF generation failed, created text version instead." +:+ nl].

(** The three lines written before the length of the events is taken. *)
Definition fallback_head (ws we : string) : list string :=
  ["BIDIRECTIONAL WEEKLY PLANNER (TEXT FALLBACK)" +:+ nl;
   str_repeat 50 "=" +:+ nl;
   "Week: " +:+ ws +:+ " to " +:+ we +:+ nl].



Definition add_line (w : world) (line : string) : world :=
  mkworld (files w) (readonly w) (stdout w ++ [line]).

(** The three ways the input of the package builder is rejected. *)
Definition rejected (w : world) (weekly_pdf_path : string)
    (daily_pdf_paths : list string) : Prop :=
  files w !! weekly_pdf_path = None
  \/ length daily_pdf_paths <> 7%nat
  \/ exists daily_pdf, daily_pdf ∈ daily_pdf_paths /\ files w !! daily_pdf = None.

(** What a page shows: its size and what is drawn on it. *)
Definition body (p : page) : float * float * list draw_op :=
  (width p, height p, ops p).

(** The filled rectangles of a page: the event blocks of a daily page. *)
Definition block_of (op : draw_op) : list rect :=
  match op with
  | DrawRect r true => [r]
  | _ => []
  end.

Definition event_blocks (p : page) : list rect := flat_map block_of (ops p).

(** The rows of the weekly grid in which the page shows the title [t]:
    the title line of row [j] is at [y = 120 + 30 + 25 j + 22]. *)
Definition weekly_rows (p : page) (t : string) : list Z :=
  omap (fun op =>
          match op with
          | InsertText _ y [Fmt (VStr t')] =>
              if String.eqb t' t
              then Some ((y - 22 - (grid_start_y + header_height)) / row_height)
              else None
          | _ => None
          end) (ops p).

(** The slots of the daily timeline in which the page shows the title
    [t]: the title line of slot [s] is at [y = 140 + 26 s + 12]. *)
Definition daily_rows (p : page) (t : string) : list Z :=
  omap (fun op =>
          match op with
          | InsertText _ y [Lit _; Fmt (VStr t')] =>
              if String.eqb t' t
              then Some ((y - 12 - time_start_y) / slot_height)
              else None
          | _ => None
          end) (ops p).

(** The hour and minute are those of a row of the daily grid. *)
Definition on_grid (hour minute : Z) : Prop :=
  6 <= hour <= 23 /\ (minute = 0 \/ minute = 30).

(** What a rendered page shows, when rendering succeeds. *)
Definition on_page {A : Type} (r : result page) (f : page -> A) : option A :=
  match r with
  | Ok p => Some (f p)
  | Raise _ => None
  end.

(** The adjacency graph the design prescribes, as (source page, target
    page): weekly page to each day, each day back to the weekly page, each
    day but Monday to the previous day, each day but Sunday to the next. *)
Definition spec_link_graph : list (Z * Z) :=
  map (fun i => (0, i + 1)) (seqZ 0 7)
  ++ map (fun i => (i + 1, 0)) (seqZ 0 7)
  ++ map (fun i => (i + 1, i)) (seqZ 1 6)
  ++ map (fun i => (i + 1, i + 2)) (seqZ 0 6).

(** Both ends of an edge are pages of a document of [n] pages. *)
Definition in_document (n : Z) (e : Z * Z) : bool :=
  (0 <=? e.1) && (e.1 <? n) && (0 <=? e.2) && (e.2 <? n).

(** How many links go from one page to another. *)
Definition count_edge (e : Z * Z) (l : list (Z * Z)) : nat :=
  length (List.filter (fun e' => bool_decide (e' = e)) l).

Definition edges_of (r : result (list page)) : option (list (Z * Z)) :=
  match r with
  | Ok d => Some (edges d)
  | Raise _ => None
  end.

(** The links in the order [add_bidirectional_hyperlinks] inserts them,
    page by page. *)
Definition simple_edges : list (Z * Z) :=
  [(0, 1); (0, 2); (0, 3); (0, 4); (0, 5); (0, 6); (0, 7);
   (1, 0); (1, 2);
   (2, 0); (2, 1); (2, 3);
   (3, 0); (3, 2); (3, 4);
   (4, 0); (4, 3); (4, 5);
   (5, 0); (5, 4); (5, 6);
   (6, 0); (6, 5); (6, 7);
   (7, 0); (7, 6)].

(** The same for [_add_hyperlinks_to_package]: three regions of every
    daily page lead to the weekly page. *)
Definition package_edges : list (Z * Z) :=
  [(0, 1); (0, 2); (0, 3); (0, 4); (0, 5); (0, 6); (0, 7);
   (1, 0); (1, 0); (1, 0); (1, 2);
   (2, 0); (2, 0); (2, 0); (2, 1); (2, 3);
   (3, 0); (3, 0); (3, 0); (3, 2); (3, 4);
   (4, 0); (4, 0); (4, 0); (4, 3); (4, 5);
   (5, 0); (5, 0); (5, 0); (5, 4); (5, 6);
   (6, 0); (6, 0); (6, 0); (6, 5); (6, 7);
   (7, 0); (7, 0); (7, 0); (7, 6)].

(** A page with further links appended. *)
Definition add_links (p : page) (ls : list link) : page :=
  Page (width p) (height p) (ops p) (links p ++ ls).

(** The pages of [doc'] without the links that the pages of [doc] carried
    already, for a [doc'] obtained from [doc] by appending links. *)
Definition without_links_of (doc doc' : list page) : list page :=
  zip_with (fun p p' => Page (width p') (height p') (ops p')
                             (drop (length (links p)) (links p'))) doc doc'.

(** The edges of the links added on the way from [doc] to [doc']. *)
Definition added_edges (doc doc' : list page) : list (Z * Z) :=
  edges (without_links_of doc doc').

(** The target pages of the links, page by page. *)
Definition targets (doc : list page) : list (list Z) :=
  map (fun p => map to_page (links p)) doc.

(** The edges from the target pages, page by page. *)
Definition edges_to (tss : list (list Z)) : list (Z * Z) :=
  concat (imap (fun i ts => map (fun t => (Z.of_nat i, t)) ts) tss).

End Vocabulary.

(* ===================================================================== *)
(** * Vocabulary of the further properties *)
(* ===================================================================== *)

Section DocumentVocabulary.
(** An aware [datetime] carries a UTC offset. *)
Definition aware (d : datetime) : bool :=
  match utcoffset d with Some _ => true | None => false end.

(** The size of a page. *)
Definition page_size (p : page) : float * float := (width p, height p).

(** Wiring may only append links to a page. *)
Definition only_links_added (doc doc' : list page) : Prop :=
  Forall2 (fun p p' => body p' = body p /\ exists added, links p' = links p ++ added) doc doc'
  /\ drop 8 doc' = drop 8 doc.

End DocumentVocabulary.

Section PageVocabulary.
Context {parser : IsoParser}.

(** The event starts in one of the rows of the daily grid. *)
Definition starts_on_grid (ev : event) : bool :=
  existsb (fun '(hour, minute) => is_event_at_time ev hour minute) time_grid.

(** The outlined rectangles of a page: on a weekly page the day headers
    and the event cells. *)
Definition outline_of (op : draw_op) : list rect :=
  match op with
  | DrawRect r false => [r]
  | _ => []
  end.

Definition outlines (p : page) : list rect := flat_map outline_of (ops p).

End PageVocabulary.

Section ClockVocabulary.

(** [f"{hour:02d}:{minute:02d}"], the form of a slot label. *)
Definition clock (hour minute : Z) : string :=
  fmt_02d hour +:+ ":" +:+ fmt_02d minute.

(** The slots of the weekly grid in which the event is listed. *)
Definition listed_in (ev : event) : list string :=
  List.filter (fun slot => match Enhanced._is_event_at_time ev slot with
                           | Ok true => true
                           | _ => false
                           end) Enhanced._generate_time_slots.

End ClockVocabulary.

Section AuditVocabulary.

(** The audit's own computation disagrees with the expected position of
    the entry. *)
Definition misplaced (entry : string * Audit.appointment_spec) : bool :=
  match calculate_expected_position (Audit.start entry.2) with
  | Ok top => negb (top =? Audit.expected_top entry.2)
  | Raise _ => false
  end.

End AuditVocabulary.

Section PlannerVocabulary.

(** The labels of the half hours an appointment covers: its start, then
    every 30 minutes before its start plus its duration. *)
Definition covered_labels (apt : DailyPlanner.parsed_appointment) : list string :=
  match DailyPlanner.strptime_H_M (DailyPlanner.p_start_time apt) with
  | Ok start =>
      (fun k => DailyPlanner.format_H_M (start + 30 * k))
        <$> seqZ 0 ((DailyPlanner.p_duration_minutes apt + 29) / 30)
  | Raise _ => []
  end.

(** The start time can be read, the end of the appointment (and the half
    hour after it) is a date the calendar has, and the inner loop may make
    enough iterations. *)
Definition schedulable (fuel : nat) (apt : DailyPlanner.parsed_appointment) : Prop :=
  is_ok (DailyPlanner.strptime_H_M (DailyPlanner.p_start_time apt)) = true /\
  DailyPlanner.MIN_MINUTE <= DailyPlanner.p_duration_minutes apt /\
  DailyPlanner.p_duration_minutes apt + 1470 <= DailyPlanner.MAX_MINUTE /\
  (0 < fuel)%nat /\
  DailyPlanner.p_duration_minutes apt <= 30 * (Z.of_nat fuel - 1).

(** The appointment starts on a quarter past or some other minute that is
    no half hour. *)
Definition off_the_half_hour (apt : DailyPlanner.parsed_appointment) : Prop :=
  exists start,
    DailyPlanner.strptime_H_M (DailyPlanner.p_start_time apt) = Ok start /\
    start mod 30 <> 0.

End PlannerVocabulary.

(* ===================================================================== *)
(** * Concrete inputs for the examples *)
(* ===================================================================== *)

Section Inputs.

#[local] Existing Instance reference_parser.

(** An empty, writable file system. *)
Definition empty_world : world := mkworld ∅ ∅ [].


(** Eight blank pages: a landscape weekly page and seven portrait daily
    pages. *)
Definition blank_package : list page :=
  new_page 792 612 :: replicate 7 (new_page 612 792).

(** Nine pages, as read from files: the weekly page already carries a link
    to page 3, and a ninth page follows the seven daily pages. *)
Definition package_with_link : list page :=
  add_link (new_page 792 612) (Link (RectZ 0 0 10 10) 3)
  :: replicate 8 (new_page 612 792).

Definition daily_names : list string :=
  ["monday.pdf"; "tuesday.pdf"; "wednesday.pdf"; "thursday.pdf"; "friday.pdf";
   "saturday.pdf"; "sunday.pdf"].

(** Eight one-page PDF files. *)
Definition package_world : world :=
  mkworld
    (<["weekly.pdf" := PdfFile [new_page 792 612]]>
       (list_to_map (map (fun name => (name, PdfFile [new_page 612 792])) daily_names)))
    ∅ [].

Definition monday : datetime := mkdt 2025 7 14 0 0 0 0 None.
Definition sunday : datetime := mkdt 2025 7 20 0 0 0 0 None.

Definition eight_o_clock : datetime := mkdt 2025 7 14 8 0 0 0 None.

(** The event of the design's scenario. *)
Definition coffee : event :=
  {[ "title" := VStr "Coffee with Nora";
     "startTime" := VStr "2025-07-14T08:00:00Z";
     "endTime" := VStr "2025-07-14T09:00:00Z";
     "source" := VStr "GOOGLE CALENDAR" ]}.

(** The scenario's event with a local start time, as the date-only week
    bounds need it. *)
Definition coffee_local : event :=
  {[ "title" := VStr "Coffee with Nora";
     "startTime" := VStr "2025-07-14T08:00:00";
     "endTime" := VStr "2025-07-14T09:00:00";
     "source" := VStr "GOOGLE CALENDAR" ]}.

Definition not_a_date : event :=
  {[ "title" := VStr "Broken"; "startTime" := VStr "not-a-date" ]}.


(** An event before the first row of the grid. *)
Definition early_call : event :=
  {[ "title" := VStr "Early call"; "startTime" := VStr "2025-07-14T05:00:00" ]}.

(** A quarter-hour event: 15 px on the daily timeline, where one slot is
    30 px. *)
Definition quarter_hour : event :=
  {[ "title" := VStr "Stand-up"; "startTime" := VStr "09:00"; "endTime" := VStr "09:15" ]}.

Definition one_hour : event :=
  {[ "title" := VStr "Coffee with Nora"; "startTime" := VStr "08:00";
     "endTime" := VStr "09:00"; "source" := VStr "GOOGLE CALENDAR" ]}.

(** An hour with two notes and one action item. *)
Definition with_notes : event :=
  {[ "title" := VStr "Review"; "startTime" := VStr "09:00"; "endTime" := VStr "10:00";
     "notes" := VList [VStr "agenda"; VStr "minutes"];
     "actionItems" := VList [VStr "send summary"] ]}.

(** The two pages of the scenario's Monday. *)
Definition coffee_weekly : page :=
  match create_weekly_overview_page (new_page 792 612) [coffee_local] monday with
  | Ok p => p
  | Raise _ => new_page 792 612
  end.

Definition coffee_daily : page :=
  match create_daily_page (new_page 612 792) [coffee_local] monday "Monday" 0 with
  | Ok p => p
  | Raise _ => new_page 612 792
  end.

End Inputs.

(* ===================================================================== *)
(** * Sanity checks of the library model *)
(* ===================================================================== *)

Example replace_Z_utc : replace_Z "2025-07-14T08:00:00Z" = "2025-07-14T08:00:00+00:00".
Proof. reflexivity. Qed.

Example split_clock : split ":" "08:30" = ["08"; "30"].
Proof. reflexivity. Qed.

Example int_of_str_examples :
  int_of_str "08" = Ok 8 /\ int_of_str " -12 " = Ok (-12) /\
  int_of_str "1_0" = Ok 10 /\ int_of_str "ab" = Raise ValueError /\
  int_of_str "" = Raise ValueError.
Proof. repeat split; reflexivity. Qed.

Example str_of_Z_examples :
  str_of_Z 0 = "0" /\ str_of_Z 2025 = "2025" /\ str_of_Z (-7) = "-7" /\
  fmt_02d 6 = "06" /\ fmt_02d 23 = "23".
Proof. repeat split; reflexivity. Qed.

Example iso_parse_utc :
  iso_parse (replace_Z "2025-07-14T08:00:00Z")
  = Some (mkdt 2025 7 14 8 0 0 0 (Some 0)).
Proof. reflexivity. Qed.

Example iso_parse_date : iso_parse "2025-07-14" = Some (mkdt 2025 7 14 0 0 0 0 None).
Proof. reflexivity. Qed.

Example iso_parse_fraction :
  iso_parse "2025-07-14T08:30:15.250" = Some (mkdt 2025 7 14 8 30 15 250000 None).
Proof. reflexivity. Qed.

Example iso_parse_garbage : iso_parse "not-a-date" = None.
Proof. reflexivity. Qed.

Example add_days_month_end :
  add_days (mkdt 2025 7 28 0 0 0 0 None) 6 = Ok (mkdt 2025 8 3 0 0 0 0 None).
Proof. reflexivity. Qed.

Example add_days_leap :
  add_days (mkdt 2024 2 26 9 0 0 0 None) 4 = Ok (mkdt 2024 3 1 9 0 0 0 None).
Proof. reflexivity. Qed.

Example strftime_examples :
  strftime_B_d_Y (mkdt 2025 7 4 0 0 0 0 None) = "July 04, 2025" /\
  strftime_Y_m_d (mkdt 2025 7 14 0 0 0 0 None) = "2025-07-14".
Proof. split; reflexivity. Qed.

Example le_naive_aware :
  dt_le (mkdt 2025 7 14 0 0 0 0 None) (mkdt 2025 7 14 8 0 0 0 (Some 0)) = Raise TypeError.
Proof. reflexivity. Qed.

Example ymd2ord_scenario : ymd2ord 2025 7 14 = 739446 /\ ymd2ord 9999 12 31 = MAXORDINAL.
Proof. split; reflexivity. Qed.

Example ord_roundtrip_window :
  forallb (fun o => let '(y, m, d) := ord2ymd o in ymd2ord y m d =? o)
          (seqZ 738500 2000) = true.
Proof. vm_compute. reflexivity. Qed.

(* ===================================================================== *)
(** * Block heights (C4) *)
(* ===================================================================== *)

Section BlockHeight.

Lemma get_appointment_height_min (d : Z) : 40 <= get_appointment_height d.
Proof. unfold get_appointment_height. lia. Qed.

(** The binary64 computation is exact on whole slots, up to a day. *)
Lemma scaled_height_whole_slots (k : Z) :
  1 <= k <= 48 -> scaled_height (30 * k) 30 = Ok (30 * k).
Proof.
  intros Hk.
  assert (Hall : forallb
            (fun k => match scaled_height (30 * k) 30 with
                      | Ok h => h =? 30 * k
                      | Raise _ => false
                      end) (seqZ 1 48) = true) by (vm_compute; reflexivity).
  rewrite forallb_forall in Hall.
  specialize (Hall k).
  destruct (scaled_height (30 * k) 30) as [h|e].
  - f_equal. apply Z.eqb_eq, Hall. apply list_elem_of_In, elem_of_seqZ. lia.
  - exfalso. assert (false = true); [|discriminate].
    apply Hall. apply list_elem_of_In, elem_of_seqZ. lia.
Qed.

(** Without notes and action items the daily height is the scaled
    duration. *)
Lemma daily_height_plain (ev : event) (t_start t_end : Z) :
  _time_to_minutes (get ev "endTime" (VStr "")) = Ok t_end ->
  _time_to_minutes (get ev "startTime" (VStr "")) = Ok t_start ->
  has_details ev = false ->
  _calculate_daily_event_height ev = scaled_height (t_end - t_start) 30.
Proof.
  intros He Hs Hd. unfold _calculate_daily_event_height.
  rewrite He, Hs. simpl. rewrite Hd.
  destruct (scaled_height (t_end - t_start) 30); reflexivity.
Qed.


(** C4, as stated, fails for [_calculate_daily_event_height]: a 15-minute
    event without notes or action items is 15 px tall, not
    [max(1, 15 // 30) * 30 = 30]. *)
Lemma block_height_counterexample :
  _time_to_minutes (get quarter_hour "startTime" (VStr "")) = Ok 540 /\
  _time_to_minutes (get quarter_hour "endTime" (VStr "")) = Ok 555 /\
  has_details quarter_hour = false /\
  _calculate_daily_event_height quarter_hour = Ok 15 /\
  _calculate_daily_event_height quarter_hour <> Ok (Z.max 1 ((555 - 540) / 30) * 30).
Proof. vm_compute. repeat split; congruence. Qed.

(** C4 (amended): [get_appointment_height] is
    [max(1, duration // 30) * 40] for every duration, so at least one 40 px
    slot; [_calculate_daily_event_height] has no minimum and does not round
    to whole slots, and for an event without notes and action items that
    spans [k] whole slots ([1 <= k <= 48]) it is [k * 30], the same value
    as [max(1, duration // 30) * 30]; 60 minutes give two slots in both. *)
Theorem block_height_whole_slots (d : Z) (ev : event) (t_start t_end k : Z) :
  _time_to_minutes (get ev "endTime" (VStr "")) = Ok t_end ->
  _time_to_minutes (get ev "startTime" (VStr "")) = Ok t_start ->
  has_details ev = false ->
  t_end - t_start = 30 * k ->
  1 <= k <= 48 ->
  get_appointment_height d = Z.max 1 (d / 30) * 40 /\
  40 <= get_appointment_height d /\
  get_appointment_height 60 = 2 * 40 /\
  _calculate_daily_event_height ev = Ok (Z.max 1 ((t_end - t_start) / 30) * 30) /\
  (k = 2 -> _calculate_daily_event_height ev = Ok (2 * 30)).
Proof.
  intros He Hs Hd Hk Hr.
  assert (Hh : _calculate_daily_event_height ev = Ok (30 * k)).
  { rewrite (daily_height_plain ev t_start t_end He Hs Hd), Hk.
    apply scaled_height_whole_slots, Hr. }
  split; [reflexivity|]. split; [apply get_appointment_height_min|].
  split; [reflexivity|]. split.
  - rewrite Hh, Hk. f_equal.
    replace (30 * k / 30) with k by (rewrite Z.mul_comm, Z.div_mul; lia). lia.
  - intros ->. exact Hh.
Qed.

(** The hour of the scenario, and a quarter of an hour for the planner. *)
Lemma block_height_whole_slots_witness :
  get_appointment_height 15 = Z.max 1 (15 / 30) * 40 /\
  40 <= get_appointment_height 15 /\
  get_appointment_height 60 = 2 * 40 /\
  _calculate_daily_event_height one_hour = Ok (Z.max 1 ((540 - 480) / 30) * 30) /\
  (2 = 2 -> _calculate_daily_event_height one_hour = Ok (2 * 30)).
Proof.
  apply (block_height_whole_slots 15 one_hour 480 540 2);
    [reflexivity | reflexivity | reflexivity | reflexivity | lia].
Defined.

End BlockHeight.

(* ===================================================================== *)
(** * The link graph (C2) *)
(* ===================================================================== *)

Section LinkGraph.

Lemma eight_pages (doc : list page) :
  length doc = 8%nat -> Forall (fun p => links p = []) doc ->
  exists w0 h0 o0 w1 h1 o1 w2 h2 o2 w3 h3 o3 w4 h4 o4 w5 h5 o5 w6 h6 o6 w7 h7 o7,
    doc = [Page w0 h0 o0 []; Page w1 h1 o1 []; Page w2 h2 o2 []; Page w3 h3 o3 [];
           Page w4 h4 o4 []; Page w5 h5 o5 []; Page w6 h6 o6 []; Page w7 h7 o7 []].
Proof.
  intros Hlen Hl.
  do 9 (destruct doc as [|[? ? ? ?] doc]; try discriminate Hlen).
  repeat match goal with
         | H : Forall _ (_ :: _) |- _ => inversion H; clear H; subst
         end.
  simpl in *. subst. repeat eexists.
Qed.

Lemma simple_edges_run (doc : list page) :
  length doc = 8%nat -> Forall (fun p => links p = []) doc ->
  edges_of (add_bidirectional_hyperlinks doc) = Some simple_edges.
Proof.
  intros Hlen Hl.
  destruct (eight_pages doc Hlen Hl)
    as (w0&h0&o0&w1&h1&o1&w2&h2&o2&w3&h3&o3&w4&h4&o4&w5&h5&o5&w6&h6&o6&w7&h7&o7&->).
  vm_compute. reflexivity.
Qed.

Lemma package_edges_run (doc : list page) :
  length doc = 8%nat -> Forall (fun p => links p = []) doc ->
  edges_of (_add_hyperlinks_to_package doc) = Some package_edges.
Proof.
  intros Hlen Hl.
  destruct (eight_pages doc Hlen Hl)
    as (w0&h0&o0&w1&h1&o1&w2&h2&o2&w3&h3&o3&w4&h4&o4&w5&h5&o5&w6&h6&o6&w7&h7&o7&->).
  vm_compute. reflexivity.
Qed.

Lemma edges_of_Some (r : result (list page)) (l : list (Z * Z)) :
  edges_of r = Some l -> exists d, r = Ok d /\ edges d = l.
Proof. destruct r as [d|e]; simpl; [|discriminate]. intros [= <-]. eauto. Qed.

(** Wiring a document that lacks a page fails as a whole. *)
Lemma wiring_fails_on_missing_page (doc : list page) :
  (length doc < 8)%nat ->
  is_ok (add_bidirectional_hyperlinks doc) = false /\
  is_ok (_add_hyperlinks_to_package doc) = false.
Proof.
  intros Hlen.
  do 8 (destruct doc as [|[? ? ? ?] doc]; [split; vm_compute; reflexivity|]).
  simpl in Hlen. lia.
Qed.

(** C2, as stated, fails for [_add_hyperlinks_to_package]: it inserts 40
    links, 21 of them from the daily pages to the weekly page. *)
Lemma link_graph_counterexample :
  exists packaged,
    _add_hyperlinks_to_package blank_package = Ok packaged /\
    length (edges packaged) = 40%nat /\
    length (List.filter (fun e => e.2 =? 0) (edges packaged)) = 21%nat /\
    length (edges packaged) <> 26%nat.
Proof.
  destruct (edges_of_Some _ _ (package_edges_run blank_package eq_refl
              ltac:(repeat constructor))) as (d & Hd & He).
  exists d. rewrite He. repeat split; [exact Hd | discriminate].
Qed.

(** A link to a page of the document is inserted. *)
Lemma insert_link_run (doc : list page) (pno : nat) (p : page) (l : link) :
  doc !! pno = Some p ->
  0 <= to_page l < Z.of_nat (length doc) ->
  insert_link doc pno l = Ok (<[pno := add_link p l]> doc).
Proof.
  intros Hp Hl. unfold insert_link. rewrite Hp.
  replace (_ && _) with true by (symmetry; apply andb_true_iff; split; lia).
  reflexivity.
Qed.

(** One step of a wiring run on a document given page by page. *)
Ltac step_insert :=
  erewrite insert_link_run;
    [ | reflexivity | cbn [to_page length]; lia ];
  cbn [mbind result_bind insert list_insert add_link width height ops links].

Ltac run_wiring :=
  repeat first
    [ step_insert
    | progress cbn [getitem lookup list_lookup Nat.add Nat.ltb Nat.leb mbind result_bind
                    seq foldM] ].

Ltac close_wiring :=
  unfold add_link, add_links; cbn [width height ops links];
  rewrite <- !app_assoc; cbn [app]; reflexivity.

(** The links [add_bidirectional_hyperlinks] appends to the first eight
    pages of a document, by the pages they lead to. *)
Lemma simple_wiring_run (p0 p1 p2 p3 p4 p5 p6 p7 : page) (rest : list page) :
  exists a0 a1 a2 a3 a4 a5 a6 a7,
    add_bidirectional_hyperlinks (p0 :: p1 :: p2 :: p3 :: p4 :: p5 :: p6 :: p7 :: rest)
    = Ok (add_links p0 a0 :: add_links p1 a1 :: add_links p2 a2 :: add_links p3 a3 ::
          add_links p4 a4 :: add_links p5 a5 :: add_links p6 a6 :: add_links p7 a7 :: rest) /\
    map (map to_page) [a0; a1; a2; a3; a4; a5; a6; a7]
    = [[1; 2; 3; 4; 5; 6; 7]; [0; 2]; [0; 1; 3]; [0; 2; 4]; [0; 3; 5]; [0; 4; 6]; [0; 5; 7]; [0; 6]].
Proof.
  do 8 eexists. split.
  - unfold add_bidirectional_hyperlinks.
    change (length days) with 7%nat.
    run_wiring. close_wiring.
  - reflexivity.
Qed.

(** The same for [_add_hyperlinks_to_package]. *)
Lemma package_wiring_run (p0 p1 p2 p3 p4 p5 p6 p7 : page) (rest : list page) :
  exists a0 a1 a2 a3 a4 a5 a6 a7,
    _add_hyperlinks_to_package (p0 :: p1 :: p2 :: p3 :: p4 :: p5 :: p6 :: p7 :: rest)
    = Ok (add_links p0 a0 :: add_links p1 a1 :: add_links p2 a2 :: add_links p3 a3 ::
          add_links p4 a4 :: add_links p5 a5 :: add_links p6 a6 :: add_links p7 a7 :: rest) /\
    map (map to_page) [a0; a1; a2; a3; a4; a5; a6; a7]
    = [[1; 2; 3; 4; 5; 6; 7]; [0; 0; 0; 2]; [0; 0; 0; 1; 3]; [0; 0; 0; 2; 4]; [0; 0; 0; 3; 5];
       [0; 0; 0; 4; 6]; [0; 0; 0; 5; 7]; [0; 0; 0; 6]].
Proof.
  do 8 eexists. split.
  - unfold _add_hyperlinks_to_package.
    run_wiring. close_wiring.
  - reflexivity.
Qed.

Lemma edges_targets (doc : list page) : edges doc = edges_to (targets doc).
Proof.
  unfold edges, edges_to, targets. f_equal.
  change (map (fun p => map to_page (links p)) doc)
    with ((fun p => map to_page (links p)) <$> doc).
  rewrite imap_fmap. apply imap_ext. intros i p _. unfold compose.
  rewrite map_map. reflexivity.
Qed.

Lemma edges_to_app_nil (front : list (list Z)) (n : nat) :
  edges_to (front ++ replicate n []) = edges_to front.
Proof.
  unfold edges_to. rewrite imap_app, concat_app.
  generalize (length front). intros k.
  assert (H : forall (f : nat -> list Z -> list (Z * Z)),
             (forall i, f i [] = []) -> concat (imap f (replicate n [])) = []).
  { induction n as [|n IH]; intros f Hf; [reflexivity|].
    cbn [replicate imap concat]. rewrite Hf, IH; [reflexivity|].
    intros i. apply Hf. }
  rewrite H; [apply app_nil_r|]. reflexivity.
Qed.

Lemma targets_without_links_tail (rest : list page) :
  targets (without_links_of rest rest) = replicate (length rest) [].
Proof.
  unfold targets, without_links_of.
  induction rest as [|p rest IH]; [reflexivity|].
  cbn [zip_with map links length replicate]. rewrite drop_all, IH. reflexivity.
Qed.

(** The edges added, from the targets of the links appended to the first
    eight pages. *)
Lemma added_edges_run (p0 p1 p2 p3 p4 p5 p6 p7 : page) (rest : list page)
    (a0 a1 a2 a3 a4 a5 a6 a7 : list link) :
  added_edges (p0 :: p1 :: p2 :: p3 :: p4 :: p5 :: p6 :: p7 :: rest)
    (add_links p0 a0 :: add_links p1 a1 :: add_links p2 a2 :: add_links p3 a3 ::
     add_links p4 a4 :: add_links p5 a5 :: add_links p6 a6 :: add_links p7 a7 :: rest)
  = edges_to (map (map to_page) [a0; a1; a2; a3; a4; a5; a6; a7]).
Proof.
  unfold added_edges. rewrite edges_targets.
  rewrite <- (edges_to_app_nil (map (map to_page) [a0; a1; a2; a3; a4; a5; a6; a7])
                (length rest)).
  f_equal. rewrite <- targets_without_links_tail.
  unfold targets, without_links_of, add_links.
  cbn [zip_with map width height ops links app].
  rewrite !drop_app_length. reflexivity.
Qed.

Lemma length_edges_to (tss : list (list Z)) :
  length (edges_to tss) = list_sum (map length tss).
Proof.
  unfold edges_to.
  assert (H : forall (f : nat -> list Z -> list (Z * Z)),
             (forall i ts, length (f i ts) = length ts) ->
             length (concat (imap f tss)) = list_sum (map length tss)).
  { induction tss as [|ts tss IH]; intros f Hf; [reflexivity|].
    cbn [imap concat map list_sum fold_right]. rewrite length_app, Hf. f_equal.
    apply IH. intros i ts'. apply Hf. }
  apply H. intros i ts. apply length_map.
Qed.

Lemma length_edges (doc : list page) :
  length (edges doc) = list_sum (map (fun p => length (links p)) doc).
Proof.
  rewrite edges_targets, length_edges_to. unfold targets. rewrite map_map.
  f_equal. apply map_ext. intros p. apply length_map.
Qed.

(** On pages that carry no link, the edges added are the edges. *)
Lemma added_edges_fresh (doc doc' : list page) :
  length doc = length doc' ->
  Forall (fun p => links p = []) doc ->
  added_edges doc doc' = edges doc'.
Proof.
  intros Hlen Hl. unfold added_edges. rewrite !edges_targets. f_equal.
  unfold targets, without_links_of. revert doc' Hlen.
  induction Hl as [|p doc Hp _ IH]; intros [|p' doc'] Hlen; try discriminate Hlen;
    [reflexivity|].
  cbn [zip_with map links]. rewrite Hp. cbn [length drop]. f_equal.
  apply IH. simpl in Hlen. lia.
Qed.

Lemma length_edges_run (p0 p1 p2 p3 p4 p5 p6 p7 : page) (rest : list page)
    (a0 a1 a2 a3 a4 a5 a6 a7 : list link) :
  length (edges (add_links p0 a0 :: add_links p1 a1 :: add_links p2 a2 :: add_links p3 a3 ::
                 add_links p4 a4 :: add_links p5 a5 :: add_links p6 a6 :: add_links p7 a7 ::
                 rest))
  = (length (edges (p0 :: p1 :: p2 :: p3 :: p4 :: p5 :: p6 :: p7 :: rest))
     + list_sum (map length (map (map to_page) [a0; a1; a2; a3; a4; a5; a6; a7])))%nat.
Proof.
  rewrite !length_edges.
  cbn [map add_links links list_sum fold_right]. rewrite !length_app, !length_map. lia.
Qed.

Lemma only_links_added_run (p0 p1 p2 p3 p4 p5 p6 p7 : page) (rest : list page)
    (a0 a1 a2 a3 a4 a5 a6 a7 : list link) :
  only_links_added (p0 :: p1 :: p2 :: p3 :: p4 :: p5 :: p6 :: p7 :: rest)
    (add_links p0 a0 :: add_links p1 a1 :: add_links p2 a2 :: add_links p3 a3 ::
     add_links p4 a4 :: add_links p5 a5 :: add_links p6 a6 :: add_links p7 a7 :: rest).
Proof.
  split; [|reflexivity].
  do 8 (constructor; [split; [reflexivity | eexists; reflexivity]|]).
  apply Forall_Forall2_diag, Forall_forall. intros p _.
  split; [reflexivity|]. exists []. symmetry. apply app_nil_r.
Qed.

(** C2 (amended): on a document of at least eight pages, whatever links
    its pages carry already, both wiring functions succeed, keep every page
    and its links, and add exactly the 26 page-to-page edges of the
    prescribed graph, all between pages 0..7.
    [add_bidirectional_hyperlinks] adds one link per edge (26 links);
    [_add_hyperlinks_to_package] adds 40 links, because three regions of
    every daily page lead to the weekly page.  On pages without links, as
    the export renders them, the edges added are all the edges of the
    document. *)
Theorem link_graph_edges (doc : list page) :
  (8 <= length doc)%nat ->
  exists linked packaged,
    add_bidirectional_hyperlinks doc = Ok linked /\
    _add_hyperlinks_to_package doc = Ok packaged /\
    only_links_added doc linked /\
    only_links_added doc packaged /\
    length (added_edges doc linked) = 26%nat /\
    NoDup (added_edges doc linked) /\
    list_to_set (added_edges doc linked) =@{gset (Z * Z)} list_to_set spec_link_graph /\
    length (added_edges doc packaged) = 40%nat /\
    list_to_set (added_edges doc packaged) =@{gset (Z * Z)} list_to_set spec_link_graph /\
    (forall i, 1 <= i <= 7 -> count_edge (i, 0) (added_edges doc packaged) = 3%nat) /\
    length (remove_dups (added_edges doc packaged)) = 26%nat /\
    forallb (in_document 8) (added_edges doc linked ++ added_edges doc packaged) = true /\
    length (edges linked) = (length (edges doc) + 26)%nat /\
    length (edges packaged) = (length (edges doc) + 40)%nat /\
    (Forall (fun p => links p = []) doc ->
       edges linked = added_edges doc linked /\ edges packaged = added_edges doc packaged).
Proof.
  intros Hlen.
  do 8 (destruct doc as [|? doc]; [simpl in Hlen; lia|]). clear Hlen.
  destruct (simple_wiring_run p p0 p1 p2 p3 p4 p5 p6 doc)
    as (a0 & a1 & a2 & a3 & a4 & a5 & a6 & a7 & H1 & T1).
  destruct (package_wiring_run p p0 p1 p2 p3 p4 p5 p6 doc)
    as (b0 & b1 & b2 & b3 & b4 & b5 & b6 & b7 & H2 & T2).
  pose proof (added_edges_run p p0 p1 p2 p3 p4 p5 p6 doc a0 a1 a2 a3 a4 a5 a6 a7) as E1.
  pose proof (added_edges_run p p0 p1 p2 p3 p4 p5 p6 doc b0 b1 b2 b3 b4 b5 b6 b7) as E2.
  pose proof (length_edges_run p p0 p1 p2 p3 p4 p5 p6 doc a0 a1 a2 a3 a4 a5 a6 a7) as L1.
  pose proof (length_edges_run p p0 p1 p2 p3 p4 p5 p6 doc b0 b1 b2 b3 b4 b5 b6 b7) as L2.
  pose proof (only_links_added_run p p0 p1 p2 p3 p4 p5 p6 doc a0 a1 a2 a3 a4 a5 a6 a7) as K1.
  pose proof (only_links_added_run p p0 p1 p2 p3 p4 p5 p6 doc b0 b1 b2 b3 b4 b5 b6 b7) as K2.
  rewrite T1 in E1, L1. rewrite T2 in E2, L2.
  change (edges_to _) with simple_edges in E1.
  change (edges_to _) with package_edges in E2.
  change (list_sum _) with 26%nat in L1. change (list_sum _) with 40%nat in L2.
  eexists _, _. split; [exact H1|]. split; [exact H2|].
  split; [exact K1|]. split; [exact K2|].
  rewrite E1, E2.
  split; [reflexivity|]. split; [compute_done|]. split; [compute_done|].
  split; [reflexivity|]. split; [compute_done|]. split.
  { intros i Hi.
    assert (Hin : i ∈ seqZ 1 7) by (apply elem_of_seqZ; lia).
    clear Hi. revert i Hin. apply Forall_forall. compute_done. }
  split; [compute_done|]. split; [reflexivity|].
  split; [exact L1|]. split; [exact L2|].
  intros Hl. rewrite <- E1, <- E2.
  destruct K1 as [K1 _]. destruct K2 as [K2 _].
  split; symmetry; apply added_edges_fresh; eauto using Forall2_length.
Qed.

(** Nine pages, one of them with a link. *)
Lemma link_graph_edges_witness :
  exists linked packaged,
    add_bidirectional_hyperlinks package_with_link = Ok linked /\
    _add_hyperlinks_to_package package_with_link = Ok packaged /\
    only_links_added package_with_link linked /\
    only_links_added package_with_link packaged /\
    length (added_edges package_with_link linked) = 26%nat /\
    NoDup (added_edges package_with_link linked) /\
    list_to_set (added_edges package_with_link linked)
      =@{gset (Z * Z)} list_to_set spec_link_graph /\
    length (added_edges package_with_link packaged) = 40%nat /\
    list_to_set (added_edges package_with_link packaged)
      =@{gset (Z * Z)} list_to_set spec_link_graph /\
    (forall i, 1 <= i <= 7 ->
       count_edge (i, 0) (added_edges package_with_link packaged) = 3%nat) /\
    length (remove_dups (added_edges package_with_link packaged)) = 26%nat /\
    forallb (in_document 8)
      (added_edges package_with_link linked ++ added_edges package_with_link packaged)
    = true /\
    length (edges linked) = (length (edges package_with_link) + 26)%nat /\
    length (edges packaged) = (length (edges package_with_link) + 40)%nat /\
    (Forall (fun p => links p = []) package_with_link ->
       edges linked = added_edges package_with_link linked /\
       edges packaged = added_edges package_with_link packaged).
Proof.
  apply (link_graph_edges package_with_link). simpl. lia.
Defined.

(** The link the weekly page carried is still there: 27 and 41 links. *)
Example wiring_keeps_prior_link :
  length <$> edges_of (add_bidirectional_hyperlinks package_with_link) = Some 27%nat /\
  length <$> edges_of (_add_hyperlinks_to_package package_with_link) = Some 41%nat.
Proof. split; vm_compute; reflexivity. Qed.

End LinkGraph.

(* ===================================================================== *)
(** * Loops that may raise *)
(* ===================================================================== *)

Lemma bind_Ok {A B : Type} (m : result A) (f : A -> result B) (b : B) :
  m ≫= f = Ok b <-> exists a, m = Ok a /\ f a = Ok b.
Proof.
  destruct m as [a|e]; simpl; split.
  - eauto.
  - intros (a' & [= <-] & H). exact H.
  - discriminate.
  - intros (a' & [=] & _).
Qed.

Section ResultLemmas.
Context {A B : Type}.

Lemma mapM_Ok_Forall2 (f : A -> result B) (l : list A) (k : list B) :
  mapM f l = Ok k <-> Forall2 (fun x y => f x = Ok y) l k.
Proof.
  revert k. induction l as [|x l IH]; intros k; simpl.
  - split; [intros [= <-]; constructor | inversion 1; reflexivity].
  - split.
    + intros H. apply bind_Ok in H as (y & Hy & H).
      apply bind_Ok in H as (k' & Hk' & [= <-]).
      constructor; [exact Hy | apply IH, Hk'].
    + inversion 1 as [|? y ? k' Hy Hk']; subst.
      rewrite Hy. simpl. apply IH in Hk'. rewrite Hk'. reflexivity.
Qed.

Lemma mapM_is_ok (f : A -> result B) (l : list A) :
  Forall (fun x => is_ok (f x) = true) l -> exists k, mapM f l = Ok k.
Proof.
  induction 1 as [|x l Hx _ [k Hk]]; simpl.
  - eexists; reflexivity.
  - destruct (f x) as [y|e]; [|discriminate Hx].
    simpl. rewrite Hk. simpl. eexists; reflexivity.
Qed.

Lemma mapM_Ok_length (f : A -> result B) (l : list A) (k : list B) :
  mapM f l = Ok k -> length k = length l.
Proof. intros H. apply mapM_Ok_Forall2 in H. symmetry. eapply Forall2_length, H. Qed.

Lemma mapM_Ok_lookup (f : A -> result B) (l : list A) (k : list B) (i : nat) (x : A) :
  mapM f l = Ok k -> l !! i = Some x -> exists y, f x = Ok y /\ k !! i = Some y.
Proof.
  intros H Hx. apply mapM_Ok_Forall2 in H.
  destruct (Forall2_lookup_l _ _ _ _ _ H Hx) as (y & Hy & Hf). eauto.
Qed.

End ResultLemmas.

Section FoldLemmas.
Context {A B : Type}.

(** A property kept by every step of a loop holds at its end. *)
Lemma foldM_invariant (P : A -> Prop) (f : A -> B -> result A) (l : list B) (a a' : A) :
  (forall x b y, P x -> f x b = Ok y -> P y) ->
  P a -> foldM f a l = Ok a' -> P a'.
Proof.
  intros Hstep. revert a. induction l as [|b l IH]; intros a Ha; simpl.
  - intros [= <-]. exact Ha.
  - intros H. apply bind_Ok in H as (y & Hy & H). eapply IH; [|exact H]. eauto.
Qed.

End FoldLemmas.

(* ===================================================================== *)
(** * The package builder never raises (C10) *)
(* ===================================================================== *)

Section PackageBuilder.

(** A [try] whose handler returns never raises. *)
Lemma try_io_returns {A} (m : io A) (a : A) (w : world) :
  exists r w', try_io m (fun _ => mret a) w = (Ok r, w').
Proof.
  unfold try_io. destruct (m w) as [[r|e] w']; [eauto|].
  eexists _, _. reflexivity.
Qed.

(** The existence loop reads the file system and leaves it as it is. *)
Lemma all_daily_exist_run (paths : list string) (w : world) :
  all_daily_exist paths w
  = (Ok (forallb (fun p => bool_decide (is_Some (files w !! p))) paths), w).
Proof.
  induction paths as [|p paths IH]; [reflexivity|].
  simpl. unfold mbind, io_bind, path_exists at 1.
  destruct (bool_decide (is_Some (files w !! p))); simpl; [exact IH | reflexivity].
Qed.

(** C10: [create_bidirectional_weekly_package] always returns a boolean;
    for a missing weekly file, a list that has not seven entries or a
    missing daily file it returns [False] and leaves the file system (and
    the output path with it) untouched. *)
Theorem package_builder_total (weekly_pdf_path : string)
    (daily_pdf_paths : list string) (output_path : string) (w : world) :
  exists (b : bool) (w' : world),
    create_bidirectional_weekly_package weekly_pdf_path daily_pdf_paths output_path w
    = (Ok b, w')
    /\ (rejected w weekly_pdf_path daily_pdf_paths -> b = false /\ w' = w).
Proof.
  unfold create_bidirectional_weekly_package.
  match goal with
  | |- context [try_io ?m _ w] =>
      destruct (try_io_returns m false w) as (b & w' & Hrun)
  end.
  exists b, w'. split; [exact Hrun|].
  intros Hrej. revert Hrun.
  unfold try_io, mbind, io_bind, path_exists at 1.
  destruct (bool_decide (is_Some (files w !! weekly_pdf_path))) eqn:Hweekly; simpl;
    [|intros [= <- <-]; auto].
  destruct (length daily_pdf_paths =? 7)%nat eqn:Hlen; simpl;
    [|intros [= <- <-]; auto].
  rewrite all_daily_exist_run.
  destruct (forallb _ daily_pdf_paths) eqn:Hall; simpl; [|intros [= <- <-]; auto].
  exfalso. destruct Hrej as [Hw | [Hl | (p & Hp & Hnone)]].
  - apply bool_decide_eq_true in Hweekly. rewrite Hw in Hweekly.
    destruct Hweekly as [? [=]].
  - apply Nat.eqb_eq in Hlen. contradiction.
  - rewrite forallb_forall in Hall. apply list_elem_of_In, Hall in Hp.
    apply bool_decide_eq_true in Hp. rewrite Hnone in Hp. destruct Hp as [? [=]].
Qed.

(** No file exists: the weekly PDF is missing. *)
Lemma package_builder_total_witness :
  let w := mkworld ∅ ∅ [] in
  rejected w "weekly.pdf" ["monday.pdf"] /\
  exists (b : bool) (w' : world),
    create_bidirectional_weekly_package "weekly.pdf" ["monday.pdf"] "package.pdf" w
    = (Ok b, w')
    /\ b = false /\ w' = w.
Proof.
  intros w.
  assert (Hrej : rejected w "weekly.pdf" ["monday.pdf"]) by (left; reflexivity).
  split; [exact Hrej|].
  destruct (package_builder_total "weekly.pdf" ["monday.pdf"] "package.pdf" w)
    as (b & w' & Hrun & Himp).
  exists b, w'. split; [exact Hrun | exact (Himp Hrej)].
Defined.

End PackageBuilder.

(* ===================================================================== *)
(** * The week filter (C6, C7) *)
(* ===================================================================== *)

Section WeekFilter.
Context {parser : IsoParser}.

Lemma filter_loop_from (week_start week_end : datetime) (events acc : list event) :
  fold_left
    (fun week_events ev =>
       match in_week ev week_start week_end with
       | Ok true => week_events ++ [ev]
       | Ok false => week_events
       | Raise _ => week_events
       end) events acc
  = acc ++ List.filter (kept week_start week_end) events.
Proof.
  revert acc. induction events as [|ev events IH]; intros acc; simpl.
  - rewrite app_nil_r. reflexivity.
  - rewrite IH. unfold kept at 2.
    destruct (in_week ev week_start week_end) as [[|]|e]; [|reflexivity..].
    rewrite <- app_assoc. reflexivity.
Qed.

(** The loop is a filter: the kept events, in input order. *)
Lemma filter_events_for_week_filter (events : list event) (week_start week_end : datetime) :
  filter_events_for_week events week_start week_end
  = List.filter (kept week_start week_end) events.
Proof. unfold filter_events_for_week. apply filter_loop_from. Qed.

Lemma filter_events_for_week_sublist (events : list event) (week_start week_end : datetime) :
  sublist (filter_events_for_week events week_start week_end) events.
Proof.
  rewrite filter_events_for_week_filter.
  induction events as [|ev events IH]; simpl; [constructor|].
  destruct (kept week_start week_end ev); [apply sublist_skip | apply sublist_cons]; exact IH.
Qed.

Lemma lex_compare_refl (l : list Z) : lex_compare l l = Eq.
Proof. induction l as [|x l IH]; simpl; [reflexivity|]. rewrite Z.compare_refl. exact IH. Qed.

Lemma dt_le_refl (d : datetime) : dt_le d d = Ok true.
Proof.
  unfold dt_le. destruct (utcoffset d) as [o|].
  - rewrite Z.eqb_refl, lex_compare_refl. reflexivity.
  - rewrite lex_compare_refl. reflexivity.
Qed.

(** Both ends of the week are inside it. *)
Lemma kept_endpoints (ev : event) (week_start week_end : datetime) :
  truthy (get ev "startTime" (VStr "")) = true ->
  dt_le week_start week_end = Ok true ->
  (parse_iso (get ev "startTime" (VStr "")) = Ok week_start
   \/ parse_iso (get ev "startTime" (VStr "")) = Ok week_end) ->
  kept week_start week_end ev = true.
Proof.
  intros Ht Hle [Hp|Hp]; unfold kept, in_week; rewrite Ht, Hp; simpl.
  - rewrite dt_le_refl. simpl. rewrite Hle. reflexivity.
  - rewrite Hle. simpl. rewrite dt_le_refl. reflexivity.
Qed.



End WeekFilter.

Section ExportOutcome.
Context {parser : IsoParser}.







End ExportOutcome.

Section Scenarios.

#[local] Existing Instance reference_parser.


(** C6 fails where the week bounds and the event time do not both carry a
    zone: the two cannot be ordered, the [TypeError] is swallowed, and an
    event whose date and time lie between the bounds is dropped.  So it is in the scenario of
    the design (bounds that are dates, event time with [Z]) and for bounds
    with [Z] and a local event time; the loop of the API script ends in
    the [TypeError]. *)
Theorem week_filter_drops_event_in_week :
  let week_start := mkdt 2025 7 14 0 0 0 0 None in
  let week_end := mkdt 2025 7 20 0 0 0 0 None in
  let event_date := mkdt 2025 7 14 8 0 0 0 (Some 0) in
  (parse_iso (VStr "2025-07-14") = Ok week_start /\
   parse_iso (VStr "2025-07-20") = Ok week_end /\
   parse_iso (get coffee "startTime" (VStr "")) = Ok event_date /\
   lex_compare (fields week_start) (fields event_date) = Lt /\
   lex_compare (fields event_date) (fields week_end) = Lt /\
   dt_le week_start event_date = Raise TypeError /\
   filter_events_for_week [coffee] week_start week_end = [] /\
   week_events_loop [coffee] week_start week_end = Raise TypeError) /\
  (parse_iso (VStr "2025-07-14T00:00:00Z") = Ok (mkdt 2025 7 14 0 0 0 0 (Some 0)) /\
   parse_iso (VStr "2025-07-20T23:59:59Z") = Ok (mkdt 2025 7 20 23 59 59 0 (Some 0)) /\
   parse_iso (get coffee_local "startTime" (VStr "")) = Ok (mkdt 2025 7 14 8 0 0 0 None) /\
   filter_events_for_week [coffee_local] (mkdt 2025 7 14 0 0 0 0 (Some 0))
     (mkdt 2025 7 20 23 59 59 0 (Some 0)) = []).
Proof. vm_compute. repeat split; reflexivity. Qed.

End Scenarios.

(* ===================================================================== *)
(** * Wiring keeps the pages; rendering succeeds *)
(* ===================================================================== *)

Section Wiring.

Lemma insert_link_body (doc doc' : list page) (pno : nat) (l : link) :
  insert_link doc pno l = Ok doc' -> map body doc' = map body doc.
Proof.
  unfold insert_link. destruct (doc !! pno) as [p|] eqn:Hp; [|discriminate].
  destruct (_ && _); [|discriminate]. intros [= <-].
  change (body <$> <[pno:=add_link p l]> doc = body <$> doc).
  rewrite list_fmap_insert. apply list_insert_id.
  rewrite list_lookup_fmap, Hp. reflexivity.
Qed.

Ltac keep_body :=
  repeat match goal with
         | H : _ ≫= _ = Ok _ |- _ => apply bind_Ok in H as (? & ? & H)
         | H : (if ?c then _ else _) = Ok _ |- _ => destruct c
         | H : insert_link _ _ _ = Ok _ |- _ => apply insert_link_body in H
         | H : Ok _ = Ok _ |- _ => injection H as <-
         end;
  congruence.

Lemma add_bidirectional_hyperlinks_body (doc doc' : list page) :
  add_bidirectional_hyperlinks doc = Ok doc' -> map body doc' = map body doc.
Proof.
  unfold add_bidirectional_hyperlinks. intros H.
  apply bind_Ok in H as (_ & _ & H). apply bind_Ok in H as (doc1 & H1 & H).
  assert (Hb1 : map body doc1 = map body doc).
  { revert H1. apply (foldM_invariant (fun d => map body d = map body doc)); [|reflexivity].
    intros d i d' Hd Hi. keep_body. }
  rewrite <- Hb1. revert H.
  apply (foldM_invariant (fun d => map body d = map body doc1)); [|reflexivity].
  intros d i d' Hd Hi. keep_body.
Qed.

Lemma _add_hyperlinks_to_package_body (doc doc' : list page) :
  _add_hyperlinks_to_package doc = Ok doc' -> map body doc' = map body doc.
Proof.
  unfold _add_hyperlinks_to_package. intros H.
  apply bind_Ok in H as (weekly & _ & H). apply bind_Ok in H as (doc1 & H1 & H).
  assert (Hb1 : map body doc1 = map body doc).
  { revert H1. apply (foldM_invariant (fun d => map body d = map body doc)); [|reflexivity].
    intros d i d' Hd Hi. keep_body. }
  rewrite <- Hb1. revert H.
  apply (foldM_invariant (fun d => map body d = map body doc1)); [|reflexivity].
  intros d i d' Hd Hi. keep_body.
Qed.

(** A document of eight pages can always be wired. *)
Lemma wiring_succeeds (doc : list page) :
  length doc = 8%nat ->
  is_ok (add_bidirectional_hyperlinks doc) = true /\
  is_ok (_add_hyperlinks_to_package doc) = true.
Proof.
  intros Hlen.
  do 9 (destruct doc as [|? doc]; try discriminate Hlen).
  split; vm_compute; reflexivity.
Qed.

End Wiring.

Section Rendering.
Context {parser : IsoParser}.

Lemma add_days_ok (week_start : datetime) (n : Z) :
  week_in_range week_start -> 0 <= n <= 6 ->
  exists date, add_days week_start n = Ok date.
Proof.
  intros [Hlo Hhi] Hn. unfold add_days.
  replace (_ && _) with true by (symmetry; apply andb_true_iff; split; lia).
  destruct (ord2ymd _) as [[y m] d]. eauto.
Qed.

Lemma weekly_event_ops_ok (x : Z) (j : nat) (ev : event) :
  renderable ev = true -> is_ok (weekly_event_ops x j ev) = true.
Proof.
  unfold renderable, weekly_event_ops. intros [H _]%andb_true_iff.
  destruct (slice_to 15 _); [reflexivity | discriminate].
Qed.

Lemma daily_event_ops_ok (y : Z) (ev : event) :
  renderable ev = true -> is_ok (daily_event_ops y ev) = true.
Proof.
  unfold renderable, daily_event_ops. intros [_ H]%andb_true_iff.
  destruct (upper_value _); [reflexivity | discriminate].
Qed.

Lemma events_on_subseteq (events : list event) (date : datetime) :
  events_on events date ⊆ events.
Proof.
  intros ev Hev. apply list_elem_of_In. apply list_elem_of_In, filter_In in Hev as [H _].
  exact H.
Qed.

Lemma weekly_day_ops_ok (events : list event) (week_start : datetime) (i : nat)
    (day_name : string) :
  week_in_range week_start -> (i <= 6)%nat ->
  Forall (fun ev => renderable ev = true) events ->
  is_ok (weekly_day_ops events week_start i day_name) = true.
Proof.
  intros Hw Hi Hev. unfold weekly_day_ops.
  destruct (add_days_ok week_start (Z.of_nat i) Hw ltac:(lia)) as [date ->]. simpl.
  match goal with |- context [mapM ?f ?l] => destruct (mapM_is_ok f l) as [cells ->] end;
    [|reflexivity].
  apply Forall_forall. intros [j ev] Hin.
  apply elem_of_lookup_imap in Hin as (j' & ev' & [= -> ->] & Hl).
  apply weekly_event_ops_ok. rewrite Forall_forall in Hev. apply Hev.
  apply (events_on_subseteq _ date), (subseteq_take 10).
  eapply list_elem_of_lookup_2, Hl.
Qed.

Lemma create_weekly_overview_page_ok (p : page) (events : list event)
    (week_start : datetime) :
  week_in_range week_start ->
  Forall (fun ev => renderable ev = true) events ->
  exists weekly,
    create_weekly_overview_page p events week_start = Ok weekly /\ links weekly = links p.
Proof.
  intros Hw Hev. unfold create_weekly_overview_page.
  destruct (add_days_ok week_start 6 Hw ltac:(lia)) as [date ->].
  cbn [mbind result_bind].
  match goal with |- context [mapM ?f ?l] => destruct (mapM_is_ok f l) as [cols ->] end.
  - repeat constructor; apply weekly_day_ops_ok; auto; lia.
  - eexists. split; reflexivity.
Qed.

Lemma nav_buttons_ok (day_index : nat) :
  (day_index <= 6)%nat ->
  exists prev next,
    prev_button day_index = Ok prev /\ next_button day_index = Ok next.
Proof.
  intros Hi.
  do 7 (destruct day_index as [|day_index]; [eexists _, _; split; reflexivity|]).
  lia.
Qed.

Lemma create_daily_page_ok (p : page) (events : list event) (date : datetime)
    (day_name : string) (day_index : nat) :
  (day_index <= 6)%nat ->
  Forall (fun ev => renderable ev = true) events ->
  exists daily,
    create_daily_page p events date day_name day_index = Ok daily /\ links daily = links p.
Proof.
  intros Hi Hev. unfold create_daily_page.
  destruct (nav_buttons_ok day_index Hi) as (prev & next & -> & ->).
  cbn [mbind result_bind].
  match goal with |- context [mapM ?f ?l] => destruct (mapM_is_ok f l) as [rows ->] end.
  - apply Forall_forall. intros [hour minute] _. unfold daily_slot_ops.
    match goal with |- context [mapM ?f ?l] => destruct (mapM_is_ok f l) as [blocks ->] end;
      [|reflexivity].
    apply Forall_forall. intros ev Hin. apply daily_event_ops_ok.
    rewrite Forall_forall in Hev. apply Hev, (events_on_subseteq _ date).
    apply list_elem_of_In. apply list_elem_of_In, filter_In in Hin as [H _]. exact H.
  - eexists. split; reflexivity.
Qed.

End Rendering.

(* ===================================================================== *)
(** * Page structure (C3) *)
(* ===================================================================== *)

Section PageStructure.
Context {parser : IsoParser}.

Lemma daily_page_ok (events : list event) (week_start : datetime) (i : nat)
    (day_name : string) :
  week_in_range week_start -> (i <= 6)%nat ->
  Forall (fun ev => renderable ev = true) events ->
  is_ok (daily_page events week_start i day_name) = true.
Proof.
  intros Hw Hi Hev. unfold daily_page.
  destruct (add_days_ok week_start (Z.of_nat i) Hw ltac:(lia)) as [date ->].
  cbn [mbind result_bind].
  destruct (create_daily_page_ok (new_page 612 792) events date day_name i Hi Hev)
    as (daily & -> & _).
  reflexivity.
Qed.

(** The export succeeds on a week whose events can be rendered, and
    writes the wired document [weekly :: dailies]. *)
Lemma create_pdf_success (events : list event) (ws we : string)
    (week_start week_end : datetime) (w : world) :
  parse_iso (VStr ws) = Ok week_start ->
  parse_iso (VStr we) = Ok week_end ->
  week_in_range week_start ->
  Forall (fun ev => renderable ev = true)
         (filter_events_for_week events week_start week_end) ->
  pdf_name week_start ∉ readonly w ->
  let week_events := filter_events_for_week events week_start week_end in
  exists weekly dailies doc,
    create_weekly_overview_page (new_page 792 612) week_events week_start = Ok weekly /\
    mapM (fun '(i, day_name) => daily_page week_events week_start i day_name)
         (imap (fun i day_name => (i, day_name)) days) = Ok dailies /\
    add_bidirectional_hyperlinks (weekly :: dailies) = Ok doc /\
    create_pdf events ws we w
    = (Ok (pdf_name week_start),
       mkworld (<[pdf_name week_start := PdfFile doc]> (files w)) (readonly w)
               (stdout w ++ success_lines week_start week_end (length week_events))).
Proof.
  intros Hs He Hw Hev Hro week_events.
  destruct (create_weekly_overview_page_ok (new_page 792 612) week_events week_start Hw Hev)
    as (weekly & Hweekly & Hwl).
  destruct (mapM_is_ok
              (fun '(i, day_name) => daily_page week_events week_start i day_name)
              (imap (fun i day_name => (i, day_name)) days)) as [dailies Hdailies].
  { repeat constructor; apply daily_page_ok; auto; lia. }
  assert (Hlen : length (weekly :: dailies) = 8%nat).
  { simpl. rewrite (mapM_Ok_length _ _ _ Hdailies). reflexivity. }
  destruct (wiring_succeeds _ Hlen) as [Hwire _].
  destruct (add_bidirectional_hyperlinks (weekly :: dailies)) as [doc|] eqn:Hdoc;
    [|discriminate Hwire].
  exists weekly, dailies, doc.
  split; [exact Hweekly|]. split; [exact Hdailies|]. split; [exact Hdoc|].
  unfold create_pdf, mbind, io_bind, lift, print, save. cbn [iterate]. rewrite Hs, He.
  fold week_events. rewrite Hweekly, Hdailies, Hdoc. cbn [readonly files stdout].
  rewrite bool_decide_eq_false_2 by exact Hro. unfold mret, io_ret.
  cbn [readonly files stdout]. unfold success_lines.
  rewrite <- !app_assoc. reflexivity.
Qed.

(** Whatever the input, a PDF that the export writes has eight pages. *)
Lemma create_pdf_eight_pages (events : list event) (ws we : string) (w w' : world)
    (name : string) :
  create_pdf events ws we w = (Ok name, w') ->
  exists doc, files w' !! name = Some (PdfFile doc) /\ length doc = 8%nat.
Proof.
  unfold create_pdf, mbind, io_bind, lift, print, save. cbn [iterate].
  destruct (parse_iso (VStr ws)) as [week_start|]; [|discriminate].
  destruct (parse_iso (VStr we)) as [week_end|]; [|discriminate].
  destruct (create_weekly_overview_page _ _ _) as [weekly|]; [|discriminate].
  destruct (mapM _ _) as [dailies|] eqn:Hd; [|discriminate].
  destruct (add_bidirectional_hyperlinks _) as [doc|] eqn:Hdoc; [|discriminate].
  cbn [readonly files stdout].
  destruct (bool_decide _); [discriminate|].
  intros [= <- <-]. exists doc. cbn [files]. split; [apply lookup_insert_eq|].
  apply add_bidirectional_hyperlinks_body in Hdoc.
  rewrite <- (length_map body), Hdoc, length_map. simpl.
  rewrite (mapM_Ok_length _ _ _ Hd). reflexivity.
Qed.
Lemma insert_daily_pdfs_run (paths : list string) (pages doc : list page) (w : world) :
  Forall2 (fun path p => files w !! path = Some (PdfFile [p])) paths pages ->
  insert_daily_pdfs doc paths w = (Ok (doc ++ pages), w).
Proof.
  intros H. revert doc. induction H as [|path p paths pages Hp _ IH]; intros doc; simpl.
  - rewrite app_nil_r. reflexivity.
  - unfold mbind, io_bind, open_pdf at 1. rewrite Hp, IH, <- app_assoc. reflexivity.
Qed.

(** The package builder succeeds on eight one-page PDF files and writes
    their pages, wired, to the output path. *)
Lemma package_success (weekly_pdf_path : string) (daily_pdf_paths : list string)
    (output_path : string) (w : world) (weekly_page : page) (daily_pages : list page) :
  files w !! weekly_pdf_path = Some (PdfFile [weekly_page]) ->
  Forall2 (fun path p => files w !! path = Some (PdfFile [p])) daily_pdf_paths daily_pages ->
  length daily_pdf_paths = 7%nat ->
  output_path ∉ readonly w ->
  exists doc,
    _add_hyperlinks_to_package (weekly_page :: daily_pages) = Ok doc /\
    create_bidirectional_weekly_package weekly_pdf_path daily_pdf_paths output_path w
    = (Ok true, mkworld (<[output_path := PdfFile doc]> (files w)) (readonly w) (stdout w)).
Proof.
  intros Hweekly Hdaily Hlen Hro.
  assert (Hlen8 : length (weekly_page :: daily_pages) = 8%nat).
  { simpl. rewrite <- (Forall2_length _ _ _ Hdaily), Hlen. reflexivity. }
  destruct (wiring_succeeds _ Hlen8) as [_ Hwire].
  destruct (_add_hyperlinks_to_package (weekly_page :: daily_pages)) as [doc|] eqn:Hdoc;
    [|discriminate Hwire].
  exists doc. split; [reflexivity|].
  unfold create_bidirectional_weekly_package, try_io, mbind, io_bind, path_exists at 1.
  rewrite bool_decide_eq_true_2 by (rewrite Hweekly; eauto). cbn [negb].
  rewrite Hlen. cbn [Nat.eqb negb]. rewrite all_daily_exist_run.
  replace (forallb _ daily_pdf_paths) with true.
  2:{ symmetry. apply forallb_forall. intros path Hin.
      apply list_elem_of_In, list_elem_of_lookup_1 in Hin as [i Hi].
      destruct (Forall2_lookup_l _ _ _ _ _ Hdaily Hi) as (p0 & _ & Hp0).
      apply bool_decide_eq_true_2. rewrite Hp0. eauto. }
  cbn [negb]. unfold open_pdf at 1. rewrite Hweekly.
  rewrite (insert_daily_pdfs_run _ _ _ _ Hdaily). cbn [app].
  unfold lift, save. rewrite Hdoc.
  rewrite bool_decide_eq_false_2 by exact Hro. reflexivity.
Qed.

(** C3: on a valid week the export writes a document of exactly eight
    pages: page 0 is the weekly overview, page [i + 1] is the daily page
    of day [i] of [Monday .. Sunday]; the package builder, given one
    weekly and seven daily one-page PDF files, writes their eight pages in
    that order. *)
Theorem page_structure (events : list event) (ws we : string)
    (week_start week_end : datetime) (w : world)
    (weekly_pdf_path : string) (daily_pdf_paths : list string) (output_path : string)
    (w2 : world) (weekly_page : page) (daily_pages : list page) :
  parse_iso (VStr ws) = Ok week_start ->
  parse_iso (VStr we) = Ok week_end ->
  week_in_range week_start ->
  Forall (fun ev => renderable ev = true)
         (filter_events_for_week events week_start week_end) ->
  pdf_name week_start ∉ readonly w ->
  files w2 !! weekly_pdf_path = Some (PdfFile [weekly_page]) ->
  Forall2 (fun path p => files w2 !! path = Some (PdfFile [p]))
          daily_pdf_paths daily_pages ->
  length daily_pdf_paths = 7%nat ->
  output_path ∉ readonly w2 ->
  let week_events := filter_events_for_week events week_start week_end in
  (exists doc w',
     create_bidirectional_linked_pdf events ws we w = (Ok (Some (pdf_name week_start)), w') /\
     files w' !! pdf_name week_start = Some (PdfFile doc) /\
     length doc = 8%nat /\
     (exists weekly,
        create_weekly_overview_page (new_page 792 612) week_events week_start = Ok weekly /\
        body <$> doc !! 0%nat = Some (body weekly)) /\
     (forall i day_name,
        days !! i = Some day_name ->
        exists daily,
          daily_page week_events week_start i day_name = Ok daily /\
          body <$> doc !! S i = Some (body daily))) /\
  (exists doc w2',
     create_bidirectional_weekly_package weekly_pdf_path daily_pdf_paths output_path w2
     = (Ok true, w2') /\
     files w2' !! output_path = Some (PdfFile doc) /\
     length doc = 8%nat /\
     map body doc = map body (weekly_page :: daily_pages)).
Proof.
  intros Hs He Hw Hev Hro Hweekly Hdaily Hlen Hro2 week_events. split.
  - destruct (create_pdf_success events ws we week_start week_end w Hs He Hw Hev Hro)
      as (weekly & dailies & doc & Hwk & Hds & Hdoc & Hrun).
    fold week_events in Hwk, Hds, Hrun.
    pose proof (add_bidirectional_hyperlinks_body _ _ Hdoc) as Hbody.
    eexists doc, _. split.
    { unfold create_bidirectional_linked_pdf, try_io, mbind, io_bind.
      rewrite Hrun. reflexivity. }
    split; [apply lookup_insert_eq|]. split.
    { rewrite <- (length_map body), Hbody, length_map. simpl.
      rewrite (mapM_Ok_length _ _ _ Hds). reflexivity. }
    split.
    { exists weekly. split; [exact Hwk|].
      rewrite <- list_lookup_fmap. change (map body doc !! 0%nat = Some (body weekly)).
      rewrite Hbody. reflexivity. }
    intros i day_name Hi.
    destruct (mapM_Ok_lookup _ _ _ i (i, day_name) Hds) as (daily & Hdaily' & Hl).
    { rewrite list_lookup_imap, Hi. reflexivity. }
    exists daily. split; [exact Hdaily'|].
    rewrite <- list_lookup_fmap. change (map body doc !! S i = Some (body daily)).
    rewrite Hbody. change ((body <$> dailies) !! i = Some (body daily)).
    rewrite list_lookup_fmap, Hl. reflexivity.
  - destruct (package_success weekly_pdf_path daily_pdf_paths output_path w2
                weekly_page daily_pages Hweekly Hdaily Hlen Hro2) as (doc & Hdoc & Hrun).
    pose proof (_add_hyperlinks_to_package_body _ _ Hdoc) as Hbody.
    eexists doc, _. split; [exact Hrun|].
    split; [apply lookup_insert_eq|]. split; [|exact Hbody].
    rewrite <- (length_map body), Hbody, length_map. simpl.
    rewrite <- (Forall2_length _ _ _ Hdaily), Hlen. reflexivity.
Qed.

End PageStructure.

(* ===================================================================== *)
(** * Failure of the PDF and the text fallback (C8) *)
(* ===================================================================== *)

Section Fallback.
Context {parser : IsoParser}.


(** A run of the text fallback, line by line.  With events that have no
    length the file is left with the lines written before [len] raises. *)
Lemma create_text_fallback_run (events_data : events_value) (ws we : string) (w : world) :
  create_text_fallback events_data ws we w
  = match parse_iso (VStr ws) with
    | Raise e => (Ok None, add_line w ("❌ Even text fallback failed: " +:+ exc_name e))
    | Ok week_start =>
        if bool_decide (txt_name week_start ∈ readonly w)
        then (Ok None, add_line w "❌ Even text fallback failed: OSError")
        else
          match events_data with
          | Events l =>
              (Ok (Some (txt_name week_start)),
               mkworld (<[txt_name week_start := TextFile (fallback_chunks l ws we)]> (files w))
                       (readonly w)
                       (stdout w ++ ["✅ Created text fallback: " +:+ txt_name week_start]))
          | NotIterable =>
              (Ok None,
               mkworld (<[txt_name week_start := TextFile (fallback_head ws we)]> (files w))
                       (readonly w)
                       (stdout w ++ ["❌ Even text fallback failed: TypeError"]))
          end
    end.
Proof.
  unfold create_text_fallback, try_io, mbind, io_bind, lift, open_w, write_text, f_write,
    print, add_line, mret, io_ret.
  destruct (parse_iso (VStr ws)) as [week_start|e]; [|reflexivity].
  destruct (bool_decide _); [reflexivity|].
  destruct events_data as [l|]; cbn [len readonly files stdout exc_name];
    rewrite !alter_insert_eq; reflexivity.
Qed.

(** A PDF path that cannot be written makes the body of the export
    raise. *)
Lemma create_pdf_write_failure (events : list event) (ws we : string)
    (week_start week_end : datetime) (w : world) :
  parse_iso (VStr ws) = Ok week_start ->
  parse_iso (VStr we) = Ok week_end ->
  week_in_range week_start ->
  Forall (fun ev => renderable ev = true)
         (filter_events_for_week events week_start week_end) ->
  pdf_name week_start ∈ readonly w ->
  exists w1, create_pdf events ws we w = (Raise OSError, w1) /\
             files w1 = files w /\ readonly w1 = readonly w.
Proof.
  intros Hs He Hw Hev Hro.
  destruct (create_pdf_success events ws we week_start week_end
              (mkworld (files w) ∅ (stdout w)) Hs He Hw Hev ltac:(apply not_elem_of_empty))
    as (weekly & dailies & doc & Hwk & Hds & Hdoc & _).
  eexists. unfold create_pdf, mbind, io_bind, lift, print, save. cbn [iterate].
  rewrite Hs, He, Hwk, Hds, Hdoc. cbn [readonly files stdout].
  rewrite bool_decide_eq_true_2 by exact Hro. split; [reflexivity|]. split; reflexivity.
Qed.


End Fallback.

Section ExportScenarios.

#[local] Existing Instance reference_parser.

(** The week of the scenario, and eight one-page files for the package. *)
Lemma page_structure_witness :
  let week_events := filter_events_for_week [coffee_local] monday sunday in
  (exists doc w',
     create_bidirectional_linked_pdf [coffee_local] "2025-07-14" "2025-07-20" empty_world
     = (Ok (Some (pdf_name monday)), w') /\
     files w' !! pdf_name monday = Some (PdfFile doc) /\
     length doc = 8%nat /\
     (exists weekly,
        create_weekly_overview_page (new_page 792 612) week_events monday = Ok weekly /\
        body <$> doc !! 0%nat = Some (body weekly)) /\
     (forall i day_name,
        days !! i = Some day_name ->
        exists daily,
          daily_page week_events monday i day_name = Ok daily /\
          body <$> doc !! S i = Some (body daily))) /\
  (exists doc w2',
     create_bidirectional_weekly_package "weekly.pdf" daily_names "package.pdf" package_world
     = (Ok true, w2') /\
     files w2' !! "package.pdf" = Some (PdfFile doc) /\
     length doc = 8%nat /\
     map body doc = map body (new_page 792 612 :: replicate 7 (new_page 612 792))).
Proof.
  apply (page_structure [coffee_local] "2025-07-14" "2025-07-20" monday sunday empty_world
           "weekly.pdf" daily_names "package.pdf" package_world
           (new_page 792 612) (replicate 7 (new_page 612 792))).
  - reflexivity.
  - reflexivity.
  - vm_compute. split; [reflexivity | discriminate].
  - vm_compute. repeat constructor.
  - vm_compute. intros H. inversion H.
  - vm_compute. reflexivity.
  - repeat constructor.
  - reflexivity.
  - vm_compute. intros H. inversion H.
Defined.



End ExportScenarios.

(* ===================================================================== *)
(** * Where the pages draw an event (C1, C5, C9) *)
(* ===================================================================== *)

Lemma mapM_Ok_In {A B : Type} (f : A -> result B) (l : list A) (k : list B) (x : A) :
  mapM f l = Ok k -> In x l -> exists y, f x = Ok y /\ In y k.
Proof.
  intros H Hx. apply list_elem_of_In, list_elem_of_lookup_1 in Hx as [i Hi].
  destruct (mapM_Ok_lookup f l k i x H Hi) as (y & Hy & Hk).
  exists y. split; [exact Hy|]. apply list_elem_of_In. eapply list_elem_of_lookup_2, Hk.
Qed.

Lemma mapM_nil_Ok {A B : Type} (f : A -> result B) : mapM f [] = Ok [].
Proof. reflexivity. Qed.

Section Placement.
Context {parser : IsoParser}.

Lemma time_grid_on_grid (hour minute : Z) :
  In (hour, minute) time_grid <-> on_grid hour minute.
Proof.
  unfold time_grid, on_grid. rewrite <- list_elem_of_In, list_elem_of_bind. split.
  - intros (h & Hm & Hh). apply elem_of_seqZ in Hh.
    apply list_elem_of_bind in Hm as (m & Hp & Hm).
    apply list_elem_of_singleton in Hp. injection Hp as -> ->.
    split; [lia|]. apply elem_of_cons in Hm as [->|Hm]; [auto|].
    apply list_elem_of_singleton in Hm. auto.
  - intros [Hh Hm]. exists hour. split; [|apply elem_of_seqZ; lia].
    apply list_elem_of_bind. exists minute. split; [apply list_elem_of_singleton; reflexivity|].
    destruct Hm as [-> | ->]; [left | right; left].
Qed.

(** On the grid the slot index is the number of whole half hours since
    06:00, between 0 and 35. *)
Lemma slot_index_on_grid (hour minute : Z) :
  on_grid hour minute ->
  slot_index hour minute = (hour * 60 + minute - 6 * 60) / 30 /\
  0 <= slot_index hour minute <= 35.
Proof.
  intros [Hh Hm]. unfold slot_index.
  assert (Hq : (hour * 60 + minute - 6 * 60) / 30 = (hour - 6) * 2 + minute / 30).
  { replace (hour * 60 + minute - 6 * 60) with (minute + ((hour - 6) * 2) * 30) by lia.
    rewrite Z.div_add by lia. lia. }
  rewrite Hq. split; [reflexivity|].
  destruct Hm as [-> | ->]; [change (0 / 30) with 0 | change (30 / 30) with 1]; lia.
Qed.

(** An event sits in the slot of its start hour and minute and in no
    other. *)
Lemma is_event_at_time_start (ev : event) (d : datetime) (hour minute : Z) :
  truthy (get ev "startTime" (VStr "")) = true ->
  parse_iso (get ev "startTime" (VStr "")) = Ok d ->
  is_event_at_time ev hour minute = true
  <-> DateTime.hour d = hour /\ DateTime.minute d = minute.
Proof.
  intros Ht Hp. unfold is_event_at_time. rewrite Ht, Hp.
  rewrite andb_true_iff, !Z.eqb_eq. reflexivity.
Qed.

(** Every block of a slot is on the page, in the row of the slot. *)
Lemma daily_block_drawn (p daily : page) (events : list event) (date : datetime)
    (day_name : string) (day_index : nat) (hour minute : Z) (ev : event) :
  create_daily_page p events date day_name day_index = Ok daily ->
  on_grid hour minute ->
  In ev (slot_events (events_on events date) hour minute) ->
  exists block,
    daily_event_ops (time_start_y + slot_index hour minute * slot_height) ev = Ok block /\
    incl block (ops daily).
Proof.
  unfold create_daily_page. intros H Hg Hev.
  apply bind_Ok in H as (prev & _ & H). apply bind_Ok in H as (next & _ & H).
  apply bind_Ok in H as (rows & Hrows & [= <-]).
  apply time_grid_on_grid in Hg.
  destruct (mapM_Ok_In _ _ _ _ Hrows Hg) as (row & Hrow & Hin).
  cbn beta iota in Hrow. unfold daily_slot_ops in Hrow.
  apply bind_Ok in Hrow as (blocks & Hblocks & [= <-]).
  destruct (mapM_Ok_In _ _ _ _ Hblocks Hev) as (block & Hblock & Hinb).
  exists block. split; [exact Hblock|].
  intros op Hop. unfold draw. cbn [ops].
  apply in_or_app. right. do 5 apply in_cons.
  apply in_or_app. right. apply in_or_app. right.
  apply in_concat. eexists. split; [exact Hin|].
  do 2 apply in_cons. apply in_concat. eauto.
Qed.

(** Without an event on the grid the page has no event block. *)
Lemma daily_no_block (p daily : page) (events : list event) (date : datetime)
    (day_name : string) (day_index : nat) :
  create_daily_page p events date day_name day_index = Ok daily ->
  (forall hour minute, on_grid hour minute ->
     slot_events (events_on events date) hour minute = []) ->
  event_blocks daily = event_blocks p.
Proof.
  unfold create_daily_page. intros H Hnone.
  apply bind_Ok in H as (prev & Hprev & H). apply bind_Ok in H as (next & Hnext & H).
  apply bind_Ok in H as (rows & Hrows & [= <-]).
  assert (Hp : flat_map block_of prev = []).
  { unfold prev_button in Hprev. destruct (0 <? day_index)%nat.
    - apply bind_Ok in Hprev as (label & _ & [= <-]). reflexivity.
    - injection Hprev as <-. reflexivity. }
  assert (Hn : flat_map block_of next = []).
  { unfold next_button in Hnext. destruct (day_index <? 6)%nat.
    - apply bind_Ok in Hnext as (label & _ & [= <-]). reflexivity.
    - injection Hnext as <-. reflexivity. }
  assert (Hrows' : Forall (fun row => flat_map block_of row = []) rows).
  { apply mapM_Ok_Forall2 in Hrows. revert Hrows.
    assert (Hall : Forall (fun hm => on_grid hm.1 hm.2) time_grid).
    { apply Forall_forall. intros [h m] Hin. apply time_grid_on_grid, list_elem_of_In, Hin. }
    revert Hall. generalize time_grid. intros grid Hall Hrows.
    induction Hrows as [|[h m] row grid rows Hrow _ IH]; [constructor|].
    inversion Hall as [|? ? Hg Hall']; subst. constructor; [|apply IH, Hall'].
    unfold daily_slot_ops in Hrow. rewrite (Hnone h m Hg), mapM_nil_Ok in Hrow.
    injection Hrow as <-. reflexivity. }
  assert (Hcat : flat_map block_of (concat rows) = []).
  { clear Hrows. induction Hrows' as [|row rs Hrow _ IH]; [reflexivity|].
    simpl. rewrite flat_map_app, Hrow, IH. reflexivity. }
  unfold event_blocks, draw. cbn [ops].
  rewrite flat_map_app. cbn [flat_map block_of app].
  rewrite !flat_map_app, Hcat, Hp, Hn. apply app_nil_r.
Qed.

(** Event number [j] of a day is in row [j] of the day's column of the
    weekly page, whatever its start time. *)
Lemma weekly_cell_drawn (p weekly : page) (events : list event) (week_start date : datetime)
    (i j : nat) (day_name : string) (ev : event) :
  create_weekly_overview_page p events week_start = Ok weekly ->
  days !! i = Some day_name ->
  add_days week_start (Z.of_nat i) = Ok date ->
  take 10 (events_on events date) !! j = Some ev ->
  exists cell,
    weekly_event_ops (grid_start_x + Z.of_nat i * column_width) j ev = Ok cell /\
    incl cell (ops weekly).
Proof.
  unfold create_weekly_overview_page. intros H Hi Hdate Hj.
  apply bind_Ok in H as (week_last & _ & H).
  apply bind_Ok in H as (columns & Hcols & [= <-]).
  destruct (mapM_Ok_lookup _ _ _ i (i, day_name) Hcols) as (col & Hcol & Hin).
  { rewrite list_lookup_imap, Hi. reflexivity. }
  cbn beta iota in Hcol. unfold weekly_day_ops in Hcol. rewrite Hdate in Hcol.
  cbn [mbind result_bind] in Hcol.
  apply bind_Ok in Hcol as (cells & Hcells & [= <-]).
  destruct (mapM_Ok_lookup _ _ _ j (j, ev) Hcells) as (cell & Hcell & Hinc).
  { rewrite list_lookup_imap, Hj. reflexivity. }
  exists cell. split; [exact Hcell|].
  intros op Hop. unfold draw. cbn [ops].
  apply in_or_app. right. do 2 apply in_cons.
  apply in_concat. eexists. split; [eapply list_elem_of_In, list_elem_of_lookup_2, Hin|].
  do 3 apply in_cons. apply in_concat. eexists.
  split; [eapply list_elem_of_In, list_elem_of_lookup_2, Hinc | exact Hop].
Qed.

End Placement.

Section Views.
Context {parser : IsoParser}.

(** An event selected for a date has a start time that parses. *)
Lemma events_on_start (events : list event) (date : datetime) (ev : event) :
  In ev (events_on events date) ->
  In ev events /\ truthy (get ev "startTime" (VStr "")) = true /\
  exists d, parse_iso (get ev "startTime" (VStr "")) = Ok d /\ same_date d date = true.
Proof.
  unfold events_on. intros [Hin Hon]%filter_In. split; [exact Hin|].
  unfold is_event_on_date in Hon.
  destruct (truthy _); [|discriminate]. split; [reflexivity|].
  destruct (parse_iso _) as [d|]; [eauto | discriminate].
Qed.

(** The cell of event number [j] of a day on the weekly page: the frame,
    the start time and the first 15 characters of the title, in row [j]. *)
Lemma weekly_cell_content (p weekly : page) (events : list event)
    (week_start date : datetime) (i j : nat) (day_name : string) (ev : event) (d : datetime) :
  create_weekly_overview_page p events week_start = Ok weekly ->
  days !! i = Some day_name ->
  add_days week_start (Z.of_nat i) = Ok date ->
  take 10 (events_on events date) !! j = Some ev ->
  parse_iso (get ev "startTime" (VStr "")) = Ok d ->
  let x := grid_start_x + Z.of_nat i * column_width in
  let y := grid_start_y + header_height + Z.of_nat j * row_height in
  exists short,
    slice_to 15 (get ev "title" (VStr "Untitled")) = Ok short /\
    In (InsertText (x + 2) (y + 12) [Lit (strftime_H_M d)]) (ops weekly) /\
    In (InsertText (x + 2) (y + 22) [Fmt short]) (ops weekly).
Proof.
  intros Hw Hi Hdate Hj Hd x y.
  destruct (weekly_cell_drawn p weekly events week_start date i j day_name ev Hw Hi Hdate Hj)
    as (cell & Hcell & Hincl).
  assert (Hin : In ev (events_on events date)).
  { apply list_elem_of_In, (subseteq_take 10). eapply list_elem_of_lookup_2, Hj. }
  destruct (events_on_start _ _ _ Hin) as (_ & Ht & _).
  unfold weekly_event_ops in Hcell.
  apply bind_Ok in Hcell as (short & Hshort & [= <-]).
  exists short. split; [exact Hshort|].
  unfold parse_event_time in Hincl. rewrite Ht, Hd in Hincl.
  split; apply Hincl; simpl; auto.
Qed.

(** The block of an event that starts on the grid is in the row of its
    slot on the daily page, with the whole title. *)
Lemma daily_block_content (p daily : page) (events : list event) (date : datetime)
    (day_name : string) (day_index : nat) (ev : event) (d : datetime) :
  create_daily_page p events date day_name day_index = Ok daily ->
  In ev (events_on events date) ->
  parse_iso (get ev "startTime" (VStr "")) = Ok d ->
  on_grid (hour d) (minute d) ->
  let y := time_start_y + slot_index (hour d) (minute d) * slot_height in
  In (DrawRect (RectZ 100 (y + 2) 545 (y + slot_height - 2)) true) (ops daily) /\
  In (InsertText 105 (y + 12) [Lit "📅 "; Fmt (get ev "title" (VStr "Untitled"))])
     (ops daily).
Proof.
  intros Hdaily Hin Hd Hg y.
  destruct (events_on_start _ _ _ Hin) as (_ & Ht & _).
  assert (Hslot : In ev (slot_events (events_on events date) (hour d) (minute d))).
  { apply filter_In. split; [exact Hin|].
    apply (is_event_at_time_start ev d _ _ Ht Hd). auto. }
  destruct (daily_block_drawn p daily events date day_name day_index _ _ ev Hdaily Hg Hslot)
    as (block & Hblock & Hincl).
  unfold daily_event_ops in Hblock.
  apply bind_Ok in Hblock as (source & _ & [= <-]).
  split; apply Hincl; simpl; auto.
Qed.

(** An event that does not start on the grid is in no slot. *)
Lemma off_grid_in_no_slot (day_events : list event) (ev : event) (d : datetime)
    (hour minute : Z) :
  parse_iso (get ev "startTime" (VStr "")) = Ok d ->
  ~ on_grid (DateTime.hour d) (DateTime.minute d) ->
  on_grid hour minute ->
  ~ In ev (slot_events day_events hour minute).
Proof.
  intros Hd Hoff Hg [_ Hat]%filter_In.
  unfold is_event_at_time in Hat. destruct (truthy _); [|discriminate].
  rewrite Hd in Hat. apply andb_true_iff in Hat as [Hh Hm].
  apply Z.eqb_eq in Hh, Hm. subst. contradiction.
Qed.

(** C1 (amended): the weekly overview has no time grid: it lists the
    events of a day in input order, event number [j] (of the first ten) in
    row [j], whatever its start time; the daily page puts an event that
    starts at [hh:00] or [hh:30] between 06:00 and 23:30 in the slot
    [(hh - 6) * 2 + mm // 30], the whole half hours since 06:00.  The two
    rows agree only when the rank of the event equals that slot index. *)
Theorem rows_of_both_views (p1 p2 weekly daily : page) (events : list event)
    (week_start date : datetime) (i j : nat) (day_name : string) (ev : event)
    (d : datetime) :
  create_weekly_overview_page p1 events week_start = Ok weekly ->
  create_daily_page p2 events date day_name i = Ok daily ->
  days !! i = Some day_name ->
  add_days week_start (Z.of_nat i) = Ok date ->
  take 10 (events_on events date) !! j = Some ev ->
  parse_iso (get ev "startTime" (VStr "")) = Ok d ->
  on_grid (hour d) (minute d) ->
  let x := grid_start_x + Z.of_nat i * column_width in
  let weekly_y := grid_start_y + header_height + Z.of_nat j * row_height in
  let slot := slot_index (hour d) (minute d) in
  let daily_y := time_start_y + slot * slot_height in
  In (InsertText (x + 2) (weekly_y + 12) [Lit (strftime_H_M d)]) (ops weekly) /\
  In (DrawRect (RectZ 100 (daily_y + 2) 545 (daily_y + slot_height - 2)) true) (ops daily) /\
  slot = (hour d * 60 + minute d - 6 * 60) / 30 /\
  0 <= slot <= 35.
Proof.
  intros Hw Hdaily Hi Hdate Hj Hd Hg x weekly_y slot daily_y.
  destruct (weekly_cell_content p1 weekly events week_start date i j day_name ev d
              Hw Hi Hdate Hj Hd) as (short & _ & Htime & _).
  assert (Hin : In ev (events_on events date)).
  { apply list_elem_of_In, (subseteq_take 10). eapply list_elem_of_lookup_2, Hj. }
  destruct (daily_block_content p2 daily events date day_name i ev d Hdaily Hin Hd Hg)
    as [Hblock _].
  destruct (slot_index_on_grid _ _ Hg) as [Hslot Hrange].
  repeat split; try assumption; apply Hrange.
Qed.

(** C5 (amended): the slot index is the number of whole half hours since
    06:00 and lies in 0..35 for an event that starts at [hh:00] or [hh:30]
    between 06:00 and 23:30; nothing is clamped: an event with another
    start time is in no slot and the daily page draws no block for it,
    and [calculate_expected_position] returns
    [(minutes_since_6am // 30) * 40] as it is, also below 0 and above the
    last row. *)
Theorem slot_index_without_clamping (p daily : page) (events : list event)
    (date : datetime) (day_name : string) (day_index : nat) (ev : event) (d : datetime)
    (time_str hs ms : string) (h m : Z) :
  create_daily_page p events date day_name day_index = Ok daily ->
  In ev (events_on events date) ->
  parse_iso (get ev "startTime" (VStr "")) = Ok d ->
  split ":" time_str = [hs; ms] ->
  int_of_str hs = Ok h ->
  int_of_str ms = Ok m ->
  let slot := slot_index (hour d) (minute d) in
  let y := time_start_y + slot * slot_height in
  (on_grid (hour d) (minute d) ->
     slot = (hour d * 60 + minute d - 6 * 60) / 30 /\
     0 <= slot <= 35 /\
     In (DrawRect (RectZ 100 (y + 2) 545 (y + slot_height - 2)) true) (ops daily)) /\
  (~ on_grid (hour d) (minute d) ->
     forall hour minute,
       on_grid hour minute -> ~ In ev (slot_events (events_on events date) hour minute)) /\
  ((forall ev' d', In ev' (events_on events date) ->
                   parse_iso (get ev' "startTime" (VStr "")) = Ok d' ->
                   ~ on_grid (hour d') (minute d')) ->
     event_blocks daily = event_blocks p) /\
  calculate_expected_position time_str = Ok (((h - 6) * 60 + m) / 30 * 40).
Proof.
  intros Hdaily Hin Hd Hsplit Hh Hm slot y. split; [|split; [|split]].
  - intros Hg. destruct (slot_index_on_grid _ _ Hg) as [Hslot Hrange].
    destruct (daily_block_content p daily events date day_name day_index ev d
                Hdaily Hin Hd Hg) as [Hblock _].
    auto.
  - intros Hoff hour minute Hg. eapply off_grid_in_no_slot; eauto.
  - intros Hall. apply (daily_no_block p daily events date day_name day_index Hdaily).
    intros hour minute Hg.
    destruct (slot_events (events_on events date) hour minute) as [|ev' rest] eqn:Hs;
      [reflexivity|].
    exfalso.
    assert (Hin' : In ev' (slot_events (events_on events date) hour minute))
      by (rewrite Hs; left; reflexivity).
    pose proof Hin' as [Hon _]%filter_In.
    destruct (events_on_start _ _ _ Hon) as (_ & _ & d' & Hd' & _).
    exact (off_grid_in_no_slot _ ev' d' hour minute Hd' (Hall ev' d' Hon Hd') Hg Hin').
  - unfold calculate_expected_position. rewrite Hsplit, Hh. cbn [mbind result_bind].
    rewrite Hm. reflexivity.
Qed.


End Views.

Section ViewScenarios.

#[local] Existing Instance reference_parser.

(** C1, as stated, fails: the event of 08:00, alone on its day, is in row
    0 of the weekly overview and in slot 4 of the daily page. *)
Lemma rows_counterexample :
  on_page (create_weekly_overview_page (new_page 792 612) [coffee_local] monday)
          (fun p => weekly_rows p "Coffee with Nor") = Some [0] /\
  on_page (create_daily_page (new_page 612 792) [coffee_local] monday "Monday" 0)
          (fun p => daily_rows p "Coffee with Nora") = Some [4] /\
  slot_index 8 0 = 4 /\
  on_page (create_weekly_overview_page (new_page 792 612) [coffee_local] monday)
          (fun p => weekly_rows p "Coffee with Nor")
  <> on_page (create_daily_page (new_page 612 792) [coffee_local] monday "Monday" 0)
             (fun p => daily_rows p "Coffee with Nora").
Proof. vm_compute. repeat split; try reflexivity. discriminate. Qed.

(** C5, as stated, fails: an event at 05:00 is not drawn in slot 0 but
    not at all, and the expected position of 05:00 is below zero. *)
Lemma clamping_counterexample :
  on_page (create_daily_page (new_page 612 792) [early_call] monday "Monday" 0)
          (fun p => (daily_rows p "Early call", event_blocks p)) = Some ([], []) /\
  events_on [early_call] monday = [early_call] /\
  forallb (fun '(hour, minute) => negb (is_event_at_time early_call hour minute))
          time_grid = true /\
  calculate_expected_position "05:00" = Ok (-80) /\
  calculate_expected_position "24:30" = Ok (37 * 40) /\
  on_page (create_daily_page (new_page 612 792) [early_call] monday "Monday" 0)
          (fun p => daily_rows p "Early call") <> Some [0] /\
  calculate_expected_position "05:00" <> Ok (0 * 40).
Proof. vm_compute. repeat split; try reflexivity; discriminate. Qed.


(** The event of 08:00 on the Monday of the scenario. *)
Lemma rows_of_both_views_witness :
  let x := grid_start_x + Z.of_nat 0 * column_width in
  let weekly_y := grid_start_y + header_height + Z.of_nat 0 * row_height in
  let slot := slot_index (hour eight_o_clock) (minute eight_o_clock) in
  let daily_y := time_start_y + slot * slot_height in
  In (InsertText (x + 2) (weekly_y + 12) [Lit (strftime_H_M eight_o_clock)])
     (ops coffee_weekly) /\
  In (DrawRect (RectZ 100 (daily_y + 2) 545 (daily_y + slot_height - 2)) true)
     (ops coffee_daily) /\
  slot = (hour eight_o_clock * 60 + minute eight_o_clock - 6 * 60) / 30 /\
  0 <= slot <= 35.
Proof.
  apply (rows_of_both_views (new_page 792 612) (new_page 612 792) coffee_weekly coffee_daily
           [coffee_local] monday monday 0 0 "Monday" coffee_local eight_o_clock).
  - vm_compute. reflexivity.
  - vm_compute. reflexivity.
  - reflexivity.
  - reflexivity.
  - vm_compute. reflexivity.
  - reflexivity.
  - unfold on_grid, eight_o_clock. cbn [hour minute]. lia.
Defined.

(** The same event, and the clock string of its start. *)
Lemma slot_index_without_clamping_witness :
  let slot := slot_index (hour eight_o_clock) (minute eight_o_clock) in
  let y := time_start_y + slot * slot_height in
  (on_grid (hour eight_o_clock) (minute eight_o_clock) ->
     slot = (hour eight_o_clock * 60 + minute eight_o_clock - 6 * 60) / 30 /\
     0 <= slot <= 35 /\
     In (DrawRect (RectZ 100 (y + 2) 545 (y + slot_height - 2)) true) (ops coffee_daily)) /\
  (~ on_grid (hour eight_o_clock) (minute eight_o_clock) ->
     forall hour minute,
       on_grid hour minute ->
       ~ In coffee_local (slot_events (events_on [coffee_local] monday) hour minute)) /\
  ((forall ev' d', In ev' (events_on [coffee_local] monday) ->
                   parse_iso (get ev' "startTime" (VStr "")) = Ok d' ->
                   ~ on_grid (hour d') (minute d')) ->
     event_blocks coffee_daily = event_blocks (new_page 612 792)) /\
  calculate_expected_position "08:00" = Ok (((8 - 6) * 60 + 0) / 30 * 40).
Proof.
  apply (slot_index_without_clamping (new_page 612 792) coffee_daily [coffee_local] monday
           "Monday" 0 coffee_local eight_o_clock "08:00" "08" "00" 8 0).
  - vm_compute. reflexivity.
  - vm_compute. left. reflexivity.
  - reflexivity.
  - reflexivity.
  - reflexivity.
  - reflexivity.
Defined.


Example with_notes_height : _calculate_daily_event_height with_notes = Ok 145.
Proof. reflexivity. Qed.

End ViewScenarios.

(* ===================================================================== *)
(** * Further properties of the export, the package builder and the
      planner prototypes *)
(* ===================================================================== *)


Section MoreWeekFilter.
Context {parser : IsoParser}.

Lemma filter_twice {A : Type} (f : A -> bool) (l : list A) :
  List.filter f (List.filter f l) = List.filter f l.
Proof.
  induction l as [|x l IH]; simpl; [reflexivity|].
  destruct (f x) eqn:Hx; simpl; [rewrite Hx, IH|]; auto.
Qed.

(** X1: [filter_events_for_week] returns its input thinned out: the events
    it keeps come in input order, every event is judged on its own (the
    filter of a concatenation is the concatenation of the filters), and
    filtering the result again changes nothing. *)
Theorem week_filter_structure (events more : list event) (week_start week_end : datetime) :
  sublist (filter_events_for_week events week_start week_end) events /\
  filter_events_for_week (events ++ more) week_start week_end
  = filter_events_for_week events week_start week_end
    ++ filter_events_for_week more week_start week_end /\
  filter_events_for_week (filter_events_for_week events week_start week_end)
    week_start week_end
  = filter_events_for_week events week_start week_end.
Proof.
  split; [apply filter_events_for_week_sublist|].
  rewrite !filter_events_for_week_filter. split.
  - apply List.filter_app.
  - apply filter_twice.
Qed.

Lemma dt_le_Ok_aware (a b : datetime) (r : bool) :
  dt_le a b = Ok r -> aware a = aware b.
Proof.
  unfold dt_le, aware. destruct (utcoffset a), (utcoffset b); try discriminate; reflexivity.
Qed.

(** A kept event has a start that parses, lies between the bounds and is
    aware exactly when the bounds are. *)
Lemma kept_awareness (events : list event) (week_start week_end : datetime) (ev : event) :
  In ev (filter_events_for_week events week_start week_end) ->
  exists d,
    parse_iso (get ev "startTime" (VStr "")) = Ok d /\
    aware d = aware week_start /\ aware d = aware week_end /\
    dt_le week_start d = Ok true /\ dt_le d week_end = Ok true.
Proof.
  rewrite filter_events_for_week_filter. intros [_ Hk]%filter_In.
  unfold kept, in_week in Hk.
  destruct (truthy _); [|discriminate].
  destruct (parse_iso _) as [d|]; [|discriminate]. simpl in Hk.
  destruct (dt_le week_start d) as [[|]|] eqn:Hlo; simpl in Hk; try discriminate.
  destruct (dt_le d week_end) as [[|]|] eqn:Hhi; try discriminate.
  exists d. split; [reflexivity|].
  split; [symmetry; eapply dt_le_Ok_aware, Hlo|].
  split; [eapply dt_le_Ok_aware, Hhi|]. split; assumption.
Qed.

(** X2: An event that [filter_events_for_week] keeps has a start time that
    parses, that lies between the two bounds, and that carries a UTC offset
    exactly when the bounds do; so an event can only be kept when the two
    bounds are both naive or both aware. *)
Theorem week_filter_awareness (events : list event) (week_start week_end : datetime)
    (ev : event) :
  In ev (filter_events_for_week events week_start week_end) ->
  exists d,
    parse_iso (get ev "startTime" (VStr "")) = Ok d /\
    aware d = aware week_start /\ aware d = aware week_end /\
    (aware week_start = aware week_end) /\
    dt_le week_start d = Ok true /\ dt_le d week_end = Ok true.
Proof.
  intros H. apply kept_awareness in H as (d & Hp & Hs & He & Hlo & Hhi).
  exists d. repeat (split; [assumption|]). split; [congruence|]. split; assumption.
Qed.

End MoreWeekFilter.

Section MoreWeekFilterScenarios.
#[local] Existing Instance reference_parser.

Lemma week_filter_awareness_witness :
  exists d,
    parse_iso (get coffee_local "startTime" (VStr "")) = Ok d /\
    aware d = aware monday /\ aware d = aware sunday /\
    (aware monday = aware sunday) /\
    dt_le monday d = Ok true /\ dt_le d sunday = Ok true.
Proof.
  apply (week_filter_awareness [coffee_local] monday sunday coffee_local).
  left. reflexivity.
Defined.

End MoreWeekFilterScenarios.

Section MoreExport.
Context {parser : IsoParser}.

Lemma create_weekly_overview_page_draws (p weekly : page) (events : list event)
    (week_start : datetime) :
  create_weekly_overview_page p events week_start = Ok weekly ->
  page_size weekly = page_size p /\ links weekly = links p.
Proof.
  unfold create_weekly_overview_page. intros H.
  apply bind_Ok in H as (? & _ & H). apply bind_Ok in H as (cols & _ & [= <-]).
  split; reflexivity.
Qed.

Lemma create_daily_page_draws (p daily : page) (events : list event) (date : datetime)
    (day_name : string) (day_index : nat) :
  create_daily_page p events date day_name day_index = Ok daily ->
  page_size daily = page_size p /\ links daily = links p.
Proof.
  unfold create_daily_page. intros H.
  apply bind_Ok in H as (? & _ & H). apply bind_Ok in H as (? & _ & H).
  apply bind_Ok in H as (? & _ & [= <-]). split; reflexivity.
Qed.

Lemma daily_page_draws (daily : page) (events : list event) (week_start : datetime)
    (i : nat) (day_name : string) :
  daily_page events week_start i day_name = Ok daily ->
  page_size daily = page_size (new_page 612 792) /\ links daily = [].
Proof.
  unfold daily_page. intros H. apply bind_Ok in H as (date & _ & H).
  apply create_daily_page_draws in H. exact H.
Qed.

Lemma Forall2_Forall_right {A B : Type} (R : A -> B -> Prop) (Q : B -> Prop)
    (l : list A) (k : list B) :
  (forall x y, R x y -> Q y) -> Forall2 R l k -> Forall Q k.
Proof. intros HRQ. induction 1; constructor; eauto. Qed.

Lemma map_constant {A B : Type} (f : A -> B) (c : B) (l : list A) :
  Forall (fun x => f x = c) l -> map f l = replicate (length l) c.
Proof. induction 1 as [|x l Hx _ IH]; simpl; [reflexivity|]. rewrite Hx, IH. reflexivity. Qed.

Ltac solve_out :=
  first [ exists []; symmetry; apply app_nil_r
        | eexists; rewrite <- ?app_assoc; reflexivity ].

(** What a run of the body of the export does to the world. *)
Lemma create_pdf_effects (events : list event) (ws we : string) (w w1 : world)
    (r : result string) :
  create_pdf events ws we w = (r, w1) ->
  readonly w1 = readonly w /\
  (exists out, stdout w1 = stdout w ++ out) /\
  match r with
  | Ok name =>
      exists week_start doc,
        parse_iso (VStr ws) = Ok week_start /\ name = pdf_name week_start /\
        files w1 = <[name := PdfFile doc]> (files w) /\
        edges doc = simple_edges /\ map page_size doc = map page_size blank_package
  | Raise _ => files w1 = files w
  end.
Proof.
  unfold create_pdf, mbind, io_bind, lift, print, save. cbn [iterate].
  destruct (parse_iso (VStr ws)) as [week_start|];
    [|intros [= <- <-]; split; [reflexivity|split; [solve_out|reflexivity]]].
  destruct (parse_iso (VStr we)) as [week_end|];
    [|intros [= <- <-]; split; [reflexivity|split; [solve_out|reflexivity]]].
  destruct (create_weekly_overview_page _ _ _) as [weekly|] eqn:Hweekly;
    [|intros [= <- <-]; split; [reflexivity|split; [solve_out|reflexivity]]].
  destruct (mapM _ _) as [dailies|] eqn:Hd;
    [|intros [= <- <-]; split; [reflexivity|split; [solve_out|reflexivity]]].
  destruct (add_bidirectional_hyperlinks _) as [doc|] eqn:Hdoc;
    [|intros [= <- <-]; split; [reflexivity|split; [solve_out|reflexivity]]].
  cbn [readonly files stdout].
  destruct (bool_decide _);
    [intros [= <- <-]; split; [reflexivity|split; [solve_out|reflexivity]]|].
  intros [= <- <-]. cbn [readonly files stdout].
  split; [reflexivity|]. split; [solve_out|].
  exists week_start, doc. split; [reflexivity|]. split; [reflexivity|].
  split; [reflexivity|].
  apply create_weekly_overview_page_draws in Hweekly as [Hws Hwl].
  apply mapM_Ok_Forall2 in Hd.
  assert (Hlen : length dailies = 7%nat).
  { rewrite <- (Forall2_length _ _ _ Hd). reflexivity. }
  assert (Hdl : Forall (fun p => page_size p = page_size (new_page 612 792) /\ links p = []) dailies).
  { eapply Forall2_Forall_right, Hd. intros [i day_name] daily. apply daily_page_draws. }
  split.
  - assert (He : edges_of (add_bidirectional_hyperlinks (weekly :: dailies))
                 = Some simple_edges).
    { apply simple_edges_run; [simpl; rewrite Hlen; reflexivity|].
      constructor; [exact Hwl|]. eapply Forall_impl; [exact Hdl|]. intros p [_ Hp]. exact Hp. }
    rewrite Hdoc in He. injection He as He. exact He.
  - apply add_bidirectional_hyperlinks_body in Hdoc.
    assert (Hsz : forall d, map page_size d = map fst (map body d)).
    { intros d. rewrite !map_map. reflexivity. }
    rewrite Hsz, Hdoc, <- Hsz. simpl. rewrite Hws. f_equal.
    rewrite (map_constant page_size (page_size (new_page 612 792))), Hlen; [reflexivity|].
    eapply Forall_impl; [exact Hdl|]. intros p [Hp _]. exact Hp.
Qed.

(** X3: Whatever the events, a PDF that [create_pdf] writes is a landscape
    page of 792 x 612 followed by seven portrait pages of 612 x 792, and its
    links are exactly the 26 of [simple_edges]: rendering adds no link of
    its own. *)
Theorem exported_pdf_links_and_sizes (events : list event) (ws we : string)
    (w w' : world) (name : string) :
  create_pdf events ws we w = (Ok name, w') ->
  exists doc,
    files w' !! name = Some (PdfFile doc) /\
    edges doc = simple_edges /\
    map page_size doc = map page_size blank_package.
Proof.
  intros H. apply create_pdf_effects in H as (_ & _ & week_start & doc & _ & _ & Hf & He & Hs).
  exists doc. rewrite Hf. split; [apply lookup_insert_eq|]. split; assumption.
Qed.








(** X6: When the week start cannot be parsed the export produces nothing:
    the PDF and the text fallback fail at the same parse, [None] is
    returned, no file is written, and [main] ends with status 1. *)
Theorem unparseable_week_start (events : list event) (ws we : string) (w : world) :
  fromisoformat (replace_Z ws) = None ->
  create_bidirectional_linked_pdf events ws we w
  = (Ok None,
     mkworld (files w) (readonly w)
             (stdout w ++ ["❌ Error creating bidirectional PDF: ValueError";
                           "❌ Even text fallback failed: ValueError"])) /\
  (main events ws we w).1 = Ok 1 /\
  files (main events ws we w).2 = files w.
Proof.
  intros Hp.
  assert (Hrun : create_bidirectional_linked_pdf events ws we w
                 = (Ok None,
                    mkworld (files w) (readonly w)
                      (stdout w ++ ["❌ Error creating bidirectional PDF: ValueError";
                                    "❌ Even text fallback failed: ValueError"]))).
  { assert (Hparse : parse_iso (VStr ws) = Raise ValueError).
    { unfold parse_iso. cbn [replace_Z_value]. unfold mbind, result_bind.
      rewrite Hp. reflexivity. }
    assert (Hpdf : create_pdf events ws we w = (Raise ValueError, w)).
    { unfold create_pdf, mbind, io_bind, lift. rewrite Hparse. reflexivity. }
    unfold create_bidirectional_linked_pdf, try_io, mbind, io_bind.
    rewrite Hpdf. unfold print. rewrite create_text_fallback_run, Hparse.
    unfold add_line. cbn [readonly files stdout exc_name].
    rewrite <- app_assoc. reflexivity. }
  split; [exact Hrun|].
  unfold main, try_io, mbind, io_bind.
  destruct (String.eqb ws "" || String.eqb we ""); [split; reflexivity|].
  rewrite Hrun. split; reflexivity.
Qed.

End MoreExport.

Section MoreExportScenarios.
#[local] Existing Instance reference_parser.

Lemma exported_pdf_links_and_sizes_witness :
  exists doc,
    files (create_pdf [coffee_local] "2025-07-14" "2025-07-20" empty_world).2
      !! "bidirectional_weekly_planner_2025-07-14.pdf" = Some (PdfFile doc) /\
    edges doc = simple_edges /\
    map page_size doc = map page_size blank_package.
Proof.
  apply (exported_pdf_links_and_sizes [coffee_local] "2025-07-14" "2025-07-20" empty_world).
  vm_compute. reflexivity.
Defined.

Lemma unparseable_week_start_witness :
  create_bidirectional_linked_pdf [coffee_local] "next week" "2025-07-20" empty_world
  = (Ok None,
     mkworld (files empty_world) (readonly empty_world)
             (stdout empty_world ++ ["❌ Error creating bidirectional PDF: ValueError";
                                     "❌ Even text fallback failed: ValueError"])) /\
  (main [coffee_local] "next week" "2025-07-20" empty_world).1 = Ok 1 /\
  files (main [coffee_local] "next week" "2025-07-20" empty_world).2 = files empty_world.
Proof.
  apply (unparseable_week_start [coffee_local] "next week" "2025-07-20" empty_world).
  reflexivity.
Defined.

(** The input [{"events": null, "weekStart": "2025-07-14", "weekEnd":
    "2025-07-20"}]: the loop of the filter raises, the text fallback opens
    its file, writes three lines and fails at [len(None)]; [main] ends with
    status 1 and the file stays. *)
Example main_null_events :
  let run := main NotIterable "2025-07-14" "2025-07-20" empty_world in
  run.1 = Ok 1 /\
  files run.2 !! "bidirectional_weekly_planner_2025-07-14.txt"
  = Some (TextFile (fallback_head "2025-07-14" "2025-07-20")) /\
  stdout run.2
  = ["❌ Error creating bidirectional PDF: TypeError";
     "❌ Even text fallback failed: TypeError";
     "❌ Failed to create bidirectional weekly package"].
Proof. vm_compute. repeat split; reflexivity. Qed.

End MoreExportScenarios.

Section MoreWiring.

Lemma foldM_invariant_In {A B : Type} (P : A -> Prop) (f : A -> B -> result A)
    (l : list B) (a a' : A) :
  (forall x b y, In b l -> P x -> f x b = Ok y -> P y) ->
  P a -> foldM f a l = Ok a' -> P a'.
Proof.
  revert a. induction l as [|b l IH]; intros a Hstep Ha; simpl.
  - intros [= <-]. exact Ha.
  - intros H. apply bind_Ok in H as (y & Hy & H).
    eapply (IH y); [| |exact H].
    + intros x b' y' Hin. apply Hstep. right. exact Hin.
    + eapply Hstep; [left; reflexivity | exact Ha | exact Hy].
Qed.

Lemma foldM_total {A B : Type} (P : A -> Prop) (f : A -> B -> result A)
    (l : list B) (a : A) :
  (forall x b, In b l -> P x -> exists y, f x b = Ok y /\ P y) ->
  P a -> exists a', foldM f a l = Ok a' /\ P a'.
Proof.
  revert a. induction l as [|b l IH]; intros a Hstep Ha; simpl.
  - eauto.
  - destruct (Hstep a b (or_introl eq_refl) Ha) as (y & -> & Hy). simpl.
    apply IH; [|exact Hy]. intros x b' Hin. apply Hstep. right. exact Hin.
Qed.

Lemma only_links_added_refl (doc : list page) : only_links_added doc doc.
Proof.
  split; [|reflexivity]. apply Forall_Forall2_diag, Forall_forall.
  intros p _. split; [reflexivity|]. exists []. symmetry. apply app_nil_r.
Qed.

Lemma only_links_added_trans (d1 d2 d3 : list page) :
  only_links_added d1 d2 -> only_links_added d2 d3 -> only_links_added d1 d3.
Proof.
  intros [H12 D12] [H23 D23]. split; [|congruence].
  clear D12 D23. revert d3 H23.
  induction H12 as [|p p' d1 d2 [Hb [a Ha]] _ IH]; intros d3 H23.
  - inversion H23. constructor.
  - inversion H23 as [|? p'' ? d3' [Hb' [a' Ha']] H23']; subst. constructor.
    + split; [congruence|]. exists (a ++ a'). rewrite Ha', Ha, app_assoc. reflexivity.
    + apply (IH d3' H23').
Qed.

Lemma insert_link_extends (doc doc' : list page) (pno : nat) (l : link) :
  insert_link doc pno l = Ok doc' -> (pno < 8)%nat -> only_links_added doc doc'.
Proof.
  unfold insert_link. destruct (doc !! pno) as [p|] eqn:Hp; [|discriminate].
  destruct (_ && _); [|discriminate]. intros [= <-] Hlt. split.
  - rewrite <- (list_insert_id doc pno p Hp) at 1.
    apply Forall2_insert; [apply only_links_added_refl|].
    split; [reflexivity|]. exists [l]. reflexivity.
  - apply drop_insert_lt. lia.
Qed.

Ltac keep_links :=
  repeat match goal with
         | H : _ ≫= _ = Ok _ |- _ => apply bind_Ok in H as (? & ? & H)
         | H : (if ?c then _ else _) = Ok _ |- _ => destruct c
         | H : insert_link _ _ _ = Ok _ |- _ => apply insert_link_extends in H; [|lia]
         | H : Ok _ = Ok _ |- _ => injection H as <-
         end;
  eauto 10 using only_links_added_trans.

Lemma add_bidirectional_hyperlinks_links (doc doc' : list page) :
  add_bidirectional_hyperlinks doc = Ok doc' -> only_links_added doc doc'.
Proof.
  unfold add_bidirectional_hyperlinks. intros H.
  apply bind_Ok in H as (_ & _ & H). apply bind_Ok in H as (doc1 & H1 & H).
  assert (Hb1 : only_links_added doc doc1).
  { revert H1. apply (foldM_invariant_In (only_links_added doc));
      [|apply only_links_added_refl].
    intros d i d' Hin Hd Hi. keep_links. }
  revert H. apply (foldM_invariant_In (only_links_added doc)); [|exact Hb1].
  intros d i d' Hin Hd Hi. apply in_seq in Hin. keep_links.
Qed.

Lemma _add_hyperlinks_to_package_links (doc doc' : list page) :
  _add_hyperlinks_to_package doc = Ok doc' -> only_links_added doc doc'.
Proof.
  unfold _add_hyperlinks_to_package. intros H.
  apply bind_Ok in H as (weekly & _ & H). apply bind_Ok in H as (doc1 & H1 & H).
  assert (Hb1 : only_links_added doc doc1).
  { revert H1. apply (foldM_invariant_In (only_links_added doc));
      [|apply only_links_added_refl].
    intros d i d' Hin Hd Hi. keep_links. }
  revert H. apply (foldM_invariant_In (only_links_added doc)); [|exact Hb1].
  intros d i d' Hin Hd Hi. apply in_seq in Hin. keep_links.
Qed.

(** X7: Both wiring functions leave the number of pages, their sizes and
    what is drawn on them as they are; they only append links, and only to
    the first eight pages: the pages from the ninth on are untouched. *)
Theorem wiring_only_adds_links (doc doc' : list page) :
  add_bidirectional_hyperlinks doc = Ok doc' \/ _add_hyperlinks_to_package doc = Ok doc' ->
  only_links_added doc doc'.
Proof.
  intros [H|H];
    [apply add_bidirectional_hyperlinks_links | apply _add_hyperlinks_to_package_links];
    exact H.
Qed.

Lemma wiring_only_adds_links_witness :
  only_links_added blank_package
    (match add_bidirectional_hyperlinks blank_package with Ok d => d | Raise _ => [] end).
Proof.
  apply (wiring_only_adds_links blank_package). left. vm_compute. reflexivity.
Defined.

Lemma insert_link_ok (doc : list page) (pno : nat) (l : link) :
  (pno < length doc)%nat -> 0 <= to_page l < Z.of_nat (length doc) ->
  exists doc', insert_link doc pno l = Ok doc' /\ length doc' = length doc.
Proof.
  intros Hp Hl. unfold insert_link.
  destruct (lookup_lt_is_Some_2 doc pno Hp) as [p ->].
  replace (_ && _) with true by (symmetry; apply andb_true_iff; split; lia).
  eexists. split; [reflexivity|]. apply length_insert.
Qed.

Lemma getitem_ok (doc : list page) (i : nat) :
  (i < length doc)%nat -> exists p, getitem doc i = Ok p.
Proof.
  intros Hi. unfold getitem. destruct (lookup_lt_is_Some_2 doc i Hi) as [p ->]. eauto.
Qed.

Ltac run_insert :=
  match goal with
  | |- context [insert_link ?d ?pno ?l] =>
      let d' := fresh "d" in
      let H := fresh "H" in
      let Hl := fresh "Hl" in
      destruct (insert_link_ok d pno l) as (d' & H & Hl);
      [lia | cbn [to_page]; lia |];
      rewrite H; cbn [mbind result_bind]
  | |- context [getitem ?d ?i] =>
      let p := fresh "p" in
      let H := fresh "H" in
      destruct (getitem_ok d i) as (p & H); [lia|];
      rewrite H; cbn [mbind result_bind]
  | |- context [if (?a <? ?b)%nat then _ else _] =>
      let E := fresh "E" in
      destruct (a <? b)%nat eqn:E; [apply Nat.ltb_lt in E|];
      cbn [mbind result_bind]
  end.

Lemma wiring_succeeds_from_eight (doc : list page) :
  (8 <= length doc)%nat ->
  is_ok (add_bidirectional_hyperlinks doc) = true /\
  is_ok (_add_hyperlinks_to_package doc) = true.
Proof.
  intros Hlen. split.
  - unfold add_bidirectional_hyperlinks.
    destruct (getitem_ok doc 0) as (p0 & ->); [lia|]. cbn [mbind result_bind].
    match goal with
    | |- context [foldM ?f doc ?l] =>
        destruct (foldM_total (fun d => length d = length doc) f l doc) as (doc1 & -> & Hl1);
          [|reflexivity|]
    end.
    { intros d i Hin Hd. apply in_seq in Hin. change (length days) with 7%nat in Hin.
      cbv beta zeta. run_insert. eexists; split; [reflexivity | congruence]. }
    cbn [mbind result_bind].
    match goal with
    | |- context [foldM ?f doc1 ?l] =>
        destruct (foldM_total (fun d => length d = length doc) f l doc1) as (doc2 & -> & Hl2);
          [|exact Hl1|reflexivity]
    end.
    intros d i Hin Hd. apply in_seq in Hin. cbv beta zeta.
    repeat run_insert; eexists; (split; [reflexivity | congruence]).
  - unfold _add_hyperlinks_to_package.
    destruct (getitem_ok doc 0) as (p0 & ->); [lia|]. cbn [mbind result_bind].
    match goal with
    | |- context [foldM ?f doc ?l] =>
        destruct (foldM_total (fun d => length d = length doc) f l doc) as (doc1 & -> & Hl1);
          [|reflexivity|]
    end.
    { intros d i Hin Hd. apply in_seq in Hin. cbv beta zeta. run_insert. eexists; split; [reflexivity | congruence]. }
    cbn [mbind result_bind].
    match goal with
    | |- context [foldM ?f doc1 ?l] =>
        destruct (foldM_total (fun d => length d = length doc) f l doc1) as (doc2 & -> & Hl2);
          [|exact Hl1|reflexivity]
    end.
    intros d i Hin Hd. apply in_seq in Hin. cbv beta zeta.
    repeat run_insert; eexists; (split; [reflexivity | congruence]).
Qed.

Lemma wiring_needs_eight_pages_aux (doc : list page) :
  (8 <= length doc)%nat \/ is_ok (_add_hyperlinks_to_package doc) = false.
Proof.
  destruct (decide (8 <= length doc)%nat) as [Hlen|Hlen]; [left; exact Hlen|].
  right. apply wiring_fails_on_missing_page. lia.
Qed.

(** X8: Each of the two wiring functions succeeds exactly on the documents
    of at least eight pages. *)
Theorem wiring_needs_eight_pages (doc : list page) :
  is_ok (add_bidirectional_hyperlinks doc) = bool_decide (8 <= length doc)%nat /\
  is_ok (_add_hyperlinks_to_package doc) = bool_decide (8 <= length doc)%nat.
Proof.
  destruct (decide (8 <= length doc)%nat) as [Hlen|Hlen].
  - rewrite bool_decide_eq_true_2 by exact Hlen. apply wiring_succeeds_from_eight, Hlen.
  - rewrite bool_decide_eq_false_2 by exact Hlen. apply wiring_fails_on_missing_page. lia.
Qed.

End MoreWiring.

Section MorePackage.

(** The merging loop reads the daily files and leaves the world as it
    is. *)
Lemma insert_daily_pdfs_effects (paths : list string) (doc : list page) (w w1 : world)
    (r : result (list page)) :
  insert_daily_pdfs doc paths w = (r, w1) ->
  w1 = w /\
  forall merged, r = Ok merged ->
    exists daily_docs,
      Forall2 (fun path d => files w !! path = Some (PdfFile d)) paths daily_docs /\
      merged = doc ++ concat daily_docs.
Proof.
  revert doc. induction paths as [|path paths IH]; intros doc; simpl.
  - intros [= <- <-]. split; [reflexivity|]. intros merged [= <-].
    exists []. split; [constructor | symmetry; apply app_nil_r].
  - unfold mbind, io_bind, open_pdf at 1.
    destruct (files w !! path) as [[d|chunks]|] eqn:Hpath.
    + intros H. apply IH in H as [-> H]. split; [reflexivity|].
      intros merged Hm. destruct (H merged Hm) as (docs & Hdocs & ->).
      exists (d :: docs). split; [constructor; assumption|].
      simpl. rewrite app_assoc. reflexivity.
    + intros [= <- <-]. split; [reflexivity | discriminate].
    + intros [= <- <-]. split; [reflexivity | discriminate].
Qed.

Lemma insert_daily_pdfs_merge (paths : list string) (daily_docs : list (list page))
    (doc : list page) (w : world) :
  Forall2 (fun path d => files w !! path = Some (PdfFile d)) paths daily_docs ->
  insert_daily_pdfs doc paths w = (Ok (doc ++ concat daily_docs), w).
Proof.
  intros H. revert doc. induction H as [|path d paths docs Hp _ IH]; intros doc; simpl.
  - rewrite app_nil_r. reflexivity.
  - unfold mbind, io_bind, open_pdf at 1. rewrite Hp, IH, <- app_assoc. reflexivity.
Qed.

(** The package builder on readable input of at least eight pages. *)
Lemma package_builder_succeeds (weekly_pdf_path : string) (daily_pdf_paths : list string)
    (output_path : string) (w : world) (weekly_doc : list page)
    (daily_docs : list (list page)) :
  files w !! weekly_pdf_path = Some (PdfFile weekly_doc) ->
  length daily_pdf_paths = 7%nat ->
  Forall2 (fun path d => files w !! path = Some (PdfFile d)) daily_pdf_paths daily_docs ->
  (8 <= length (weekly_doc ++ concat daily_docs))%nat ->
  output_path ∉ readonly w ->
  exists doc,
    _add_hyperlinks_to_package (weekly_doc ++ concat daily_docs) = Ok doc /\
    create_bidirectional_weekly_package weekly_pdf_path daily_pdf_paths output_path w
    = (Ok true, mkworld (<[output_path := PdfFile doc]> (files w)) (readonly w) (stdout w)).
Proof.
  intros Hweekly Hlen Hdaily Hlen8 Hro.
  destruct (wiring_succeeds_from_eight _ Hlen8) as [_ Hwire].
  destruct (_add_hyperlinks_to_package (weekly_doc ++ concat daily_docs)) as [doc|] eqn:Hdoc;
    [|discriminate Hwire].
  exists doc. split; [reflexivity|].
  unfold create_bidirectional_weekly_package, try_io, mbind, io_bind, path_exists at 1.
  rewrite bool_decide_eq_true_2 by (rewrite Hweekly; eauto). cbn [negb].
  rewrite Hlen. cbn [Nat.eqb negb]. rewrite all_daily_exist_run.
  replace (forallb _ daily_pdf_paths) with true.
  2:{ symmetry. apply forallb_forall. intros path Hin.
      apply list_elem_of_In, list_elem_of_lookup_1 in Hin as [i Hi].
      destruct (Forall2_lookup_l _ _ _ _ _ Hdaily Hi) as (p0 & _ & Hp0).
      apply bool_decide_eq_true_2. rewrite Hp0. eauto. }
  cbn [negb]. unfold open_pdf at 1. rewrite Hweekly.
  rewrite (insert_daily_pdfs_merge _ _ _ _ Hdaily). cbn [app].
  unfold lift, save. rewrite Hdoc.
  rewrite bool_decide_eq_false_2 by exact Hro. reflexivity.
Qed.

(** Every run of the package builder: either [False] with the world
    untouched, or [True] with the wired merge of the input files written
    to the output path. *)
Lemma package_builder_cases (weekly_pdf_path : string) (daily_pdf_paths : list string)
    (output_path : string) (w w' : world) (r : result bool) :
  create_bidirectional_weekly_package weekly_pdf_path daily_pdf_paths output_path w
  = (r, w') ->
  (r = Ok false /\ w' = w) \/
  (r = Ok true /\
   exists weekly_doc daily_docs doc,
     files w !! weekly_pdf_path = Some (PdfFile weekly_doc) /\
     length daily_pdf_paths = 7%nat /\
     Forall2 (fun path d => files w !! path = Some (PdfFile d))
             daily_pdf_paths daily_docs /\
     _add_hyperlinks_to_package (weekly_doc ++ concat daily_docs) = Ok doc /\
     (output_path ∉ readonly w) /\
     w' = mkworld (<[output_path := PdfFile doc]> (files w)) (readonly w) (stdout w)).
Proof.
  unfold create_bidirectional_weekly_package, try_io, mbind, io_bind, path_exists at 1.
  destruct (bool_decide (is_Some (files w !! weekly_pdf_path))); cbn [negb];
    [|intros [= <- <-]; left; auto].
  destruct (length daily_pdf_paths =? 7)%nat eqn:Hlen; cbn [negb];
    [|intros [= <- <-]; left; auto].
  rewrite all_daily_exist_run.
  destruct (forallb _ daily_pdf_paths); cbn [negb]; [|intros [= <- <-]; left; auto].
  unfold open_pdf at 1.
  destruct (files w !! weekly_pdf_path) as [[weekly_doc|chunks]|] eqn:Hweekly;
    [|(intros [= <- <-]; left; auto)..].
  cbn [app].
  destruct (insert_daily_pdfs weekly_doc daily_pdf_paths w) as [[merged|e] w1] eqn:Hins;
    apply insert_daily_pdfs_effects in Hins as [-> Hm];
    [|intros [= <- <-]; left; auto].
  destruct (Hm merged eq_refl) as (daily_docs & Hdaily & ->).
  unfold lift, save.
  destruct (_add_hyperlinks_to_package _) as [doc|e] eqn:Hdoc;
    [|intros [= <- <-]; left; auto].
  destruct (bool_decide (output_path ∈ readonly w)) eqn:Hro;
    [intros [= <- <-]; left; auto|].
  intros [= <- <-]. right. split; [reflexivity|].
  exists weekly_doc, daily_docs, doc. apply Nat.eqb_eq in Hlen.
  apply bool_decide_eq_false in Hro. auto 10.
Qed.

(** X9: [create_bidirectional_weekly_package] returns [True] exactly when
    the weekly file and the seven daily files are PDF files of at least
    eight pages together and the output path can be written; it then writes
    the wired concatenation of their pages to the output path and nothing
    else.  When it returns [False] the world is as before. *)
Theorem package_builder_outcome (weekly_pdf_path : string) (daily_pdf_paths : list string)
    (output_path : string) (w : world) :
  exists (b : bool) (w' : world),
    create_bidirectional_weekly_package weekly_pdf_path daily_pdf_paths output_path w
    = (Ok b, w') /\
    (b = false -> w' = w) /\
    (b = true <->
     exists weekly_doc daily_docs,
       files w !! weekly_pdf_path = Some (PdfFile weekly_doc) /\
       length daily_pdf_paths = 7%nat /\
       Forall2 (fun path d => files w !! path = Some (PdfFile d))
               daily_pdf_paths daily_docs /\
       (8 <= length (weekly_doc ++ concat daily_docs))%nat /\
       output_path ∉ readonly w) /\
    (b = true ->
     exists weekly_doc daily_docs doc,
       files w !! weekly_pdf_path = Some (PdfFile weekly_doc) /\
       Forall2 (fun path d => files w !! path = Some (PdfFile d))
               daily_pdf_paths daily_docs /\
       _add_hyperlinks_to_package (weekly_doc ++ concat daily_docs) = Ok doc /\
       w' = mkworld (<[output_path := PdfFile doc]> (files w)) (readonly w) (stdout w)).
Proof.
  destruct (create_bidirectional_weekly_package weekly_pdf_path daily_pdf_paths output_path w)
    as [r w'] eqn:Hrun.
  destruct (package_builder_cases _ _ _ _ _ _ Hrun)
    as [[-> ->] | [-> (weekly_doc & daily_docs & doc & Hw & Hl & Hd & Hdoc & Hro & ->)]].
  - exists false, w. split; [reflexivity|]. split; [reflexivity|]. split; [|discriminate].
    split; [discriminate|].
    intros (weekly_doc & daily_docs & Hw & Hl & Hd & H8 & Hro).
    destruct (package_builder_succeeds _ _ output_path w _ _ Hw Hl Hd H8 Hro) as (doc & _ & Hrun').
    rewrite Hrun in Hrun'. discriminate Hrun'.
  - eexists true, _. split; [reflexivity|]. split; [discriminate|]. split.
    + split; [|reflexivity]. intros _. exists weekly_doc, daily_docs.
      repeat (split; [assumption|]). split; [|assumption].
      destruct (wiring_needs_eight_pages_aux (weekly_doc ++ concat daily_docs)) as [H|H];
        [exact H|]. rewrite Hdoc in H. discriminate H.
    + intros _. exists weekly_doc, daily_docs, doc. auto.
Qed.

End MorePackage.


Section Counting.
Context {A B C : Type}.

Lemma flat_map_concat_length (F : B -> list C) (g : A -> nat) (xs : list A)
    (cs : list (list B)) :
  Forall2 (fun x c => length (flat_map F c) = g x) xs cs ->
  length (flat_map F (concat cs)) = list_sum (map g xs).
Proof.
  induction 1 as [|x c xs cs Hc _ IH]; [reflexivity|].
  simpl. rewrite flat_map_app, length_app, Hc, IH. reflexivity.
Qed.

Lemma list_sum_ones (xs : list A) : list_sum (map (fun _ => 1%nat) xs) = length xs.
Proof. induction xs as [|x xs IH]; simpl; [reflexivity|]. rewrite IH. reflexivity. Qed.

Lemma list_sum_add (a b : A -> nat) (xs : list A) :
  list_sum (map (fun x => (a x + b x)%nat) xs)
  = (list_sum (map a xs) + list_sum (map b xs))%nat.
Proof. induction xs as [|x xs IH]; simpl; [reflexivity|]. rewrite IH. lia. Qed.

Lemma list_sum_indicator (f : A -> bool) (xs : list A) :
  list_sum (map (fun x => if f x then 1%nat else 0%nat) xs) = length (List.filter f xs).
Proof.
  induction xs as [|x xs IH]; simpl; [reflexivity|].
  rewrite IH. destruct (f x); reflexivity.
Qed.

(** At most one element of a duplicate-free list satisfies [f]. *)
Lemma filter_unique_length (f : A -> bool) (xs : list A) :
  NoDup xs ->
  (forall x y, In x xs -> In y xs -> f x = true -> f y = true -> x = y) ->
  length (List.filter f xs) = if existsb f xs then 1%nat else 0%nat.
Proof.
  induction 1 as [|x xs Hx Hnd IH]; intros Huniq; [reflexivity|].
  simpl. destruct (f x) eqn:Hfx; simpl.
  - assert (Hnone : List.filter f xs = []).
    { destruct (List.filter f xs) as [|y ys] eqn:Hf; [reflexivity|]. exfalso.
      assert (Hy : In y (List.filter f xs)) by (rewrite Hf; left; reflexivity).
      apply filter_In in Hy as [Hy Hfy].
      apply Hx. rewrite (Huniq x y) at 1; simpl; auto. apply list_elem_of_In, Hy. }
    rewrite Hnone. reflexivity.
  - apply IH. intros a b Ha Hb. apply Huniq; right; assumption.
Qed.

End Counting.

Section PageCounts.
Context {parser : IsoParser}.

Lemma is_event_at_time_unique (ev : event) (h m h' m' : Z) :
  is_event_at_time ev h m = true -> is_event_at_time ev h' m' = true ->
  (h, m) = (h', m').
Proof.
  unfold is_event_at_time. destruct (truthy _); [|discriminate].
  destruct (parse_iso _) as [d|]; [|discriminate].
  rewrite !andb_true_iff, !Z.eqb_eq. intros [<- <-] [<- <-]. reflexivity.
Qed.

Lemma time_grid_NoDup : NoDup time_grid.
Proof. compute_done. Qed.

(** Summed over the rows of the grid, the slots hold the events that
    start on the grid, each once. *)
Lemma slot_events_total (day_events : list event) :
  list_sum (map (fun '(hour, minute) => length (slot_events day_events hour minute))
                time_grid)
  = length (List.filter starts_on_grid day_events).
Proof.
  induction day_events as [|ev evs IH].
  - simpl. generalize time_grid. intros l. induction l as [|[h m] l IHl]; simpl; auto.
  - cbn [List.filter]. 
    transitivity
      (list_sum (map (fun hm : Z * Z =>
                        ((if (let '(h, m) := hm in is_event_at_time ev h m)
                          then 1 else 0)
                         + (let '(h, m) := hm in length (slot_events evs h m)))%nat)
                     time_grid)).
    + f_equal. apply map_ext. intros [h m]. unfold slot_events. cbn [List.filter].
      destruct (is_event_at_time ev h m); reflexivity.
    + rewrite list_sum_add, IH, list_sum_indicator.
      rewrite filter_unique_length.
      * fold (starts_on_grid ev). destruct (starts_on_grid ev); reflexivity.
      * apply time_grid_NoDup.
      * intros [h m] [h' m'] _ _. apply is_event_at_time_unique.
Qed.

Lemma daily_event_ops_one_block (y : Z) (ev : event) (block : list draw_op) :
  daily_event_ops y ev = Ok block -> length (flat_map block_of block) = 1%nat.
Proof.
  unfold daily_event_ops. intros H. apply bind_Ok in H as (source & _ & [= <-]).
  destruct (negb _); reflexivity.
Qed.

Lemma daily_slot_ops_blocks (day_events : list event) (hour minute : Z)
    (row : list draw_op) :
  daily_slot_ops day_events hour minute = Ok row ->
  length (flat_map block_of row) = length (slot_events day_events hour minute).
Proof.
  unfold daily_slot_ops. intros H. apply bind_Ok in H as (blocks & Hb & [= <-]).
  cbn [app flat_map block_of].
  apply mapM_Ok_Forall2 in Hb.
  rewrite (flat_map_concat_length block_of (fun _ => 1%nat)
             (slot_events day_events hour minute) blocks).
  - apply list_sum_ones.
  - eapply Forall2_impl; [exact Hb|]. intros ev block. apply daily_event_ops_one_block.
Qed.

(** X10: A daily page gets one event block for every event of the day that
    starts on a row of the grid (06:00 to 23:30, on the hour or the half
    hour) and none for the others: no event is drawn twice. *)
Theorem daily_page_block_count (p daily : page) (events : list event) (date : datetime)
    (day_name : string) (day_index : nat) :
  create_daily_page p events date day_name day_index = Ok daily ->
  length (event_blocks daily)
  = (length (event_blocks p)
     + length (List.filter starts_on_grid (events_on events date)))%nat.
Proof.
  unfold create_daily_page. intros H.
  apply bind_Ok in H as (prev & Hprev & H). apply bind_Ok in H as (next & Hnext & H).
  apply bind_Ok in H as (rows & Hrows & [= <-]).
  assert (Hp : flat_map block_of prev = []).
  { unfold prev_button in Hprev. destruct (0 <? day_index)%nat.
    - apply bind_Ok in Hprev as (label & _ & [= <-]). reflexivity.
    - injection Hprev as <-. reflexivity. }
  assert (Hn : flat_map block_of next = []).
  { unfold next_button in Hnext. destruct (day_index <? 6)%nat.
    - apply bind_Ok in Hnext as (label & _ & [= <-]). reflexivity.
    - injection Hnext as <-. reflexivity. }
  unfold event_blocks, draw. cbn [ops].
  rewrite flat_map_app. cbn [flat_map block_of app].
  rewrite !flat_map_app, Hp, Hn, !length_app. cbn [length app Nat.add].
  f_equal. rewrite <- slot_events_total.
  apply flat_map_concat_length. apply mapM_Ok_Forall2 in Hrows.
  eapply Forall2_impl; [exact Hrows|]. intros [h m] row. apply daily_slot_ops_blocks.
Qed.

Lemma weekly_event_ops_one_outline (x : Z) (j : nat) (ev : event) (cell : list draw_op) :
  weekly_event_ops x j ev = Ok cell -> length (flat_map outline_of cell) = 1%nat.
Proof.
  unfold weekly_event_ops. intros H. apply bind_Ok in H as (title & _ & [= <-]).
  reflexivity.
Qed.

Lemma weekly_day_ops_outlines (events : list event) (week_start : datetime) (i : nat)
    (day_name : string) (col : list draw_op) :
  weekly_day_ops events week_start i day_name = Ok col ->
  exists date,
    add_days week_start (Z.of_nat i) = Ok date /\
    length (flat_map outline_of col)
    = (1 + Nat.min 10 (length (events_on events date)))%nat.
Proof.
  unfold weekly_day_ops. intros H. apply bind_Ok in H as (date & Hdate & H).
  apply bind_Ok in H as (cells & Hcells & [= <-]).
  exists date. split; [exact Hdate|].
  cbn [app flat_map outline_of length]. f_equal.
  apply mapM_Ok_Forall2 in Hcells.
  rewrite (flat_map_concat_length outline_of (fun _ => 1%nat)
             (imap (fun j ev => (j, ev)) (take 10 (events_on events date))) cells).
  - rewrite list_sum_ones, length_imap, length_take. reflexivity.
  - eapply Forall2_impl; [exact Hcells|]. intros [j ev] cell.
    apply weekly_event_ops_one_outline.
Qed.

Lemma columns_outlines {X D : Type} (g : X -> result D) (h : D -> nat) (xs : list X)
    (cols : list (list draw_op)) :
  Forall2 (fun x col => exists d, g x = Ok d /\
             length (flat_map outline_of col) = (1 + h d)%nat) xs cols ->
  exists ds,
    mapM g xs = Ok ds /\
    length (flat_map outline_of (concat cols)) = (length xs + list_sum (map h ds))%nat.
Proof.
  induction 1 as [|x col xs cols (d & Hd & Hc) _ (ds & Hds & IH)].
  - exists []. split; reflexivity.
  - exists (d :: ds). split.
    + simpl. rewrite Hd. simpl. rewrite Hds. reflexivity.
    + simpl. rewrite flat_map_app, length_app, Hc, IH. lia.
Qed.

(** X11: The weekly page gets one outlined header per day and one outlined
    cell per event of the day, but at most ten cells per day: the events of
    a day beyond the tenth are not shown. *)
Theorem weekly_page_ten_per_day (p weekly : page) (events : list event)
    (week_start : datetime) :
  create_weekly_overview_page p events week_start = Ok weekly ->
  exists dates,
    mapM (fun i => add_days week_start (Z.of_nat i)) (seq 0 7) = Ok dates /\
    length (outlines weekly)
    = (length (outlines p) + 7
       + list_sum (map (fun date => Nat.min 10 (length (events_on events date))) dates))%nat.
Proof.
  unfold create_weekly_overview_page. intros H.
  apply bind_Ok in H as (week_last & _ & H).
  apply bind_Ok in H as (columns & Hcols & [= <-]).
  apply mapM_Ok_Forall2 in Hcols.
  destruct (columns_outlines
              (fun x : nat * string => add_days week_start (Z.of_nat x.1))
              (fun date => Nat.min 10 (length (events_on events date)))
              (imap (fun i day_name => (i, day_name)) days) columns)
    as (dates & Hdates & Hlen).
  { eapply Forall2_impl; [exact Hcols|]. intros [i day_name] col.
    apply weekly_day_ops_outlines. }
  exists dates. split; [exact Hdates|].
  unfold outlines, draw. cbn [ops].
  rewrite flat_map_app, length_app. cbn [flat_map outline_of app].
  rewrite Hlen. change (length (imap _ days)) with 7%nat. lia.
Qed.

End PageCounts.

Section PageCountScenarios.
#[local] Existing Instance reference_parser.

Lemma daily_page_block_count_witness :
  length (event_blocks coffee_daily)
  = (length (event_blocks (new_page 612 792))
     + length (List.filter starts_on_grid (events_on [coffee_local] monday)))%nat.
Proof.
  apply (daily_page_block_count (new_page 612 792) coffee_daily [coffee_local] monday
           "Monday" 0).
  vm_compute. reflexivity.
Defined.

Lemma weekly_page_ten_per_day_witness :
  exists dates,
    mapM (fun i => add_days monday (Z.of_nat i)) (seq 0 7) = Ok dates /\
    length (outlines coffee_weekly)
    = (length (outlines (new_page 792 612)) + 7
       + list_sum (map (fun date => Nat.min 10 (length (events_on [coffee_local] date)))
                       dates))%nat.
Proof.
  apply (weekly_page_ten_per_day (new_page 792 612) coffee_weekly [coffee_local] monday).
  vm_compute. reflexivity.
Defined.

End PageCountScenarios.

Section ApiScript.
Context {parser : IsoParser}.

(** X12: The script of the API ends with status 0 or 1.  With status 1 no
    file has changed.  With status 0 both week bounds were parsed, the loop
    ran to its end, and the file written is a single A4 page with the line
    [WEEKLY PLANNER - n Events] (n the number of events kept) and no link;
    its name is the last printed line. *)
Theorem api_main_outcome (events : list event) (ws we : string) (w : world) :
  exists status w',
    ApiExport.main events ws we w = (Ok status, w') /\
    readonly w' = readonly w /\
    ((status = 1 /\ files w' = files w)
     \/ (status = 0 /\
         exists week_start week_end week_events,
           safe_parse_datetime (VStr ws) = Some week_start /\
           safe_parse_datetime (VStr we) = Some week_end /\
           week_events_loop events week_start week_end = Ok week_events /\
           files w' = <[pdf_name week_start :=
                          PdfFile [ApiExport.summary_page (length week_events)]]> (files w) /\
           last (stdout w') = Some (pdf_name week_start))).
Proof.
  unfold ApiExport.main, try_io, mbind, io_bind, lift, print, save, ApiExport.parsed.
  cbn [readonly files stdout].
  destruct (safe_parse_datetime (VStr ws)) as [week_start|] eqn:Hws;
    [|eexists _, _; split; [reflexivity|]; split; [reflexivity|]; left; split; reflexivity].
  destruct (safe_parse_datetime (VStr we)) as [week_end|] eqn:Hwe;
    [|eexists _, _; split; [reflexivity|]; split; [reflexivity|]; left; split; reflexivity].
  cbn [readonly files stdout].
  destruct (week_events_loop events week_start week_end) as [week_events|] eqn:Hloop;
    [|eexists _, _; split; [reflexivity|]; split; [reflexivity|]; left; split; reflexivity].
  cbn [readonly files stdout].
  destruct (bool_decide _);
    [eexists _, _; split; [reflexivity|]; split; [reflexivity|]; left; split; reflexivity|].
  eexists _, _. split; [reflexivity|]. split; [reflexivity|]. right. split; [reflexivity|].
  exists week_start, week_end, week_events. cbn [readonly files stdout].
  split; [reflexivity|]. split; [reflexivity|]. split; [exact Hloop|].
  split; [reflexivity | apply last_snoc].
Qed.

(** X13: When the start time of one event carries a UTC offset and the week
    start does not (or the other way round), the unguarded comparison ends
    the script of the API: status 1, no file, the error line last;
    [filter_events_for_week] does not keep that event either. *)
Theorem api_main_mixed_awareness (events : list event) (ws we : string) (w : world)
    (week_start week_end : datetime) (ev : event) (d : datetime) :
  safe_parse_datetime (VStr ws) = Some week_start ->
  safe_parse_datetime (VStr we) = Some week_end ->
  In ev events ->
  safe_parse_datetime (get ev "startTime" (VStr "")) = Some d ->
  aware d <> aware week_start ->
  (ApiExport.main events ws we w).1 = Ok 1 /\
  files (ApiExport.main events ws we w).2 = files w /\
  last (stdout (ApiExport.main events ws we w).2) = Some "❌ Error: TypeError" /\
  ~ In ev (filter_events_for_week events week_start week_end).
Proof.
  intros Hws Hwe Hin Hd Haw.
  assert (Hstep : forall acc, week_events_step week_start week_end acc ev = Raise TypeError).
  { intros acc. unfold week_events_step. rewrite Hd. unfold dt_le.
    unfold aware in Haw. destruct (utcoffset week_start), (utcoffset d); try reflexivity;
      contradiction Haw; reflexivity. }
  assert (Hloop : week_events_loop events week_start week_end = Raise TypeError).
  { unfold week_events_loop. generalize (@nil event). clear Hws Hwe Hd Haw.
    induction events as [|ev' evs IH]; intros acc; [destruct Hin|].
    cbn [foldM]. destruct Hin as [-> | Hin].
    - rewrite Hstep. reflexivity.
    - destruct (week_events_step week_start week_end acc ev') as [acc'|e] eqn:Hs.
      + cbn [mbind result_bind]. apply IH, Hin.
      + unfold week_events_step in Hs.
        destruct (safe_parse_datetime _) as [d'|]; [|discriminate Hs].
        unfold dt_le in Hs.
        destruct (utcoffset week_start), (utcoffset d'), (utcoffset week_end);
          cbn in Hs; repeat (destruct (_ =? _) in Hs; cbn in Hs);
          repeat match type of Hs with
                 | context [if ?c then _ else _] => destruct c; cbn in Hs
                 end;
          try discriminate Hs; injection Hs as <-; reflexivity. }
  unfold ApiExport.main, try_io, mbind, io_bind, lift, print, save, ApiExport.parsed.
  rewrite Hws, Hwe. cbn [readonly files stdout]. rewrite Hloop.
  cbn [readonly files stdout fst snd exc_name].
  split; [reflexivity|]. split; [reflexivity|]. split; [apply last_snoc|].
  intros Hkept. apply kept_awareness in Hkept as (d' & Hp & Ha & _).
  unfold safe_parse_datetime in Hd.
  destruct (truthy _); [|discriminate Hd]. cbn [negb] in Hd.
  rewrite Hp in Hd. injection Hd as ->. contradiction.
Qed.

End ApiScript.

Section ApiScriptScenarios.
#[local] Existing Instance reference_parser.

Lemma api_main_mixed_awareness_witness :
  (ApiExport.main [coffee] "2025-07-14" "2025-07-20" empty_world).1 = Ok 1 /\
  files (ApiExport.main [coffee] "2025-07-14" "2025-07-20" empty_world).2
  = files empty_world /\
  last (stdout (ApiExport.main [coffee] "2025-07-14" "2025-07-20" empty_world).2)
  = Some "❌ Error: TypeError" /\
  ~ In coffee (filter_events_for_week [coffee] monday sunday).
Proof.
  apply (api_main_mixed_awareness [coffee] "2025-07-14" "2025-07-20" empty_world
           monday sunday coffee (mkdt 2025 7 14 8 0 0 0 (Some 0)));
    [reflexivity | reflexivity | left; reflexivity | reflexivity | discriminate].
Defined.

End ApiScriptScenarios.

Section Integration.

(** X14: [example_integration] never raises; it returns the output path
    exactly when the package was written, which then holds at least eight
    pages; when it returns [None] no file has changed, and that is the
    outcome whenever one of its eight input files is missing. *)
Theorem example_integration_outcome (w : world) :
  exists r w',
    IntegrationExample.example_integration w = (Ok r, w') /\
    readonly w' = readonly w /\
    (r = None -> files w' = files w) /\
    (forall path, r = Some path ->
       path = IntegrationExample.output_path /\
       exists doc, files w' = <[path := PdfFile doc]> (files w) /\
                   (8 <= length doc)%nat) /\
    ((exists name,
        In name (IntegrationExample.weekly_pdf :: IntegrationExample.daily_pdfs) /\
        files w !! name = None) -> r = None).
Proof.
  unfold IntegrationExample.example_integration, mbind, io_bind, print.
  match goal with
  | |- context [create_bidirectional_weekly_package ?a ?b ?c ?w6] =>
      destruct (create_bidirectional_weekly_package a b c w6) as [r w'] eqn:Hrun;
      apply package_builder_cases in Hrun
        as [[-> ->] | [-> (weekly_doc & daily_docs & doc & Hw & Hl & Hd & Hdoc & Hro & ->)]]
  end; cbn [readonly files stdout] in *.
  - eexists _, _. split; [reflexivity|]. cbn [readonly files stdout].
    split; [reflexivity|]. split; [reflexivity|]. split; [discriminate | reflexivity].
  - eexists _, _. split; [reflexivity|]. cbn [readonly files stdout].
    split; [reflexivity|]. split; [discriminate|]. split.
    + intros path [= <-]. split; [reflexivity|]. exists doc. split; [reflexivity|].
      destruct (wiring_needs_eight_pages_aux (weekly_doc ++ concat daily_docs)) as [H|H];
        [|rewrite Hdoc in H; discriminate H].
      apply _add_hyperlinks_to_package_body in Hdoc.
      rewrite <- (length_map body), Hdoc, length_map. exact H.
    + intros (name & [<- | Hin] & Hnone); [congruence|]. exfalso.
      apply list_elem_of_In, list_elem_of_lookup_1 in Hin as [i Hi].
      destruct (Forall2_lookup_l _ _ _ _ _ Hd Hi) as (d & _ & Hsome). congruence.
Qed.

End Integration.

Section EnhancedLayout.

Lemma forallb_seqZ (P : Z -> bool) (a n x : Z) :
  forallb P (seqZ a n) = true -> a <= x < a + n -> P x = true.
Proof.
  intros Hall Hx. rewrite forallb_forall in Hall. apply Hall.
  apply list_elem_of_In, elem_of_seqZ. exact Hx.
Qed.

(** A label of a time of day reads back as its minutes since midnight. *)
Lemma _time_to_minutes_clock (h m : Z) :
  0 <= h <= 24 -> 0 <= m < 60 ->
  _time_to_minutes (VStr (clock h m)) = Ok (h * 60 + m).
Proof.
  intros Hh Hm.
  assert (Hall : forallb
            (fun h => forallb
               (fun m => match _time_to_minutes (VStr (clock h m)) with
                         | Ok n => n =? h * 60 + m
                         | Raise _ => false
                         end) (seqZ 0 60)) (seqZ 0 25) = true)
    by (vm_compute; reflexivity).
  pose proof (forallb_seqZ _ _ _ m (forallb_seqZ _ _ _ h Hall ltac:(lia)) ltac:(lia)) as H.
  cbv beta in H. destruct (_time_to_minutes (VStr (clock h m))); [|discriminate H].
  f_equal. apply Z.eqb_eq, H.
Qed.

(** The daily offset in pixels, minute by minute over the day. *)
Lemma daily_offset_table (r : Z) :
  -360 <= r < 1080 ->
  exists top,
    scaled_height r 30 = Ok top /\
    r - 1 <= top <= r + 1 /\
    (r mod 30 = 0 -> top = r) /\
    (0 <= r -> top <= r) /\
    (forall top', scaled_height (r + 1) 30 = Ok top' -> top <= top').
Proof.
  intros Hr.
  assert (Hall : forallb
            (fun r => match scaled_height r 30, scaled_height (r + 1) 30 with
                      | Ok t, Ok t' =>
                          (r - 1 <=? t) && (t <=? r + 1)
                          && ((negb (r mod 30 =? 0)) || (t =? r))
                          && ((r <? 0) || (t <=? r))
                          && (t <=? t')
                      | _, _ => false
                      end) (seqZ (-360) 1440) = true)
    by (vm_compute; reflexivity).
  pose proof (forallb_seqZ _ _ _ r Hall ltac:(lia)) as H. cbv beta in H.
  destruct (scaled_height r 30) as [t|]; [|discriminate H].
  destruct (scaled_height (r + 1) 30) as [t'|]; [|discriminate H].
  rewrite !andb_true_iff, !orb_true_iff, negb_true_iff, !Z.leb_le, Z.ltb_lt, !Z.eqb_eq,
    Z.eqb_neq in H.
  destruct H as [[[[H1 H2] H3] H4] H5].
  exists t. split; [reflexivity|]. split; [lia|]. split; [intros; lia|].
  split; [intros; lia|]. intros ? [= <-]. lia.
Qed.

Lemma _calculate_daily_top_position_clock (ev : event) (h m : Z) :
  0 <= h < 24 -> 0 <= m < 60 ->
  get ev "startTime" (VStr "") = VStr (clock h m) ->
  Enhanced._calculate_daily_top_position ev = scaled_height (h * 60 + m - 360) 30.
Proof.
  intros Hh Hm Hs. unfold Enhanced._calculate_daily_top_position.
  rewrite Hs, _time_to_minutes_clock by lia. reflexivity.
Qed.

Lemma daily_offset_monotone (r1 r2 t1 t2 : Z) :
  -360 <= r1 -> r1 <= r2 -> r2 < 1080 ->
  scaled_height r1 30 = Ok t1 -> scaled_height r2 30 = Ok t2 -> t1 <= t2.
Proof.
  intros Hlo Hle Hhi H1 H2.
  destruct (daily_offset_table r1 ltac:(lia)) as (t1' & E1 & B1 & _ & _ & Hnext).
  destruct (daily_offset_table r2 ltac:(lia)) as (t2' & E2 & B2 & _).
  rewrite H1 in E1. injection E1 as <-. rewrite H2 in E2. injection E2 as <-.
  destruct (Z.eq_dec r1 r2) as [->|Hne].
  { rewrite H1 in H2. injection H2 as ->. lia. }
  destruct (Z.eq_dec (r1 + 1) r2) as [<-|Hne']; [apply Hnext, H2 | lia].
Qed.

(** X15: For the start times of a day, [_calculate_daily_top_position] is
    within one pixel of the minutes since 06:00 (the binary64 product is not
    always exact: 08:03 gives 122), exact on the hour and the half hour,
    negative before 06:00 (nothing is clamped to the grid), and it never
    decreases when the start time increases. *)
Theorem daily_top_position_by_minute (ev ev' : event) (h m h' m' : Z) :
  0 <= h < 24 -> 0 <= m < 60 -> 0 <= h' < 24 -> 0 <= m' < 60 ->
  get ev "startTime" (VStr "") = VStr (clock h m) ->
  get ev' "startTime" (VStr "") = VStr (clock h' m') ->
  let offset := h * 60 + m - 360 in
  exists top top',
    Enhanced._calculate_daily_top_position ev = Ok top /\
    Enhanced._calculate_daily_top_position ev' = Ok top' /\
    offset - 1 <= top <= offset + 1 /\
    (m = 0 \/ m = 30 -> top = offset) /\
    (h < 6 -> top < 0) /\
    (h * 60 + m <= h' * 60 + m' -> top <= top').
Proof.
  intros Hh Hm Hh' Hm' Hs Hs' offset.
  rewrite (_calculate_daily_top_position_clock ev h m Hh Hm Hs).
  rewrite (_calculate_daily_top_position_clock ev' h' m' Hh' Hm' Hs').
  destruct (daily_offset_table offset ltac:(unfold offset; lia))
    as (top & Ht & Hb & Hgrid & Hpos & _).
  destruct (daily_offset_table (h' * 60 + m' - 360) ltac:(lia)) as (top' & Ht' & _).
  fold offset. exists top, top'. split; [exact Ht|]. split; [exact Ht'|].
  split; [exact Hb|]. split; [|split].
  - intros Hm30. apply Hgrid. unfold offset.
    replace (h * 60 + m - 360) with (m + (h * 2 - 12) * 30) by lia.
    rewrite Z.mod_add by lia. destruct Hm30 as [-> | ->]; reflexivity.
  - intros H6.
    assert (Hall : forallb
              (fun r => match scaled_height r 30 with
                        | Ok t => t <? 0
                        | Raise _ => false
                        end) (seqZ (-360) 360) = true) by (vm_compute; reflexivity).
    pose proof (forallb_seqZ _ _ _ offset Hall ltac:(unfold offset; lia)) as H.
    cbv beta in H. rewrite Ht in H. apply Z.ltb_lt, H.
  - intros Hle. apply (daily_offset_monotone offset (h' * 60 + m' - 360));
      unfold offset; try lia; assumption.
Qed.

Lemma daily_top_position_by_minute_witness :
  let offset := 8 * 60 + 3 - 360 in
  exists top top',
    Enhanced._calculate_daily_top_position
      {[ "title" := VStr "Stand-up"; "startTime" := VStr "08:03" ]} = Ok top /\
    Enhanced._calculate_daily_top_position one_hour = Ok top' /\
    offset - 1 <= top <= offset + 1 /\
    (3 = 0 \/ 3 = 30 -> top = offset) /\
    (8 < 6 -> top < 0) /\
    (8 * 60 + 3 <= 8 * 60 + 0 -> top <= top').
Proof.
  apply (daily_top_position_by_minute
           {[ "title" := VStr "Stand-up"; "startTime" := VStr "08:03" ]} one_hour 8 3 8 0);
    [lia | lia | lia | lia | reflexivity | reflexivity].
Defined.

(** Slot number [k] of the weekly grid is the time 06:00 + 30 k minutes. *)
Lemma _generate_time_slots_minutes (k : nat) (slot : string) :
  Enhanced._generate_time_slots !! k = Some slot ->
  _time_to_minutes (VStr slot) = Ok (360 + 30 * Z.of_nat k).
Proof.
  assert (Hall : forallb
            (fun ks : nat * string =>
               match _time_to_minutes (VStr ks.2) with
               | Ok n => n =? 360 + 30 * Z.of_nat ks.1
               | Raise _ => false
               end)
            (imap (fun k slot => (k, slot)) Enhanced._generate_time_slots) = true)
    by (vm_compute; reflexivity).
  intros Hk. rewrite forallb_forall in Hall.
  specialize (Hall (k, slot)). cbn [fst snd] in Hall.
  destruct (_time_to_minutes (VStr slot)) as [n|].
  - f_equal. apply Z.eqb_eq, Hall, list_elem_of_In, elem_of_lookup_imap. eauto.
  - assert (false = true); [|discriminate].
    apply Hall, list_elem_of_In, elem_of_lookup_imap. eauto.
Qed.

Lemma listed_in_range (ev : event) (s e : Z) :
  _time_to_minutes (get ev "startTime" (VStr "")) = Ok s ->
  _time_to_minutes (get ev "endTime" (VStr "")) = Ok e ->
  listed_in ev
  = omap (fun '(k, slot) =>
            if (s <=? 360 + 30 * Z.of_nat k) && (360 + 30 * Z.of_nat k <? e)
            then Some slot else None)
         (imap (fun k slot => (k, slot)) Enhanced._generate_time_slots).
Proof.
  intros Hs He. unfold listed_in.
  assert (Hgen : forall (l : list string) (n : nat),
            (forall k slot, l !! k = Some slot ->
               _time_to_minutes (VStr slot) = Ok (360 + 30 * Z.of_nat (n + k))) ->
            List.filter (fun slot => match Enhanced._is_event_at_time ev slot with
                                     | Ok true => true
                                     | _ => false
                                     end) l
            = omap (fun '(k, slot) =>
                      if (s <=? 360 + 30 * Z.of_nat k) && (360 + 30 * Z.of_nat k <? e)
                      then Some slot else None)
                   (imap (fun k slot => ((n + k)%nat, slot)) l)).
  { induction l as [|slot l IH]; intros n Hl; [reflexivity|].
    cbn [List.filter imap omap list_omap]. unfold Enhanced._is_event_at_time at 1.
    rewrite Hs, He. cbn [mbind result_bind].
    rewrite (Hl 0%nat slot eq_refl). cbn [mbind result_bind].
    rewrite (IH (S n)).
    - replace (imap ((fun k slot0 => ((n + k)%nat, slot0)) ∘ S) l)
        with (imap (fun k slot0 => ((S n + k)%nat, slot0)) l).
      2:{ apply imap_ext. intros k x _. simpl. f_equal. lia. }
      destruct (_ && _); reflexivity.
    - intros k slot' Hk. rewrite (Hl (S k) slot' Hk). do 3 f_equal. lia. }
  apply (Hgen _ 0%nat). intros k slot. apply _generate_time_slots_minutes.
Qed.

(** X16: An event that starts on slot [a] and ends on slot [b] of the grid
    is listed in each of the [b - a] slots from its start on, the end slot
    excluded; its height is [20 (b - a)] and its offset in each of these
    slots is 0. *)
Theorem weekly_block_listed_in_every_slot (ev : event) (a b : Z) :
  0 <= a -> a <= b -> b <= 36 ->
  _time_to_minutes (get ev "startTime" (VStr "")) = Ok (360 + 30 * a) ->
  _time_to_minutes (get ev "endTime" (VStr "")) = Ok (360 + 30 * b) ->
  listed_in ev
  = take (Z.to_nat (b - a)) (drop (Z.to_nat a) Enhanced._generate_time_slots) /\
  Z.of_nat (length (listed_in ev)) = b - a /\
  Enhanced._calculate_event_height ev = Ok (20 * (b - a)) /\
  Forall (fun slot => Enhanced._calculate_top_offset ev slot = Ok 0) (listed_in ev).
Proof.
  intros Ha Hab Hb Hs He.
  assert (Hlist : listed_in ev
                  = take (Z.to_nat (b - a)) (drop (Z.to_nat a) Enhanced._generate_time_slots)).
  { rewrite (listed_in_range ev _ _ Hs He).
    assert (Hall : forallb
              (fun a => forallb
                 (fun b =>
                    bool_decide
                      (omap (fun '(k, slot) =>
                               if (360 + 30 * a <=? 360 + 30 * Z.of_nat k)
                                  && (360 + 30 * Z.of_nat k <? 360 + 30 * b)
                               then Some slot else None)
                            (imap (fun k slot => (k, slot)) Enhanced._generate_time_slots)
                       = take (Z.to_nat (b - a))
                              (drop (Z.to_nat a) Enhanced._generate_time_slots)))
                 (seqZ a (37 - a))) (seqZ 0 37) = true) by (vm_compute; reflexivity).
    pose proof (forallb_seqZ _ _ _ b (forallb_seqZ _ _ _ a Hall ltac:(lia)) ltac:(lia)) as H.
    cbv beta in H. apply bool_decide_eq_true in H. exact H. }
  split; [exact Hlist|]. split.
  - rewrite Hlist, length_take, length_drop.
    change (length Enhanced._generate_time_slots) with 36%nat. lia.
  - split.
    + unfold Enhanced._calculate_event_height. rewrite He, Hs. cbn [mbind result_bind].
      replace (360 + 30 * b - (360 + 30 * a)) with (30 * (b - a)) by lia.
      assert (Hall : forallb
                (fun k => match scaled_height (30 * k) 20 with
                          | Ok h => h =? 20 * k
                          | Raise _ => false
                          end) (seqZ 0 37) = true) by (vm_compute; reflexivity).
      pose proof (forallb_seqZ _ _ _ (b - a) Hall ltac:(lia)) as H. cbv beta in H.
      destruct (scaled_height (30 * (b - a)) 20); [|discriminate H].
      f_equal. apply Z.eqb_eq, H.
    + apply Forall_forall. intros slot Hin. unfold listed_in in Hin.
      apply list_elem_of_In, filter_In in Hin as [Hin _].
      apply list_elem_of_In, list_elem_of_lookup_1 in Hin as [k Hk].
      unfold Enhanced._calculate_top_offset.
      rewrite Hs, (_generate_time_slots_minutes k slot Hk). cbn [mbind result_bind].
      destruct (_ =? _); reflexivity.
Qed.

Lemma weekly_block_listed_in_every_slot_witness :
  listed_in one_hour
  = take (Z.to_nat (6 - 4)) (drop (Z.to_nat 4) Enhanced._generate_time_slots) /\
  Z.of_nat (length (listed_in one_hour)) = 6 - 4 /\
  Enhanced._calculate_event_height one_hour = Ok (20 * (6 - 4)) /\
  Forall (fun slot => Enhanced._calculate_top_offset one_hour slot = Ok 0)
         (listed_in one_hour).
Proof.
  apply (weekly_block_listed_in_every_slot one_hour 4 6);
    [lia | lia | lia | reflexivity | reflexivity].
Defined.

End EnhancedLayout.

Section EnhancedEdges.




(** X18: The day navigation of [_process_daily_data] is a cycle: every day
    has a previous and a next day, the previous day of Monday is Sunday and
    the next day of Sunday is Monday, and next undoes previous; a name that
    is no day is treated as Monday. *)
Theorem day_navigation_wraps (day_name : string) :
  exists prev next today,
    Enhanced.prev_day day_name = Ok prev /\
    Enhanced.next_day day_name = Ok next /\
    Enhanced.day_names !! Enhanced.day_index day_name = Some today /\
    (In day_name Enhanced.day_names -> today = day_name) /\
    (~ In day_name Enhanced.day_names -> today = "monday") /\
    Enhanced.next_day prev = Ok today /\
    Enhanced.prev_day next = Ok today /\
    (today = "monday" -> prev = "sunday") /\
    (today = "sunday" -> next = "monday").
Proof.
  unfold Enhanced.prev_day, Enhanced.next_day, Enhanced.day_index, Enhanced.day_names.
  cbn [Enhanced.index_of].
  repeat match goal with
         | |- context [String.eqb ?a day_name] =>
             destruct (String.eqb_spec a day_name) as [<- | ?]
         end;
    do 3 eexists; cbn;
    (split; [reflexivity|]); (split; [reflexivity|]); (split; [reflexivity|]);
    (split; [intros; first [reflexivity | intuition congruence]|]);
    (split; [intros Hnot; first [reflexivity | exfalso; apply Hnot; simpl; auto 10]|]);
    (split; [reflexivity|]); (split; [reflexivity|]);
    split; intros; first [reflexivity | discriminate].
Qed.

End EnhancedEdges.

Section PositionAudit.

Lemma check_appointment_loop (entries : list (string * Audit.appointment_spec))
    (issues : list Audit.issue) (n : Z) :
  Forall (fun entry => is_ok (calculate_expected_position (Audit.start entry.2)) = true)
         entries ->
  exists new,
    foldM Audit.check_appointment (issues, n) entries
    = Ok (issues ++ new, n + Z.of_nat (length new)) /\
    length new = length (List.filter misplaced entries) /\
    Forall (fun i => Audit.severity i = -25
                     /\ Audit.category i = "appointment_positioning") new /\
    map Audit.appointment new = map fst (List.filter misplaced entries).
Proof.
  intros Hok. revert issues n.
  induction Hok as [|[name specs] entries Hentry _ IH]; intros issues n.
  - exists []. rewrite app_nil_r, Z.add_0_r. repeat split; constructor.
  - cbn [snd] in Hentry.
    destruct (calculate_expected_position (Audit.start specs)) as [top|] eqn:Htop;
      [|discriminate Hentry].
    assert (Hmis : misplaced (name, specs) = negb (top =? Audit.expected_top specs)).
    { unfold misplaced. cbn [snd]. rewrite Htop. reflexivity. }
    assert (Hstep : Audit.check_appointment (issues, n) (name, specs)
                    = if negb (top =? Audit.expected_top specs)
                      then Ok (issues ++ [Audit.Issue "CRITICAL" "appointment_positioning"
                                            name (Audit.start specs)
                                            (Audit.expected_top specs) top (-25)],
                               n + 1)
                      else Ok (issues, n)).
    { unfold Audit.check_appointment. rewrite Htop. reflexivity. }
    change (foldM Audit.check_appointment (issues, n) ((name, specs) :: entries))
      with (Audit.check_appointment (issues, n) (name, specs)
            ≫= (fun st => foldM Audit.check_appointment st entries)).
    rewrite Hstep. cbn [List.filter]. rewrite Hmis.
    destruct (negb (top =? Audit.expected_top specs)); cbn [mbind result_bind].
    + destruct (IH (issues ++ [Audit.Issue "CRITICAL" "appointment_positioning" name
                                 (Audit.start specs) (Audit.expected_top specs) top (-25)])
                   (n + 1))
        as (new & Hrun & Hlen & Hall & Hnames).
      eexists (_ :: new). rewrite Hrun, <- app_assoc.
      split; [f_equal; f_equal; simpl; lia|].
      split; [simpl; rewrite Hlen; reflexivity|].
      split; [constructor; [split; reflexivity | exact Hall]|].
      simpl. rewrite Hnames. reflexivity.
    + apply IH.
Qed.

Lemma sum_from (a : Z) (l : list Z) : fold_right Z.add a l = fold_right Z.add 0 l + a.
Proof. induction l as [|x l IH]; simpl; [reflexivity|]. rewrite IH. lia. Qed.

Lemma positioning_severity_new (new : list Audit.issue) :
  Forall (fun i => Audit.severity i = -25
                   /\ Audit.category i = "appointment_positioning") new ->
  Audit.positioning_severity new = - 25 * Z.of_nat (length new).
Proof.
  unfold Audit.positioning_severity.
  induction 1 as [|i new [Hs Hc] _ IH]; [reflexivity|].
  assert (Hkeep : List.filter
                    (fun i => String.eqb (Audit.category i) "appointment_positioning")
                    (i :: new)
                  = i :: List.filter
                           (fun i => String.eqb (Audit.category i) "appointment_positioning")
                           new).
  { change (List.filter ?f (i :: new))
      with (if f i then i :: List.filter f new else List.filter f new).
    cbv beta. rewrite Hc, String.eqb_refl. reflexivity. }
  rewrite Hkeep.
  change (fold_right Z.add 0 (map Audit.severity (i :: ?l)))
    with (Audit.severity i + fold_right Z.add 0 (map Audit.severity l)).
  rewrite Hs, IH. cbn [length]. lia.
Qed.

Lemma positioning_severity_app (old new : list Audit.issue) :
  Forall (fun i => Audit.severity i = -25
                   /\ Audit.category i = "appointment_positioning") new ->
  Audit.positioning_severity (old ++ new)
  = Audit.positioning_severity old - 25 * Z.of_nat (length new).
Proof.
  intros Hnew. pose proof (positioning_severity_new new Hnew) as Hn.
  unfold Audit.positioning_severity in *.
  rewrite List.filter_app, List.map_app, fold_right_app, sum_from, Hn. lia.
Qed.

(** X19: [audit_appointment_positioning] appends one issue of severity -25
    for every entry whose expected position differs from the computed one,
    in the order of the table.  With none the score is unchanged; otherwise
    the score drops by 25 for each new issue and also by the severities of
    the positioning issues that were there before.  On the reference table
    of the class no issue is found. *)
Theorem audit_scores_misplaced_appointments (self : Audit.auditor) :
  Forall (fun entry => is_ok (calculate_expected_position (Audit.start entry.2)) = true)
         (Audit.appointments self) ->
  exists new,
    Audit.audit_appointment_positioning self
    = Ok (Audit.Auditor
            (match new with
             | [] => Audit.score self
             | _ :: _ =>
                 Audit.score self + Audit.positioning_severity (Audit.issues self)
                 - 25 * Z.of_nat (length new)
             end)
            (Audit.issues self ++ new) (Audit.appointments self)) /\
    map Audit.appointment new
    = map fst (List.filter misplaced (Audit.appointments self)) /\
    Forall (fun i => Audit.severity i = -25) new /\
    (self = Audit.init -> new = []).
Proof.
  intros Hok.
  destruct (check_appointment_loop _ (Audit.issues self) 0 Hok)
    as (new & Hrun & Hlen & Hall & Hnames).
  exists new. split; [|split; [exact Hnames|split]].
  - unfold Audit.audit_appointment_positioning. rewrite Hrun. cbn [mbind result_bind].
    destruct new as [|i new'].
    + reflexivity.
    + replace (0 + Z.of_nat (length (i :: new')) =? 0) with false
        by (symmetry; apply Z.eqb_neq; cbn [length]; lia).
      rewrite positioning_severity_app by exact Hall. do 2 f_equal. lia.
  - eapply Forall_impl; [exact Hall|]. intros i [Hs _]. exact Hs.
  - intros ->. destruct new as [|i new']; [reflexivity|].
    apply (f_equal (@length _)) in Hnames. discriminate Hnames.
Qed.

Lemma audit_scores_misplaced_appointments_witness :
  exists new,
    Audit.audit_appointment_positioning Audit.init
    = Ok (Audit.Auditor
            (match new with
             | [] => Audit.score Audit.init
             | _ :: _ =>
                 Audit.score Audit.init
                 + Audit.positioning_severity (Audit.issues Audit.init)
                 - 25 * Z.of_nat (length new)
             end)
            (Audit.issues Audit.init ++ new) (Audit.appointments Audit.init)) /\
    map Audit.appointment new
    = map fst (List.filter misplaced (Audit.appointments Audit.init)) /\
    Forall (fun i => Audit.severity i = -25) new /\
    (Audit.init = Audit.init -> new = []).
Proof.
  apply (audit_scores_misplaced_appointments Audit.init).
  unfold Audit.init, Audit.reference_appointments. cbn [Audit.appointments].
  repeat (constructor; [reflexivity|]). constructor.
Defined.

End PositionAudit.

Section Planner.
Import DailyPlanner.

Lemma time_slots_loop_more_fuel (fuel extra : nat) (current_time end_time : Z)
    (slots : list string) (r : result (list string)) :
  time_slots_loop fuel current_time end_time slots = Some r ->
  time_slots_loop (fuel + extra) current_time end_time slots = Some r.
Proof.
  revert current_time slots. induction fuel as [|fuel IH]; intros t slots; [discriminate|].
  simpl. destruct (t <=? end_time); [|auto].
  destruct (add_minutes t 30); [apply IH | auto].
Qed.

(** X20: The loop of [generate_time_slots] ends after 36 iterations (its
    condition is evaluated 37 times) and yields the labels 06:00, 06:30,
    ..., 23:30: the same list as [_generate_time_slots] of the enhanced
    generator. *)
Theorem generate_time_slots_run (fuel : nat) :
  generate_time_slots fuel
  = if (37 <=? fuel)%nat then Some (Ok Enhanced._generate_time_slots) else None.
Proof.
  destruct (37 <=? fuel)%nat eqn:Hfuel.
  - apply Nat.leb_le in Hfuel.
    replace fuel with (37 + (fuel - 37))%nat by lia.
    unfold generate_time_slots.
    change (strptime_H_M "06:00") with (@Ok Z 360).
    change (strptime_H_M "23:30") with (@Ok Z 1410).
    apply time_slots_loop_more_fuel. vm_compute. reflexivity.
  - apply Nat.leb_gt in Hfuel.
    assert (Hall : forallb (fun n => bool_decide (generate_time_slots n = None)) (seq 0 37)
                   = true) by (vm_compute; reflexivity).
    rewrite forallb_forall in Hall.
    pose proof (Hall fuel ltac:(apply in_seq; lia)) as H.
    apply bool_decide_eq_true in H. exact H.
Qed.

Lemma one_or_two_digits_range (s : string) (hi n : Z) :
  9 <= hi -> one_or_two_digits s hi = Some n -> 0 <= n <= hi.
Proof.
  assert (Hd : forall c d, digit_of c = Some d -> 0 <= d <= 9).
  { intros c d. unfold digit_of. destruct (_ && _) eqn:Hc; [|discriminate].
    intros [= <-]. apply andb_true_iff in Hc as [H1 H2].
    apply Nat.leb_le in H1, H2. lia. }
  intros Hhi. unfold one_or_two_digits.
  destruct s as [|c [|c' [|? ?]]]; try discriminate.
  - intros H. apply Hd in H. lia.
  - destruct (digit_of c) as [d|] eqn:H1; [|discriminate].
    destruct (digit_of c') as [d'|] eqn:H2; [|discriminate]. cbn.
    destruct (d * 10 + d' <=? hi) eqn:Hle; [|discriminate].
    intros [= <-]. apply Z.leb_le in Hle. apply Hd in H1, H2. lia.
Qed.

Lemma strptime_H_M_range (s : string) (t : Z) :
  strptime_H_M s = Ok t -> 0 <= t < 1440.
Proof.
  unfold strptime_H_M. destruct (split ":" s) as [|hs [|ms [|? ?]]]; try discriminate.
  destruct (one_or_two_digits hs 23) as [h|] eqn:Hh; [|discriminate].
  destruct (one_or_two_digits ms 59) as [m|] eqn:Hm; [|discriminate].
  intros [= <-]. apply one_or_two_digits_range in Hh, Hm; lia.
Qed.

Section WithSlots.
Variable time_slots : list string.

Lemma occupy_loop_S (fuel : nat) (t stop : Z) (occupied : gset string) :
  occupy_loop time_slots (S fuel) t stop occupied
  = if t <? stop then
      match add_minutes t 30 with
      | Ok next =>
          occupy_loop time_slots fuel next stop
            (if bool_decide (format_H_M t ∈ time_slots)
             then {[ format_H_M t ]} ∪ occupied else occupied)
      | Raise e => Some (Raise e)
      end
    else Some (Ok occupied).
Proof. reflexivity. Qed.

Lemma occupy_loop_run (n : nat) (t stop : Z) (occupied : gset string) :
  MIN_MINUTE <= t -> stop + 30 <= MAX_MINUTE -> stop - t <= 30 * Z.of_nat n ->
  exists occupied',
    occupy_loop time_slots (S n) t stop occupied = Some (Ok occupied') /\
    forall x, x ∈ occupied' <->
              x ∈ occupied
              \/ (x ∈ time_slots /\
                  exists k, 0 <= k /\ t + 30 * k < stop /\ x = format_H_M (t + 30 * k)).
Proof.
  revert t occupied. induction n as [|n IH]; intros t occupied Hlo Hhi Hfuel.
  - exists occupied. rewrite occupy_loop_S.
    replace (t <? stop) with false by (symmetry; apply Z.ltb_ge; lia).
    split; [reflexivity|]. intros x. split; [auto|].
    intros [H | (_ & k & Hk & Hlt & _)]; [exact H | lia].
  - rewrite occupy_loop_S. destruct (t <? stop) eqn:Hlt.
    + apply Z.ltb_lt in Hlt. unfold add_minutes.
      replace ((MIN_MINUTE <=? t + 30) && (t + 30 <=? MAX_MINUTE)) with true
        by (symmetry; apply andb_true_iff; split; [apply Z.leb_le | apply Z.leb_le]; lia).
      match goal with
      | |- context [occupy_loop _ _ _ _ ?occ1] =>
          destruct (IH (t + 30) occ1) as (occupied' & Hrun & Hin); [lia | lia | lia |]
      end.
      exists occupied'. split; [exact Hrun|]. intros x. rewrite Hin. split.
      * intros [H | (Hx & k & Hk & Hk' & ->)].
        -- destruct (bool_decide (format_H_M t ∈ time_slots)) eqn:Ht; [|auto].
           apply elem_of_union in H as [H | H]; [|auto].
           apply elem_of_singleton in H as ->. right.
           split; [apply bool_decide_eq_true in Ht; exact Ht|].
           exists 0. replace (t + 30 * 0) with t by lia. split; [lia|]. split; [lia|reflexivity].
        -- right. split; [exact Hx|]. exists (k + 1).
           replace (t + 30 * (k + 1)) with (t + 30 + 30 * k) by lia.
           split; [lia|]. split; [lia | reflexivity].
      * intros [H | (Hx & k & Hk & Hk' & ->)].
        -- left. destruct (bool_decide (format_H_M t ∈ time_slots)); [|exact H].
           apply elem_of_union. auto.
        -- destruct (Z.eq_dec k 0) as [-> | Hne].
           ++ left. replace (t + 30 * 0) with t in * by lia.
              rewrite bool_decide_eq_true_2 by exact Hx.
              apply elem_of_union. left. apply elem_of_singleton. reflexivity.
           ++ right. split; [exact Hx|]. exists (k - 1).
              replace (t + 30 + 30 * (k - 1)) with (t + 30 * k) by lia.
              split; [lia|]. split; [lia | reflexivity].
    + exists occupied. split; [reflexivity|]. apply Z.ltb_ge in Hlt.
      intros x. split; [auto|].
      intros [H | (_ & k & Hk & Hk' & _)]; [exact H | lia].
Qed.

Lemma occupy_run (fuel : nat) (occupied : gset string) (apt : parsed_appointment) :
  schedulable fuel apt ->
  exists occupied',
    occupy time_slots fuel occupied apt = Some (Ok occupied') /\
    forall x, x ∈ occupied' <-> x ∈ occupied \/ (x ∈ time_slots /\ x ∈ covered_labels apt).
Proof.
  intros (Hstart & Hmin & Hmax & Hfuel & Hd). unfold occupy, covered_labels.
  destruct (strptime_H_M (p_start_time apt)) as [start|] eqn:Hs; [|discriminate Hstart].
  pose proof (strptime_H_M_range _ _ Hs) as Hrange.
  assert (Hmin' : MIN_MINUTE <= 0) by (vm_compute; discriminate).
  unfold add_minutes.
  replace ((MIN_MINUTE <=? start + p_duration_minutes apt)
           && (start + p_duration_minutes apt <=? MAX_MINUTE)) with true
    by (symmetry; apply andb_true_iff; split; apply Z.leb_le; lia).
  destruct fuel as [|n]; [lia|].
  destruct (occupy_loop_run n start (start + p_duration_minutes apt) occupied)
    as (occupied' & Hrun & Hin); [lia | lia | lia |].
  exists occupied'. split; [exact Hrun|]. intros x. rewrite Hin.
  apply or_iff_compat_l, and_iff_compat_l. rewrite list_elem_of_fmap. split.
  - intros (k & Hk & Hlt & ->). exists k. split; [reflexivity|].
    apply elem_of_seqZ. split; [lia|]. Z.div_mod_to_equations. lia.
  - intros (k & -> & Hk). apply elem_of_seqZ in Hk. exists k.
    split; [lia|]. split; [|reflexivity]. Z.div_mod_to_equations. lia.
Qed.

Lemma occupy_all_run (fuel : nat) (appointments : list parsed_appointment)
    (occupied : gset string) :
  Forall (schedulable fuel) appointments ->
  exists occupied',
    occupy_all time_slots fuel occupied appointments = Some (Ok occupied') /\
    forall x, x ∈ occupied' <->
              x ∈ occupied \/ (x ∈ time_slots /\ x ∈ appointments ≫= covered_labels).
Proof.
  intros Hall. revert occupied.
  induction Hall as [|apt rest Hapt _ IH]; intros occupied.
  - exists occupied. split; [reflexivity|]. intros x. split; [auto|].
    intros [H | [_ H]]; [exact H|]. apply elem_of_nil in H. destruct H.
  - cbn [occupy_all].
    destruct (occupy_run fuel occupied apt Hapt) as (occ1 & -> & H1).
    destruct (IH occ1) as (occupied' & -> & H2).
    exists occupied'. split; [reflexivity|]. intros x. rewrite H2, H1.
    change ((apt :: rest) ≫= covered_labels)
      with (covered_labels apt ++ (rest ≫= covered_labels)).
    rewrite elem_of_app. tauto.
Qed.

(** The free slots are the slots that no appointment covers. *)
Lemma calculate_free_time_run (fuel : nat) (appointments : list parsed_appointment) :
  Forall (schedulable fuel) appointments ->
  calculate_free_time time_slots fuel appointments
  = Some (Ok (List.filter
                (fun slot => negb (bool_decide (slot ∈ appointments ≫= covered_labels)))
                time_slots)).
Proof.
  intros Hall. unfold calculate_free_time.
  destruct (occupy_all_run fuel appointments ∅ Hall) as (occupied & -> & Hin).
  do 2 f_equal. apply filter_ext_in. intros slot Hslot. f_equal.
  apply bool_decide_ext. rewrite Hin. split.
  - intros [H | [_ H]]; [|exact H]. apply elem_of_empty in H. destruct H.
  - intros H. right. split; [apply list_elem_of_In, Hslot | exact H].
Qed.

End WithSlots.

(** X21: [calculate_free_time] returns the time slots, in their order, that
    no appointment covers, where an appointment covers the label of its
    start time and of every 30 minutes after it before its end. *)
Theorem free_time_is_what_no_appointment_covers (time_slots : list string) (fuel : nat)
    (appointments : list parsed_appointment) :
  Forall (schedulable fuel) appointments ->
  exists free,
    calculate_free_time time_slots fuel appointments = Some (Ok free) /\
    sublist free time_slots /\
    (forall slot, slot ∈ free <->
       slot ∈ time_slots /\
       ~ exists apt start k,
           apt ∈ appointments /\
           strptime_H_M (p_start_time apt) = Ok start /\
           0 <= k /\ 30 * k < p_duration_minutes apt /\
           slot = format_H_M (start + 30 * k)).
Proof.
  intros Hall. eexists. split; [apply calculate_free_time_run, Hall|]. split.
  - generalize time_slots. intros l. induction l as [|x l IH]; simpl; [constructor|].
    destruct (negb _); [apply sublist_skip | apply sublist_cons]; exact IH.
  - intros slot. rewrite list_elem_of_In, filter_In, <- list_elem_of_In.
    apply and_iff_compat_l. rewrite negb_true_iff, bool_decide_eq_false.
    apply not_iff_compat. rewrite list_elem_of_bind. split.
    + intros (apt & Hslot & Hapt). unfold covered_labels in Hslot.
      destruct (strptime_H_M (p_start_time apt)) as [start|] eqn:Hs;
        [|apply elem_of_nil in Hslot; destruct Hslot].
      apply list_elem_of_fmap in Hslot as (k & -> & Hk). apply elem_of_seqZ in Hk.
      exists apt, start, k. split; [exact Hapt|]. split; [exact Hs|].
      split; [lia|]. split; [|reflexivity]. Z.div_mod_to_equations. lia.
    + intros (apt & start & k & Hapt & Hs & Hk & Hlt & ->).
      exists apt. split; [|exact Hapt]. unfold covered_labels. rewrite Hs.
      apply list_elem_of_fmap. exists k. split; [reflexivity|].
      apply elem_of_seqZ. split; [lia|]. Z.div_mod_to_equations. lia.
Qed.

End Planner.

Section PlannerSlots.
Import DailyPlanner.

Lemma filter_all {A : Type} (f : A -> bool) (l : list A) :
  (forall x, In x l -> f x = true) -> List.filter f l = l.
Proof.
  induction l as [|x l IH]; intros H; [reflexivity|].
  simpl. rewrite (H x (or_introl eq_refl)), IH; [reflexivity|].
  intros y Hy. apply H. right. exact Hy.
Qed.

(** The labels of the grid are those of the half hours from 06:00 on. *)
Lemma format_H_M_on_grid (t : Z) :
  format_H_M t ∈ Enhanced._generate_time_slots <-> 360 <= t mod 1440 /\ t mod 30 = 0.
Proof.
  assert (Hrange : 0 <= t mod 1440 < 0 + 1440)
    by (pose proof (Z.mod_pos_bound t 1440); lia).
  assert (Hmod60 : t mod 1440 mod 60 = t mod 60).
  { apply Z.mod_mod_divide. exists 24. reflexivity. }
  assert (Hmod30 : t mod 1440 mod 30 = t mod 30).
  { apply Z.mod_mod_divide. exists 48. reflexivity. }
  assert (Hu : format_H_M t = format_H_M (t mod 1440)).
  { unfold format_H_M. rewrite Z.mod_mod by lia. rewrite Hmod60. reflexivity. }
  assert (Hall : forallb
            (fun u => Bool.eqb (bool_decide (format_H_M u ∈ Enhanced._generate_time_slots))
                               ((360 <=? u) && (u mod 30 =? 0)))
            (seqZ 0 1440) = true) by (vm_compute; reflexivity).
  pose proof (forallb_seqZ _ _ _ (t mod 1440) Hall Hrange) as H. clear Hall.
  cbv beta in H. apply Bool.eqb_prop in H. rewrite Hu.
  rewrite <- (bool_decide_eq_true (format_H_M (t mod 1440) ∈ _)), H.
  rewrite andb_true_iff, Z.leb_le, Z.eqb_eq, Hmod30. reflexivity.
Qed.

(** X22: Appointments that do not start on the hour or the half hour block
    no slot: all 36 slots are reported free. *)
Theorem off_grid_appointments_block_nothing (fuel : nat)
    (appointments : list parsed_appointment) :
  Forall (schedulable fuel) appointments ->
  Forall off_the_half_hour appointments ->
  calculate_free_time Enhanced._generate_time_slots fuel appointments
  = Some (Ok Enhanced._generate_time_slots).
Proof.
  intros Hall Hoff. rewrite (calculate_free_time_run _ _ _ Hall). do 2 f_equal.
  apply filter_all. intros slot Hslot. apply negb_true_iff, bool_decide_eq_false.
  intros Hcov. apply list_elem_of_bind in Hcov as (apt & Hcov & Hapt).
  rewrite Forall_forall in Hoff. destruct (Hoff apt Hapt) as (start & Hs & Hmod).
  unfold covered_labels in Hcov. rewrite Hs in Hcov.
  apply list_elem_of_fmap in Hcov as (k & -> & _).
  apply list_elem_of_In, format_H_M_on_grid in Hslot as [_ Hgrid].
  apply Hmod. replace (start + 30 * k) with (start + k * 30) in Hgrid by lia.
  rewrite Z.mod_add in Hgrid by lia. exact Hgrid.
Qed.

(** X23: An appointment that starts on slot [i] of the grid blocks the slots
    from [i] on, its duration rounded up to whole slots;
    [get_appointment_height] rounds down instead, so an appointment of more
    than 30 minutes that does not end on a slot boundary is drawn one slot
    shorter than the time it blocks. *)
Theorem appointment_blocks_rounded_up (fuel : nat) (apt : parsed_appointment) (i : Z) :
  0 <= i < 36 ->
  strptime_H_M (p_start_time apt) = Ok (360 + 30 * i) ->
  0 < p_duration_minutes apt <= 30 * (36 - i) ->
  (0 < fuel)%nat ->
  p_duration_minutes apt <= 30 * (Z.of_nat fuel - 1) ->
  let d := p_duration_minutes apt in
  let blocked := (d + 29) / 30 in
  calculate_free_time Enhanced._generate_time_slots fuel [apt]
  = Some (Ok (take (Z.to_nat i) Enhanced._generate_time_slots
              ++ drop (Z.to_nat (i + blocked)) Enhanced._generate_time_slots)) /\
  get_appointment_height d
  = 40 * (if (d mod 30 =? 0) || (d <? 30) then blocked else blocked - 1).
Proof.
  intros Hi Hs Hd Hfuel Hfuel' d blocked.
  assert (Hb : 1 <= blocked < 1 + (36 - i)).
  { unfold blocked. fold d in Hd. clear - Hd Hi. split.
    - apply Z.div_le_lower_bound; lia.
    - apply Z.div_lt_upper_bound; lia. }
  split.
  - assert (Hmin : MIN_MINUTE <= 0) by (vm_compute; discriminate).
    assert (Hmax : 3000 <= MAX_MINUTE) by (vm_compute; discriminate).
    rewrite calculate_free_time_run.
    2:{ constructor; [|constructor]. unfold schedulable. rewrite Hs.
        split; [reflexivity|]. fold d. lia. }
    do 2 f_equal.
    change ([apt] ≫= covered_labels) with (covered_labels apt ++ []).
    rewrite app_nil_r. unfold covered_labels. rewrite Hs. fold d. fold blocked.
    clear - Hi Hb.
    assert (Hall : forallb
              (fun i => forallb
                 (fun c =>
                    bool_decide
                      (List.filter
                         (fun slot =>
                            negb (bool_decide
                                    (slot ∈ (fun k => format_H_M (360 + 30 * i + 30 * k))
                                            <$> seqZ 0 c)))
                         Enhanced._generate_time_slots
                       = take (Z.to_nat i) Enhanced._generate_time_slots
                         ++ drop (Z.to_nat (i + c)) Enhanced._generate_time_slots))
                 (seqZ 1 (36 - i))) (seqZ 0 36) = true) by (vm_compute; reflexivity).
    assert (Hi' : 0 <= i < 0 + 36) by lia.
    pose proof (forallb_seqZ _ _ _ blocked (forallb_seqZ _ _ _ i Hall Hi') Hb) as H.
    clear Hall. cbv beta in H. apply bool_decide_eq_true in H. exact H.
  - unfold get_appointment_height. fold d in Hd.
    assert (Hdiv : d = 30 * (d / 30) + d mod 30) by (apply Z.div_mod; lia).
    assert (Hrem : 0 <= d mod 30 < 30) by (apply Z.mod_pos_bound; lia).
    assert (Hq : 0 <= d / 30) by (apply Z.div_pos; lia).
    assert (Hblocked : blocked = if d mod 30 =? 0 then d / 30 else d / 30 + 1).
    { unfold blocked. destruct (d mod 30 =? 0) eqn:Hmod.
      - apply Z.eqb_eq in Hmod.
        replace (d + 29) with (29 + d / 30 * 30) by lia.
        rewrite Z.div_add by lia. reflexivity.
      - apply Z.eqb_neq in Hmod.
        replace (d + 29) with (d mod 30 - 1 + (d / 30 + 1) * 30) by lia.
        rewrite Z.div_add by lia. rewrite Z.div_small by lia. reflexivity. }
    rewrite Hblocked. clear Hblocked Hb.
    destruct (d mod 30 =? 0) eqn:Hmod; [apply Z.eqb_eq in Hmod | apply Z.eqb_neq in Hmod];
      destruct (d <? 30) eqn:Hlt; [apply Z.ltb_lt in Hlt | apply Z.ltb_ge in Hlt
                                  | apply Z.ltb_lt in Hlt | apply Z.ltb_ge in Hlt];
      cbn [orb]; lia.
Qed.

Lemma strptime_H_M_clock (h m : Z) :
  0 <= h < 24 -> 0 <= m < 60 -> strptime_H_M (clock h m) = Ok (h * 60 + m).
Proof.
  intros Hh Hm.
  assert (Hall : forallb
            (fun h => forallb
               (fun m => match strptime_H_M (clock h m) with
                         | Ok n => n =? h * 60 + m
                         | Raise _ => false
                         end) (seqZ 0 60)) (seqZ 0 24) = true)
    by (vm_compute; reflexivity).
  pose proof (forallb_seqZ _ _ _ m (forallb_seqZ _ _ _ h Hall ltac:(lia)) ltac:(lia)) as H.
  cbv beta in H. destruct (strptime_H_M (clock h m)); [|discriminate H].
  f_equal. apply Z.eqb_eq, H.
Qed.

Lemma minutes_between_day (a b : Z) :
  -1440 < b - a < 1440 -> minutes_between a b = Ok (b - a).
Proof.
  intros Hd. unfold minutes_between.
  assert (Hall : forallb
            (fun d => match Z_of_float (PrimFloat.div (float_of_Z (d * 60)) (float_of_Z 60)) with
                      | Some n => n =? d
                      | None => false
                      end) (seqZ (-1439) 2879) = true) by (vm_compute; reflexivity).
  pose proof (forallb_seqZ _ _ _ (b - a) Hall ltac:(lia)) as H. cbv beta in H.
  destruct (Z_of_float _); [|discriminate H]. f_equal. apply Z.eqb_eq, H.
Qed.

(** X24: [parse_appointments] keeps a given duration and otherwise fills in
    the minutes from the start to the end; the status defaults to scheduled.
    An appointment that ends before it starts gets a negative duration: it
    covers no slot, and is still drawn at least 40 px high. *)
Theorem parse_appointment_fills_duration (apt : appointment) (h m h' m' : Z) :
  0 <= h < 24 -> 0 <= m < 60 -> 0 <= h' < 24 -> 0 <= m' < 60 ->
  start_time apt = clock h m -> end_time apt = clock h' m' ->
  exists parsed,
    parse_appointment apt = Ok parsed /\
    p_duration_minutes parsed
    = match duration_minutes apt with
      | Some d => d
      | None => (h' * 60 + m') - (h * 60 + m)
      end /\
    p_status parsed = match status apt with Some s => s | None => "scheduled" end /\
    p_start_time parsed = start_time apt /\
    40 <= get_appointment_height (p_duration_minutes parsed) /\
    (duration_minutes apt = None -> h' * 60 + m' <= h * 60 + m ->
     covered_labels parsed = []).
Proof.
  intros Hh Hm Hh' Hm' Hs He. unfold parse_appointment. rewrite Hs, He.
  destruct (duration_minutes apt) as [d|].
  - eexists. split; [reflexivity|]. cbn [p_duration_minutes p_status p_start_time].
    split; [reflexivity|]. split; [destruct (status apt); reflexivity|].
    split; [reflexivity|]. split; [unfold get_appointment_height; lia | discriminate].
  - rewrite !strptime_H_M_clock by lia. cbn [mbind result_bind].
    rewrite minutes_between_day by lia. cbn [mbind result_bind].
    eexists. split; [reflexivity|]. cbn [p_duration_minutes p_status p_start_time].
    split; [reflexivity|]. split; [destruct (status apt); reflexivity|].
    split; [reflexivity|]. split; [unfold get_appointment_height; lia|].
    intros _ Hle. unfold covered_labels. cbn [p_duration_minutes p_start_time].
    rewrite strptime_H_M_clock by lia.
    rewrite seqZ_nil; [reflexivity|].
    apply Z.lt_succ_r, Z.div_lt_upper_bound; lia.
Qed.

End PlannerSlots.

Section PlannerScenarios.
Import DailyPlanner.

Lemma free_time_is_what_no_appointment_covers_witness :
  exists free,
    calculate_free_time Enhanced._generate_time_slots 3
      [Parsed "Review" "09:00" "09:45" 45 "scheduled" [] []] = Some (Ok free) /\
    sublist free Enhanced._generate_time_slots /\
    (forall slot, slot ∈ free <->
       slot ∈ Enhanced._generate_time_slots /\
       ~ exists apt start k,
           apt ∈ [Parsed "Review" "09:00" "09:45" 45 "scheduled" [] []] /\
           strptime_H_M (p_start_time apt) = Ok start /\
           0 <= k /\ 30 * k < p_duration_minutes apt /\
           slot = format_H_M (start + 30 * k)).
Proof.
  apply (free_time_is_what_no_appointment_covers Enhanced._generate_time_slots 3
           [Parsed "Review" "09:00" "09:45" 45 "scheduled" [] []]).
  constructor; [|constructor].
  split; [reflexivity|]. split; [vm_compute; discriminate|].
  split; [vm_compute; discriminate|]. split; [lia | vm_compute; discriminate].
Defined.

Lemma off_grid_appointments_block_nothing_witness :
  calculate_free_time Enhanced._generate_time_slots 3
    [Parsed "Review" "09:15" "10:00" 45 "scheduled" [] []]
  = Some (Ok Enhanced._generate_time_slots).
Proof.
  apply (off_grid_appointments_block_nothing 3
           [Parsed "Review" "09:15" "10:00" 45 "scheduled" [] []]).
  - constructor; [|constructor].
    split; [reflexivity|]. split; [vm_compute; discriminate|].
    split; [vm_compute; discriminate|]. split; [lia | vm_compute; discriminate].
  - constructor; [|constructor]. exists 555. split; [reflexivity | discriminate].
Defined.

Lemma appointment_blocks_rounded_up_witness :
  let apt := Parsed "Review" "09:00" "09:45" 45 "scheduled" [] [] in
  let d := p_duration_minutes apt in
  let blocked := (d + 29) / 30 in
  calculate_free_time Enhanced._generate_time_slots 3 [apt]
  = Some (Ok (take (Z.to_nat 6) Enhanced._generate_time_slots
              ++ drop (Z.to_nat (6 + blocked)) Enhanced._generate_time_slots)) /\
  get_appointment_height d
  = 40 * (if (d mod 30 =? 0) || (d <? 30) then blocked else blocked - 1).
Proof.
  intros apt.
  apply (appointment_blocks_rounded_up 3 apt 6);
    [lia | reflexivity | cbn; lia | lia | cbn; lia].
Defined.

Lemma parse_appointment_fills_duration_witness :
  let apt := Appointment "Review" "09:00" "08:15" None None None None in
  exists parsed,
    parse_appointment apt = Ok parsed /\
    p_duration_minutes parsed
    = match duration_minutes apt with
      | Some d => d
      | None => (8 * 60 + 15) - (9 * 60 + 0)
      end /\
    p_status parsed = match status apt with Some s => s | None => "scheduled" end /\
    p_start_time parsed = start_time apt /\
    40 <= get_appointment_height (p_duration_minutes parsed) /\
    (duration_minutes apt = None -> 8 * 60 + 15 <= 9 * 60 + 0 ->
     covered_labels parsed = []).
Proof.
  intros apt.
  apply (parse_appointment_fills_duration apt 9 0 8 15);
    [lia | lia | lia | lia | reflexivity | reflexivity].
Defined.

End PlannerScenarios.

Section SafeFilter.
Context {parser : IsoParser} {space_parser : SimpleFix.SpaceParser}.

Lemma safe_filter_loop_from (week_start week_end : datetime) (events : list event)
    (acc : list event) (n : Z) :
  fold_left
    (fun '(week_events, parsing_errors) ev =>
       match SimpleFix.check_event week_start week_end ev with
       | SimpleFix.Match => (week_events ++ [ev], parsing_errors)
       | SimpleFix.NoMatch => (week_events, parsing_errors)
       | SimpleFix.ParsingError => (week_events, parsing_errors + 1)
       end) events (acc, n)
  = (acc ++ List.filter
              (fun ev => match SimpleFix.check_event week_start week_end ev with
                         | SimpleFix.Match => true
                         | _ => false
                         end) events,
     n + Z.of_nat (length
            (List.filter
               (fun ev => match SimpleFix.check_event week_start week_end ev with
                          | SimpleFix.ParsingError => true
                          | _ => false
                          end) events))).
Proof.
  revert acc n. induction events as [|ev events IH]; intros acc n.
  - simpl. rewrite app_nil_r, Z.add_0_r. reflexivity.
  - cbn [fold_left List.filter].
    destruct (SimpleFix.check_event week_start week_end ev); rewrite IH.
    + rewrite <- app_assoc. reflexivity.
    + reflexivity.
    + cbn [length]. f_equal. lia.
Qed.

(** An event the export's filter keeps is a match of the safe filter. *)
Lemma kept_is_match (week_start week_end : datetime) (ev : event) :
  kept week_start week_end ev = true ->
  SimpleFix.check_event week_start week_end ev = SimpleFix.Match.
Proof.
  unfold kept, in_week, SimpleFix.check_event, SimpleFix.safe_parse_datetime, parse_iso.
  destruct (truthy (get ev "startTime" (VStr ""))); [|discriminate]. cbn [negb].
  destruct (get ev "startTime" (VStr "")) as [| | |s|]; try discriminate.
  cbn [replace_Z_value mbind result_bind].
  destruct (fromisoformat (replace_Z s)) as [d|]; [|discriminate].
  cbn [mbind result_bind].
  destruct (dt_le week_start d) as [[|]|] eqn:Hlo; cbn [mbind result_bind];
    try discriminate.
  destruct (dt_le d week_end) as [[|]|] eqn:Hhi; try discriminate. intros _.
  assert (Ha : SimpleFix.align week_start d = d).
  { unfold SimpleFix.align. destruct (utcoffset d) eqn:Hd; [reflexivity|].
    apply dt_le_Ok_aware in Hlo. unfold aware in Hlo. rewrite Hd in Hlo.
    destruct (utcoffset week_start) eqn:Hw; [discriminate Hlo|].
    destruct d; simpl in *. subst. reflexivity. }
  rewrite Ha, Hlo. cbn [mbind result_bind]. rewrite Hhi. reflexivity.
Qed.

(** X25: [filter_events_safe] returns events in input order and keeps every
    event that [filter_events_for_week] keeps for the same bounds; the
    number of parsing errors it reports is the number of events whose start
    cannot be parsed or compared, and kept and failed events together are at
    most the input. *)
Theorem filter_events_safe_keeps_more (events : list event) (ws we : value)
    (week_start week_end : datetime) :
  SimpleFix.safe_parse_datetime ws = Some week_start ->
  SimpleFix.safe_parse_datetime we = Some week_end ->
  exists week_events parsing_errors,
    SimpleFix.filter_events_safe events ws we = (week_events, Some parsing_errors) /\
    sublist week_events events /\
    incl (filter_events_for_week events week_start week_end) week_events /\
    parsing_errors
    = Z.of_nat (length (List.filter
                          (fun ev => match SimpleFix.check_event week_start week_end ev with
                                     | SimpleFix.ParsingError => true
                                     | _ => false
                                     end) events)) /\
    (Z.of_nat (length week_events) + parsing_errors <= Z.of_nat (length events)).
Proof.
  intros Hws Hwe. unfold SimpleFix.filter_events_safe, SimpleFix.filter_loop.
  rewrite Hws, Hwe, safe_filter_loop_from. cbn [app Z.add].
  eexists _, _. split; [reflexivity|]. split; [|split; [|split; [reflexivity|]]].
  - induction events as [|ev events IH]; simpl; [constructor|].
    destruct (SimpleFix.check_event _ _ ev);
      [apply sublist_skip | apply sublist_cons | apply sublist_cons]; exact IH.
  - intros ev. rewrite filter_events_for_week_filter, !filter_In.
    intros [Hin Hk]. split; [exact Hin|]. rewrite (kept_is_match _ _ _ Hk). reflexivity.
  - induction events as [|ev events IH]; simpl; [lia|].
    destruct (SimpleFix.check_event _ _ ev); cbn [length]; lia.
Qed.

(** X26: With a naive week start, an event whose start carries a UTC offset
    is not kept by [filter_events_safe] either: the comparison raises, and
    the event is counted as a parsing error. *)
Theorem filter_events_safe_counts_aware_event (events : list event) (ws we : value)
    (week_start week_end : datetime) (ev : event) (d : datetime) :
  SimpleFix.safe_parse_datetime ws = Some week_start ->
  SimpleFix.safe_parse_datetime we = Some week_end ->
  In ev events ->
  SimpleFix.safe_parse_datetime (get ev "startTime" (VStr "")) = Some d ->
  aware d = true -> aware week_start = false ->
  exists week_events parsing_errors,
    SimpleFix.filter_events_safe events ws we = (week_events, Some parsing_errors) /\
    ~ In ev week_events /\
    1 <= parsing_errors.
Proof.
  intros Hws Hwe Hin Hd Had Haw.
  assert (Hcheck : SimpleFix.check_event week_start week_end ev = SimpleFix.ParsingError).
  { unfold SimpleFix.check_event. rewrite Hd.
    assert (Ht : truthy (get ev "startTime" (VStr "")) = true).
    { unfold SimpleFix.safe_parse_datetime in Hd.
      destruct (truthy _); [reflexivity | discriminate Hd]. }
    rewrite Ht. cbn [negb]. unfold aware in Had, Haw.
    destruct (utcoffset d) as [o|] eqn:Hdo; [|discriminate Had].
    unfold SimpleFix.align. rewrite Hdo. unfold dt_le. rewrite Hdo.
    destruct (utcoffset week_start); [discriminate Haw|]. reflexivity. }
  unfold SimpleFix.filter_events_safe, SimpleFix.filter_loop.
  rewrite Hws, Hwe, safe_filter_loop_from. cbn [app Z.add].
  eexists _, _. split; [reflexivity|]. split.
  - rewrite filter_In, Hcheck. intros [_ [=]].
  - assert (Hl : In ev (List.filter
                          (fun ev => match SimpleFix.check_event week_start week_end ev with
                                     | SimpleFix.ParsingError => true
                                     | _ => false
                                     end) events)).
    { apply filter_In. rewrite Hcheck. auto. }
    destruct (List.filter _ events); [destruct Hl | cbn [length]; lia].
Qed.

(** X27: A naive event start is given the offset of the week start before it
    is compared: when both bounds have the same offset (or none) such an
    event never counts as an error, and it is kept exactly when its wall-
    clock fields lie between those of the bounds. *)
Theorem filter_events_safe_aligns_naive_event (events : list event) (ws we : value)
    (week_start week_end : datetime) (ev : event) (d : datetime) :
  SimpleFix.safe_parse_datetime ws = Some week_start ->
  SimpleFix.safe_parse_datetime we = Some week_end ->
  In ev events ->
  SimpleFix.safe_parse_datetime (get ev "startTime" (VStr "")) = Some d ->
  aware d = false ->
  utcoffset week_start = utcoffset week_end ->
  SimpleFix.check_event week_start week_end ev <> SimpleFix.ParsingError /\
  (In ev (SimpleFix.filter_events_safe events ws we).1 <->
   lex_compare (fields week_start) (fields d) <> Gt /\
   lex_compare (fields d) (fields week_end) <> Gt).
Proof.
  intros Hws Hwe Hin Hd Had Hoff.
  assert (Ht : truthy (get ev "startTime" (VStr "")) = true).
  { unfold SimpleFix.safe_parse_datetime in Hd.
    destruct (truthy _); [reflexivity | discriminate Hd]. }
  assert (Hcheck : SimpleFix.check_event week_start week_end ev
                   = if match lex_compare (fields week_start) (fields d) with
                        | Gt => false | _ => true end
                        && match lex_compare (fields d) (fields week_end) with
                           | Gt => false | _ => true end
                     then SimpleFix.Match else SimpleFix.NoMatch).
  { unfold SimpleFix.check_event. rewrite Hd, Ht. cbn [negb].
    unfold SimpleFix.align, aware in *.
    destruct (utcoffset d) eqn:Hdo; [discriminate Had|].
    assert (Hf : forall o, fields (mkdt (year d) (month d) (day d) (hour d) (minute d)
                                        (second d) (microsecond d) o) = fields d)
      by reflexivity.
    unfold dt_le. cbn [utcoffset]. rewrite !Hf, <- Hoff.
    destruct (utcoffset week_start) as [o|].
    - rewrite Z.eqb_refl. cbn [mbind result_bind].
      destruct (lex_compare (fields week_start) (fields d));
        destruct (lex_compare (fields d) (fields week_end)); reflexivity.
    - cbn [mbind result_bind].
      destruct (lex_compare (fields week_start) (fields d));
        destruct (lex_compare (fields d) (fields week_end)); reflexivity. }
  split.
  - rewrite Hcheck. destruct (_ && _); discriminate.
  - unfold SimpleFix.filter_events_safe, SimpleFix.filter_loop.
    rewrite Hws, Hwe, safe_filter_loop_from. cbn [app fst].
    rewrite filter_In, Hcheck.
    destruct (lex_compare (fields week_start) (fields d));
      destruct (lex_compare (fields d) (fields week_end)); cbn [andb];
      split; intros H; try (split; [exact Hin|reflexivity]);
      try (split; discriminate); try (destruct H as [_ [=]]);
      try (destruct H as [H1 H2]; congruence).
Qed.

End SafeFilter.

Section SafeFilterScenarios.
#[local] Existing Instance reference_parser.
#[local] Existing Instance SimpleFix.reference_space_parser.

Lemma filter_events_safe_keeps_more_witness :
  exists week_events parsing_errors,
    SimpleFix.filter_events_safe [coffee_local; not_a_date]
      (VStr "2025-07-14T00:00:00Z") (VStr "2025-07-20T23:59:59Z")
    = (week_events, Some parsing_errors) /\
    sublist week_events [coffee_local; not_a_date] /\
    incl (filter_events_for_week [coffee_local; not_a_date]
            (mkdt 2025 7 14 0 0 0 0 (Some 0)) (mkdt 2025 7 20 23 59 59 0 (Some 0)))
         week_events /\
    parsing_errors
    = Z.of_nat (length (List.filter
                          (fun ev => match SimpleFix.check_event
                                             (mkdt 2025 7 14 0 0 0 0 (Some 0))
                                             (mkdt 2025 7 20 23 59 59 0 (Some 0)) ev with
                                     | SimpleFix.ParsingError => true
                                     | _ => false
                                     end) [coffee_local; not_a_date])) /\
    (Z.of_nat (length week_events) + parsing_errors
     <= Z.of_nat (length [coffee_local; not_a_date])).
Proof.
  apply (filter_events_safe_keeps_more [coffee_local; not_a_date]
           (VStr "2025-07-14T00:00:00Z") (VStr "2025-07-20T23:59:59Z"));
    reflexivity.
Defined.

Lemma filter_events_safe_counts_aware_event_witness :
  exists week_events parsing_errors,
    SimpleFix.filter_events_safe [coffee] (VStr "2025-07-14") (VStr "2025-07-20")
    = (week_events, Some parsing_errors) /\
    ~ In coffee week_events /\
    1 <= parsing_errors.
Proof.
  apply (filter_events_safe_counts_aware_event [coffee] (VStr "2025-07-14")
           (VStr "2025-07-20") monday sunday coffee (mkdt 2025 7 14 8 0 0 0 (Some 0)));
    [reflexivity | reflexivity | left; reflexivity | reflexivity | reflexivity
    | reflexivity].
Defined.

Lemma filter_events_safe_aligns_naive_event_witness :
  SimpleFix.check_event (mkdt 2025 7 14 0 0 0 0 (Some 0))
    (mkdt 2025 7 20 23 59 59 0 (Some 0)) coffee_local <> SimpleFix.ParsingError /\
  (In coffee_local
      (SimpleFix.filter_events_safe [coffee_local]
         (VStr "2025-07-14T00:00:00Z") (VStr "2025-07-20T23:59:59Z")).1 <->
   lex_compare (fields (mkdt 2025 7 14 0 0 0 0 (Some 0))) (fields eight_o_clock) <> Gt /\
   lex_compare (fields eight_o_clock) (fields (mkdt 2025 7 20 23 59 59 0 (Some 0))) <> Gt).
Proof.
  apply (filter_events_safe_aligns_naive_event [coffee_local]
           (VStr "2025-07-14T00:00:00Z") (VStr "2025-07-20T23:59:59Z")
           (mkdt 2025 7 14 0 0 0 0 (Some 0)) (mkdt 2025 7 20 23 59 59 0 (Some 0))
           coffee_local eight_o_clock);
    [reflexivity | reflexivity | left; reflexivity | reflexivity | reflexivity
    | reflexivity].
Defined.

End SafeFilterScenarios.
